(** * libiotclient: the IOT Hub client library (src/iotclient.c)

    A shallow embedding of the client library and the properties of its
    header codec, its control-channel and body-channel transports, its
    receiver and the life cycle of the client handle. *)

From Stdlib Require Import ZArith Lia String Ascii DecimalString DecimalZ DecimalPos.
From stdpp Require Import base option list gmap strings.

Local Open Scope Z_scope.

(** * Machine integers, characters and result codes *)

(** [size_t] on the 64-bit Linux targets of the library. *)
Definition SIZE_MOD : Z := 2 ^ 64.
Definition to_size_t (z : Z) : Z := z mod SIZE_MOD.

(** Result codes: [EOK] from iotclient.h, the others from <errno.h>. *)
Definition EOK : Z := 0.
Definition ENOENT : Z := 2.
Definition EIO : Z := 5.
Definition EBADF : Z := 9.
Definition EEXIST : Z := 17.
Definition ENOMEM : Z := 12.
Definition EINVAL : Z := 22.
Definition EMSGSIZE : Z := 90.

(** iotclient.h: [#define MAX_IOT_MSG_SIZE ( 256 * 1024 * 1024 )]. *)
Definition MAX_IOT_MSG_SIZE : Z := 256 * 1024 * 1024.

(** Characters are bytes, held in [Z]. *)
Definition NUL : Z := 0.
Definition LF : Z := 10.
Definition COLON : Z := 58.

(** The bytes of a string literal, without its terminator. *)
Definition lit (s : string) : list Z :=
  (fun c => Z.of_N (N_of_ascii c)) <$> list_ascii_of_string s.

(** * C strings in memory

    A [char *] argument is modelled by the bytes found in memory from the
    pointer on: the characters of the string, its terminator and whatever is
    stored behind it.  Positions past the modelled bytes read as NUL. *)

Definition rd (m : list Z) (i : nat) : Z := default NUL (m !! i).

(** The characters before the first NUL. *)
Fixpoint cstr (m : list Z) : list Z :=
  match m with
  | [] => []
  | c :: m' => if c =? NUL then [] else c :: cstr m'
  end.

Definition strlen (m : list Z) : nat := length (cstr m).

(** [starts n h]: the characters [n] are found at the start of [h]. *)
Fixpoint starts (n h : list Z) : bool :=
  match n, h with
  | [], _ => true
  | _ :: _, [] => false
  | x :: n', y :: h' => (x =? y) && starts n' h'
  end.

(** Offset of the first occurrence of [n] in [h], scanning from [off]. *)
Fixpoint find_from (n h : list Z) (off : nat) : option nat :=
  if starts n h then Some off
  else match h with
       | [] => None
       | _ :: h' => find_from n h' (S off)
       end.

(** [strstr(haystack, needle)]: both arguments are C strings; the result is
    the offset into [haystack] of the first occurrence, [None] for NULL. *)
Definition strstr (haystack needle : list Z) : option nat :=
  find_from (cstr needle) (cstr haystack) 0.

(** * IOTCLIENT_GetProperty *)

(** The copy loop: [while ( i < len )], with [v] the offset of [p] after
    [p = &p[plen+1]] and [k] the iterations that remain. *)
Fixpoint GetProperty_loop (m : list Z) (v : nat) (k : nat) (i : nat)
    (buf : list Z) (result : Z) : Z * list Z :=
  match k with
  | O => (result, buf)
  | S k' =>
      let c := rd m (v + i) in
      if (c =? LF) || (c =? NUL)
      then GetProperty_loop m v k' (S i) (<[i := 0]> buf) EOK
      else GetProperty_loop m v k' (S i) (<[i := c]> buf) result
  end.

(** Pointers that may be NULL are options.  The result is the return value
    and the caller's buffer after the call. *)
Definition IOTCLIENT_GetProperty (headers property : option (list Z))
    (buf : option (list Z)) (len : nat) : Z * option (list Z) :=
  match headers, property, buf with
  | Some h, Some pr, Some b =>
      if (0 <? len)%nat then
        let plen := strlen pr in
        match strstr h pr with
        | Some p =>
            if rd h (p + plen) =? COLON
            then let '(r, b') := GetProperty_loop h (p + plen + 1) len 0 b ENOMEM in
                 (r, Some b')
            else (ENOENT, buf)
        | None => (ENOENT, buf)
        end
      else (EINVAL, buf)
  | _, _, _ => (EINVAL, buf)
  end.

(** * Vocabulary of the header codec's properties *)

Definition is_end (c : Z) : bool := (c =? LF) || (c =? NUL).

(** What the copy loop stores for a character read. *)
Definition stored (c : Z) : Z := if is_end c then 0 else c.

(** The characters of a property value: those before the next LF or NUL. *)
Fixpoint upto_end (m : list Z) : list Z :=
  match m with
  | [] => []
  | c :: m' => if is_end c then [] else c :: upto_end m'
  end.

Definition prop_value (m : list Z) (v : nat) : list Z := upto_end (drop v m).

(** [n] occurs in [h] as a contiguous run of characters. *)
Definition occurs (n h : list Z) : Prop := ∃ pre post, h = pre ++ n ++ post.

(** Some character among [k] of them, from offset [v + i] on, ends a value. *)
Definition end_within (m : list Z) (v i k : nat) : bool :=
  existsb (fun j => is_end (rd m (v + j))) (seq i k).


(** * The process, its heap and its operating system *)

(** Heap addresses; a pointer is an address or NULL ([None]). *)
Definition loc := positive.
Definition ptr := option loc.

(** A [char *] into a heap block: the block and an offset, or NULL. *)
Definition cptr := option (loc * nat).

(** [struct IotClient]. *)
Record IotClient := mkIotClient {
  msgQ : Z;
  verbose : bool;
  txMsgQ : Z;
  rxMsgQ : Z;
  maxMessageSize : Z;
  txBuf : ptr;
  rxBuf : ptr;
  rxBufSize : Z;
  pid : Z;
  fifoName : ptr
}.

Definition set_verbose (v : bool) (c : IotClient) : IotClient :=
  mkIotClient (msgQ c) v (txMsgQ c) (rxMsgQ c) (maxMessageSize c)
    (txBuf c) (rxBuf c) (rxBufSize c) (pid c) (fifoName c).
Definition set_txMsgQ (v : Z) (c : IotClient) : IotClient :=
  mkIotClient (msgQ c) (verbose c) v (rxMsgQ c) (maxMessageSize c)
    (txBuf c) (rxBuf c) (rxBufSize c) (pid c) (fifoName c).
Definition set_rxMsgQ (v : Z) (c : IotClient) : IotClient :=
  mkIotClient (msgQ c) (verbose c) (txMsgQ c) v (maxMessageSize c)
    (txBuf c) (rxBuf c) (rxBufSize c) (pid c) (fifoName c).
Definition set_maxMessageSize (v : Z) (c : IotClient) : IotClient :=
  mkIotClient (msgQ c) (verbose c) (txMsgQ c) (rxMsgQ c) v
    (txBuf c) (rxBuf c) (rxBufSize c) (pid c) (fifoName c).
Definition set_txBuf (v : ptr) (c : IotClient) : IotClient :=
  mkIotClient (msgQ c) (verbose c) (txMsgQ c) (rxMsgQ c) (maxMessageSize c)
    v (rxBuf c) (rxBufSize c) (pid c) (fifoName c).
Definition set_rxBuf (v : ptr) (c : IotClient) : IotClient :=
  mkIotClient (msgQ c) (verbose c) (txMsgQ c) (rxMsgQ c) (maxMessageSize c)
    (txBuf c) v (rxBufSize c) (pid c) (fifoName c).
Definition set_rxBufSize (v : Z) (c : IotClient) : IotClient :=
  mkIotClient (msgQ c) (verbose c) (txMsgQ c) (rxMsgQ c) (maxMessageSize c)
    (txBuf c) (rxBuf c) v (pid c) (fifoName c).
Definition set_pid (v : Z) (c : IotClient) : IotClient :=
  mkIotClient (msgQ c) (verbose c) (txMsgQ c) (rxMsgQ c) (maxMessageSize c)
    (txBuf c) (rxBuf c) (rxBufSize c) v (fifoName c).
Definition set_fifoName (v : ptr) (c : IotClient) : IotClient :=
  mkIotClient (msgQ c) (verbose c) (txMsgQ c) (rxMsgQ c) (maxMessageSize c)
    (txBuf c) (rxBuf c) (rxBufSize c) (pid c) v.

(** What [calloc( 1, sizeof( struct IotClient ) )] yields: all bytes zero. *)
Definition zero_client : IotClient :=
  mkIotClient 0 false 0 0 0 None None 0 0 None.

(** A heap block holds a client object or an array of bytes. *)
Inductive object :=
  | OClient (c : IotClient)
  | OBytes (bs : list Z).

(** The state of the process and of the system around it.  Descriptors are
    kept as naturals; the C code holds them in [int]s, with -1 for none. *)
Record World := mkWorld {
  heap : gmap loc object;        (* live heap blocks *)
  mqs : gmap nat Z;              (* open queue descriptors, with the
                                    mq_msgsize of the queue each refers to *)
  fds : gset nat;                (* open file descriptors *)
  fifos : gset (list Z);         (* paths of the FIFOs in the file system *)
  queues : gmap (list Z) Z;      (* names of the message queues of the
                                    system, with their mq_msgsize *)
  errno : Z;
  self : Z;                      (* what getpid() returns *)
  clock : nat;                   (* system and library calls made so far *)
  sent : list (nat * list Z);    (* messages accepted by mq_send, latest first *)
  piped : list (nat * Z)         (* byte counts accepted by write, latest first *)
}.

Definition set_heap (f : gmap loc object → gmap loc object) (w : World) : World :=
  mkWorld (f (heap w)) (mqs w) (fds w) (fifos w) (queues w) (errno w) (self w)
    (clock w) (sent w) (piped w).
Definition set_mqs (f : gmap nat Z → gmap nat Z) (w : World) : World :=
  mkWorld (heap w) (f (mqs w)) (fds w) (fifos w) (queues w) (errno w) (self w)
    (clock w) (sent w) (piped w).
Definition set_fds (f : gset nat → gset nat) (w : World) : World :=
  mkWorld (heap w) (mqs w) (f (fds w)) (fifos w) (queues w) (errno w) (self w)
    (clock w) (sent w) (piped w).
Definition set_fifos (f : gset (list Z) → gset (list Z)) (w : World) : World :=
  mkWorld (heap w) (mqs w) (fds w) (f (fifos w)) (queues w) (errno w) (self w)
    (clock w) (sent w) (piped w).
Definition set_queues (f : gmap (list Z) Z → gmap (list Z) Z) (w : World) : World :=
  mkWorld (heap w) (mqs w) (fds w) (fifos w) (f (queues w)) (errno w) (self w)
    (clock w) (sent w) (piped w).
Definition set_errno (e : Z) (w : World) : World :=
  mkWorld (heap w) (mqs w) (fds w) (fifos w) (queues w) e (self w)
    (clock w) (sent w) (piped w).
Definition tick (w : World) : World :=
  mkWorld (heap w) (mqs w) (fds w) (fifos w) (queues w) (errno w) (self w)
    (S (clock w)) (sent w) (piped w).
Definition log_sent (d : nat) (msg : list Z) (w : World) : World :=
  mkWorld (heap w) (mqs w) (fds w) (fifos w) (queues w) (errno w) (self w)
    (clock w) ((d, msg) :: sent w) (piped w).
Definition log_piped (d : nat) (n : Z) (w : World) : World :=
  mkWorld (heap w) (mqs w) (fds w) (fifos w) (queues w) (errno w) (self w)
    (clock w) (sent w) ((d, n) :: piped w).

(** What the system decides: for the call made at instant [t], whether it
    fails for a reason of the system's own and with which errno, the count
    or message it yields when it succeeds, and the block size of the C
    library's stdio.h, [BUFSIZ]. *)
Record OS := mkOS {
  os_fail : nat → option positive;
  os_val : nat → N;
  os_data : nat → list Z;
  BUFSIZ : positive
}.

(** ** The monad of the embedding

    A computation runs on a world and returns a value and the next world,
    unless it has undefined behaviour (a dangling or wild pointer is used)
    or a loop is cut off for lack of fuel. *)
Inductive Res (A : Type) :=
  | UB
  | OutOfFuel
  | Ret (a : A) (w : World).
Arguments UB {A}.
Arguments OutOfFuel {A}.
Arguments Ret {A} a w.

Definition M (A : Type) : Type := World → Res A.

Definition ret {A} (a : A) : M A := fun w => Ret a w.
Definition bind {A B} (m : M A) (k : A → M B) : M B :=
  fun w => match m w with
           | UB => UB
           | OutOfFuel => OutOfFuel
           | Ret a w' => k a w'
           end.
Definition undefined {A} : M A := fun _ => UB.
Definition get_world : M World := fun w => Ret w w.
Definition modify (f : World → World) : M unit := fun w => Ret tt (f w).

Notation "'do' x <- m ; k" := (bind m (fun x => k))
  (at level 10, x name, m at level 100, k at level 200,
   format "'[v' 'do'  x  <-  m ; '/' k ']'").
Notation "'run' m ; k" := (bind m (fun _ => k))
  (at level 10, m at level 100, k at level 200,
   format "'[v' 'run'  m ; '/' k ']'").

(** ** Heap access *)

Definition load_client (l : loc) : M IotClient :=
  fun w => match heap w !! l with
           | Some (OClient c) => Ret c w
           | _ => UB
           end.

(** A write to one or several fields of the object [l] points to. *)
Definition update_client (l : loc) (f : IotClient → IotClient) : M unit :=
  do c <- load_client l;
  modify (set_heap (insert l (OClient (f c)))).

Definition load_bytes (l : loc) : M (list Z) :=
  fun w => match heap w !! l with
           | Some (OBytes bs) => Ret bs w
           | _ => UB
           end.

Definition store_bytes (l : loc) (bs : list Z) : M unit :=
  run load_bytes l;
  modify (set_heap (insert l (OBytes bs))).

(** [memcpy(&dst[off], src, length src)]; writing outside [dst] is
    undefined. *)
Definition memcpy (dst : list Z) (off : nat) (src : list Z) : option (list Z) :=
  if (off + length src <=? length dst)%nat
  then Some (take off dst ++ src ++ drop (off + length src) dst)
  else None.

(** The object representation of a 4-byte [pid_t] (little-endian). *)
Definition pid_bytes (p : Z) : list Z :=
  [ Z.land p 255; Z.land (Z.shiftr p 8) 255;
    Z.land (Z.shiftr p 16) 255; Z.land (Z.shiftr p 24) 255 ].

(** ** The system and library calls the client makes

    Each call advances the clock.  A call fails when its arguments make it
    fail (a name that does not exist, a descriptor that is not open) or when
    the system says so ([os_fail]); a failing call sets errno. *)
Section Calls.
Variable os : OS.

Definition now : M nat := fun w => Ret (clock w) (tick w).

Definition fail_with {A} (e : Z) (r : A) : M A :=
  run modify (set_errno e); ret r.

(** [calloc]: a fresh block, zero-filled by the caller of this function
    through [init], or NULL. *)
Definition calloc (init : object) : M ptr :=
  do t <- now;
  match os_fail os t with
  | Some _ => fail_with ENOMEM None
  | None =>
      do w <- get_world;
      let l := fresh (dom (heap w)) in
      run modify (set_heap (insert l init));
      ret (Some l)
  end.

(** [free]: NULL is ignored; freeing what is not a live block is undefined. *)
Definition free (p : ptr) : M unit :=
  match p with
  | None => ret tt
  | Some l =>
      do w <- get_world;
      match heap w !! l with
      | Some _ => modify (set_heap (delete l))
      | None => undefined
      end
  end.

(** [asprintf(&p, ...)] for the formatted text [s]: a fresh block holding
    the text and its terminator, and the length of the text; or -1, the
    pointer being left as it was. *)
Definition asprintf (s : list Z) : M (Z * ptr) :=
  do p <- calloc (OBytes (s ++ [NUL]));
  match p with
  | Some _ => ret (Z.of_nat (length s), p)
  | None => ret (-1, None)
  end.

Definition getpid : M Z := run now; do w <- get_world; ret (self w).

(** [mq_open(name, O_WRONLY)] when [create] is [None];
    [mq_open(name, O_RDONLY | O_CREAT, 0666, &attr)] with
    [attr.mq_msgsize = size] when [create] is [Some size].  The result is
    the descriptor, or -1. *)
Definition mq_open (name : list Z) (create : option Z) : M Z :=
  do t <- now;
  do w <- get_world;
  match os_fail os t with
  | Some e => fail_with (Z.pos e) (-1)
  | None =>
      match queues w !! name, create with
      | None, None => fail_with ENOENT (-1)
      | None, Some size =>
          let d := fresh (dom (mqs w)) in
          run modify (set_queues (insert name size));
          run modify (set_mqs (insert d size));
          ret (Z.of_nat d)
      | Some size, _ =>
          let d := fresh (dom (mqs w)) in
          run modify (set_mqs (insert d size));
          ret (Z.of_nat d)
      end
  end.

(** The open queue a descriptor value refers to, if any. *)
Definition mq_lookup (w : World) (q : Z) : option (nat * Z) :=
  if q <? 0 then None
  else match mqs w !! Z.to_nat q with
       | Some size => Some (Z.to_nat q, size)
       | None => None
       end.

(** [mq_getattr(q, &attr)]: [Some attr.mq_msgsize], or [None] for -1. *)
Definition mq_getattr (q : Z) : M (option Z) :=
  do t <- now;
  do w <- get_world;
  match os_fail os t, mq_lookup w q with
  | None, Some (_, size) => ret (Some size)
  | Some e, _ => fail_with (Z.pos e) None
  | None, None => fail_with EBADF None
  end.

Definition mq_close (q : Z) : M Z :=
  run now;
  do w <- get_world;
  match mq_lookup w q with
  | Some (d, _) => run modify (set_mqs (delete d)); ret 0
  | None => fail_with EBADF (-1)
  end.

(** [mq_send(q, msg, length msg, 0)]. *)
Definition mq_send (q : Z) (msg : list Z) : M Z :=
  do t <- now;
  do w <- get_world;
  match mq_lookup w q with
  | None => fail_with EBADF (-1)
  | Some (d, size) =>
      if size <? Z.of_nat (length msg) then fail_with EMSGSIZE (-1)
      else match os_fail os t with
           | Some e => fail_with (Z.pos e) (-1)
           | None => run modify (log_sent d msg); ret 0
           end
  end.

(** [mq_receive(q, buf, size, &prio)]: the message the system delivers is
    copied to the start of the block [buf]; the result is its length. *)
Definition mq_receive (q : Z) (buf : loc) (size : Z) : M Z :=
  do t <- now;
  do w <- get_world;
  match mq_lookup w q with
  | None => fail_with EBADF (-1)
  | Some (_, msgsize) =>
      if size <? msgsize then fail_with EMSGSIZE (-1)
      else match os_fail os t with
           | Some e => fail_with (Z.pos e) (-1)
           | None =>
               let msg := take (Z.to_nat msgsize) (os_data os t) in
               do old <- load_bytes buf;
               match memcpy old 0 msg with
               | Some new => run store_bytes buf new; ret (Z.of_nat (length msg))
               | None => undefined
               end
           end
  end.

(** [mkfifo(path, 0666)]. *)
Definition mkfifo (path : list Z) : M Z :=
  do t <- now;
  do w <- get_world;
  if bool_decide (path ∈ fifos w) then fail_with EEXIST (-1)
  else match os_fail os t with
       | Some e => fail_with (Z.pos e) (-1)
       | None => run modify (set_fifos (union {[path]})); ret 0
       end.

Definition unlink (path : list Z) : M Z :=
  run now;
  do w <- get_world;
  if bool_decide (path ∈ fifos w)
  then run modify (set_fifos (fun s => s ∖ {[path]})); ret 0
  else fail_with ENOENT (-1).

(** [open(path, O_WRONLY)]. *)
Definition open_wronly (path : list Z) : M Z :=
  do t <- now;
  do w <- get_world;
  if bool_decide (path ∈ fifos w)
  then match os_fail os t with
       | Some e => fail_with (Z.pos e) (-1)
       | None =>
           let d := fresh (fds w) in
           run modify (set_fds (union {[d]})); ret (Z.of_nat d)
       end
  else fail_with ENOENT (-1).

Definition close (fd : Z) : M Z :=
  run now;
  do w <- get_world;
  if bool_decide (0 ≤ fd ∧ Z.to_nat fd ∈ fds w)
  then run modify (set_fds (fun s => s ∖ {[Z.to_nat fd]})); ret 0
  else fail_with EBADF (-1).

(** [write(fd, buf, n)]: the result is the count the system accepted, at
    most [n], or -1.  Only the count is recorded. *)
Definition write (fd : Z) (n : Z) : M Z :=
  do t <- now;
  do w <- get_world;
  if bool_decide (0 ≤ fd ∧ Z.to_nat fd ∈ fds w)
  then match os_fail os t with
       | Some e => fail_with (Z.pos e) (-1)
       | None =>
           let r := Z.min n (Z.of_N (os_val os t)) in
           run modify (log_piped (Z.to_nat fd) r); ret r
       end
  else fail_with EBADF (-1).

(** [read(fd, buf, BUFSIZ)] on the caller's descriptor: the count of bytes
    the source yields, at most [BUFSIZ]; 0 at its end; -1 for an error. *)
Definition read (fd : Z) : M Z :=
  do t <- now;
  match os_fail os t with
  | Some e => fail_with (Z.pos e) (-1)
  | None => ret (Z.min (Z.pos (BUFSIZ os)) (Z.of_N (os_val os t)))
  end.

End Calls.

(** * The client library *)

Section Client.
Variable os : OS.

(** [#define MESSAGE_QUEUE_NAME "/iothub"]. *)
Definition MESSAGE_QUEUE_NAME : list Z := lit "/iothub".

(** The text ["/tmp/iothub_%d"] formats for a process id. *)
Definition fifo_path (p : Z) : list Z :=
  lit "/tmp/iothub_" ++ lit (NilZero.string_of_int (Z.to_int p)).

(** [iotclient_log]: the text goes to standard output, which is not
    modelled; the handle is read. *)
Definition iotclient_log (h : ptr) : M unit :=
  match h with
  | Some l => run load_client l; ret tt
  | None => ret tt
  end.

Definition iotclient_DestroyFIFO (h : ptr) : M unit :=
  match h with
  | Some l =>
      do c <- load_client l;
      match fifoName c with
      | Some name =>
          do path <- load_bytes name;
          run unlink (cstr path);
          run free (Some name);
          update_client l (set_fifoName None)
      | None => ret tt
      end
  | None => ret tt
  end.

Definition iotclient_CreateFIFO (h : ptr) : M Z :=
  match h with
  | Some l =>
      do p <- getpid;
      run update_client l (set_pid p);
      do r <- asprintf os (fifo_path p);
      let '(n, name) := r in
      run match name with
          | Some _ => update_client l (set_fifoName name)
          | None => ret tt
          end;
      do c <- load_client l;
      match fifoName c with
      | Some name =>
          if 0 <? n then
            do path <- load_bytes name;
            do rc <- mkfifo os (cstr path);
            if rc =? 0 then ret EOK
            else
              run iotclient_DestroyFIFO h;
              do w <- get_world;
              ret (errno w)
          else ret EINVAL
      | None => ret EINVAL
      end
  | None => ret EINVAL
  end.

Definition iotclient_CreateTxMessageQueue (h : ptr) : M Z :=
  match h with
  | Some l =>
      run update_client l (set_txMsgQ (-1));
      do q <- mq_open os MESSAGE_QUEUE_NAME None;
      run update_client l (set_txMsgQ q);
      if negb (q =? -1) then
        do a <- mq_getattr os q;
        match a with
        | Some msgsize =>
            run update_client l (set_maxMessageSize msgsize);
            do b <- calloc os (OBytes (replicate (Z.to_nat msgsize) 0));
            run update_client l (set_txBuf b);
            match b with
            | Some _ => ret EOK
            | None =>
                run mq_close q;
                run update_client l (set_txMsgQ (-1));
                ret ENOMEM
            end
        | None => ret EIO
        end
      else
        do w <- get_world;
        ret (errno w)
  | None => ret EINVAL
  end.

Definition iotclient_DestroyTxMessageQueue (h : ptr) : M unit :=
  match h with
  | Some l =>
      do c <- load_client l;
      run match txBuf c with
          | Some _ => run free (txBuf c); update_client l (set_txBuf None)
          | None => ret tt
          end;
      do c <- load_client l;
      if negb (txMsgQ c =? -1)
      then run mq_close (txMsgQ c); update_client l (set_txMsgQ (-1))
      else ret tt
  | None => ret tt
  end.

Definition iotclient_DestroyRxMessageQueue (h : ptr) : M unit :=
  match h with
  | Some l =>
      do c <- load_client l;
      run match rxBuf c with
          | Some _ => run free (rxBuf c); update_client l (set_rxBuf None)
          | None => ret tt
          end;
      do c <- load_client l;
      if negb (rxMsgQ c =? -1)
      then run mq_close (rxMsgQ c); update_client l (set_rxMsgQ (-1))
      else ret tt
  | None => ret tt
  end.

Definition IOTCLIENT_Create : M ptr :=
  do h <- calloc os (OClient zero_client);
  match h with
  | Some _ =>
      do rc <- iotclient_CreateTxMessageQueue h;
      do rc <- (if rc =? EOK then
                  do rc <- iotclient_CreateFIFO h;
                  run (if negb (rc =? EOK)
                       then iotclient_DestroyTxMessageQueue h
                       else ret tt);
                  ret rc
                else ret rc);
      if negb (rc =? EOK)
      then run free h; ret None
      else ret h
  | None => ret None
  end.

Definition IOTCLIENT_Close (h : ptr) : M Z :=
  match h with
  | Some _ =>
      run iotclient_log h;
      run iotclient_DestroyFIFO h;
      run iotclient_DestroyTxMessageQueue h;
      run iotclient_DestroyRxMessageQueue h;
      run free h;
      ret EOK
  | None => ret EINVAL
  end.

Definition IOTCLIENT_SetVerbose (h : ptr) (v : bool) : M Z :=
  match h with
  | Some l =>
      run update_client l (set_verbose v);
      run iotclient_log h;
      ret EOK
  | None => ret EINVAL
  end.

End Client.

(** * Sending and receiving *)

Section Transport.
Variable os : OS.

(** [const char preamble[] = "IOTC"]. *)
Definition preamble : list Z := lit "IOTC".

(** [headers] is the memory at the caller's pointer, [None] for NULL. *)
Definition iotclient_SendHeaders (h : ptr) (headers : option (list Z)) : M Z :=
  match h, headers with
  | Some l, Some hd =>
      do c <- load_client l;
      match txBuf c with
      | Some tx =>
          let len := Z.of_nat (strlen hd) in
          let totalLength := to_size_t (len + 8) in
          if totalLength <? maxMessageSize c then
            do txbuf <- load_bytes tx;
            match memcpy txbuf 0 (take 4 preamble) with
            | Some b1 =>
                match memcpy b1 4 (pid_bytes (pid c)) with
                | Some b2 =>
                    match memcpy b2 8 (cstr hd) with
                    | Some b3 =>
                        run store_bytes tx b3;
                        let q := txMsgQ c in
                        if negb (q =? -1) then
                          run iotclient_log h;
                          do rc <- mq_send os q (take (Z.to_nat totalLength) b3);
                          if rc =? 0 then ret EOK
                          else do w <- get_world; ret (errno w)
                        else ret EBADF
                    | None => undefined
                    end
                | None => undefined
                end
            | None => undefined
            end
          else ret EMSGSIZE
      | None => ret EINVAL
      end
  | _, _ => ret EINVAL
  end.

(** [body] tells whether the caller's pointer is non-NULL, [len] is the
    [size_t] passed with it. *)
Definition iotclient_SendBody (h : ptr) (body : bool) (len : Z) : M Z :=
  match h with
  | Some l =>
      if body then
        do c <- load_client l;
        match fifoName c with
        | Some name =>
            do path <- load_bytes name;
            do fd <- open_wronly os (cstr path);
            if negb (fd =? -1) then
              if len <? MAX_IOT_MSG_SIZE then
                do r <- write os fd len;
                let n := to_size_t r in
                do rc <- (if n =? len then ret EOK
                          else if n =? to_size_t (-1)
                               then do w <- get_world; ret (errno w)
                               else ret EIO);
                run close fd;
                ret rc
              else ret EMSGSIZE
            else do w <- get_world; ret (errno w)
        | None => ret ENOENT
        end
      else ret EINVAL
  | None => ret EINVAL
  end.

(** The loop of [iotclient_StreamBody]; [fuel] bounds its iterations. *)
Fixpoint StreamBody_loop (fuel : nat) (fd fd_out : Z) (total bytesLeft : Z)
    : M (Z * Z) :=
  match fuel with
  | O => fun _ => OutOfFuel
  | S fuel' =>
      if total <? MAX_IOT_MSG_SIZE then
        do r <- read os fd;
        let n := to_size_t r in
        let n := if bytesLeft <? n then bytesLeft else n in
        if 0 <? n then
          run write os fd_out n;
          StreamBody_loop fuel' fd fd_out
            (to_size_t (total + n)) (to_size_t (bytesLeft - n))
        else ret (total, bytesLeft)
      else ret (total, bytesLeft)
  end.

Definition iotclient_StreamBody (fuel : nat) (h : ptr) (fd : Z) : M Z :=
  match h with
  | Some l =>
      if negb (fd =? -1) then
        do c <- load_client l;
        match fifoName c with
        | Some name =>
            do path <- load_bytes name;
            do fd_out <- open_wronly os (cstr path);
            if negb (fd_out =? -1) then
              run StreamBody_loop fuel fd fd_out 0 MAX_IOT_MSG_SIZE;
              run close fd_out;
              ret EOK
            else ret EBADF
        | None => ret ENOENT
        end
      else ret EINVAL
  | None => ret EINVAL
  end.

Definition IOTCLIENT_Send (h : ptr) (headers : option (list Z))
    (body : bool) (bodylen : Z) : M Z :=
  match h, headers, body with
  | Some _, Some _, true =>
      do result <- iotclient_SendHeaders h headers;
      if result =? EOK then iotclient_SendBody h body bodylen
      else ret result
  | _, _, _ => ret EINVAL
  end.

Definition IOTCLIENT_Stream (fuel : nat) (h : ptr) (headers : option (list Z))
    (fd : Z) : M Z :=
  match h, headers with
  | Some _, Some _ =>
      if negb (fd =? -1) then
        do result <- iotclient_SendHeaders h headers;
        if result =? EOK then iotclient_StreamBody fuel h fd
        else ret result
      else ret EINVAL
  | _, _ => ret EINVAL
  end.

(** [name] is the memory at the caller's pointer. *)
Definition IOTCLIENT_CreateReceiver (h : ptr) (name : list Z)
    (maxMessages : Z) (size : Z) : M Z :=
  match h with
  | Some l =>
      run update_client l (set_rxMsgQ (-1));
      do r <- asprintf os (lit "/" ++ cstr name);
      let '(n, receiver) := r in
      if 0 <? n then
        run update_client l (set_rxBufSize size);
        do b <- calloc os (OBytes (replicate (Z.to_nat size) 0));
        run update_client l (set_rxBuf b);
        do result <-
          match b with
          | Some _ =>
              do q <- mq_open os (lit "/" ++ cstr name) (Some size);
              run update_client l (set_rxMsgQ q);
              if negb (q =? -1) then ret EOK
              else do w <- get_world; ret (errno w)
          | None => ret ENOMEM
          end;
        run free receiver;
        ret result
      else ret EINVAL
  | None => ret EINVAL
  end.

(** What [IOTCLIENT_Receive] stores through its four result pointers. *)
Record Received := mkReceived {
  ppHeader : cptr;
  pHeaderLength : Z;
  ppBody : cptr;
  pBodyLength : Z
}.

(** [outs] tells whether the four result pointers are all non-NULL;
    [out] is what they pointed to before the call. *)
Definition IOTCLIENT_Receive (h : ptr) (outs : bool) (out : Received)
    : M (Z * Received) :=
  match h with
  | Some l =>
      do c <- load_client l;
      match rxBuf c with
      | Some rx =>
          if negb (rxMsgQ c =? -1) && (0 <? rxBufSize c) && outs then
            do n <- mq_receive os (rxMsgQ c) rx (rxBufSize c);
            if 0 <? n then
              do buf <- load_bytes rx;
              match strstr buf [LF; LF; NUL] with
              | None =>
                  ret (EOK, mkReceived None 0 (Some (rx, 0%nat)) n)
              | Some p =>
                  run store_bytes rx (<[p := NUL]> buf);
                  let len := Z.of_nat p in
                  if len <? rxBufSize c
                  then ret (EOK, mkReceived (Some (rx, 0%nat)) len
                                   (Some (rx, (p + 2)%nat)) (to_size_t (n - len)))
                  else ret (EOK, mkReceived (Some (rx, 0%nat)) len None 0)
              end
            else do w <- get_world; ret (errno w, out)
          else ret (EINVAL, out)
      | None => ret (EINVAL, out)
      end
  | None => ret (EINVAL, out)
  end.

End Transport.

(** * A sample system

    A system that refuses no call for a reason of its own, accepts what is
    written and delivers the message ["a:1\n\nxy"]; a process that has just
    started; and the same process once its client handle is created. *)

Definition os_sample : OS :=
  mkOS (fun _ => None) (fun _ => 268435456%N)
    (fun _ => lit "a:1" ++ [LF; LF] ++ lit "xy") 8192.

Definition w_boot : World :=
  mkWorld ∅ ∅ ∅ ∅ {[ MESSAGE_QUEUE_NAME := 64 ]} 0 1234 0 [] [].

Definition c_ready : IotClient :=
  mkIotClient 0 false 0 0 64 (Some 2%positive) None 0 1234 (Some 3%positive).

Definition w_ready : World :=
  mkWorld
    {[ 1%positive := OClient c_ready;
       2%positive := OBytes (replicate 64 0);
       3%positive := OBytes (fifo_path 1234 ++ [NUL]) ]}
    {[ 0%nat := 64 ]} ∅ {[ fifo_path 1234 ]}
    {[ MESSAGE_QUEUE_NAME := 64 ]} 0 1234 7 [] [].

(** The process once a receiver named "rx" is created for messages of up to
    16 bytes. *)
Definition c_listen : IotClient :=
  mkIotClient 0 false 0 1 64 (Some 2%positive) (Some 5%positive) 16 1234
    (Some 3%positive).

Definition w_listen : World :=
  mkWorld
    {[ 1%positive := OClient c_listen;
       2%positive := OBytes (replicate 64 0);
       3%positive := OBytes (fifo_path 1234 ++ [NUL]);
       5%positive := OBytes (replicate 16 0) ]}
    {[ 0%nat := 64; 1%nat := 16 ]} ∅ {[ fifo_path 1234 ]}
    {[ MESSAGE_QUEUE_NAME := 64; lit "/rx" := 16 ]} 0 1234 10 [] [].

(** A system in which the third call, the query of the attributes of the
    control channel, fails. *)
Definition os_noattr : OS :=
  mkOS (fun t => if (t =? 2)%nat then Some 5%positive else None)
    (fun _ => 0%N) (fun _ => []) 8192.

(** The process of [w_ready] once its pipe was removed from the file
    system. *)
Definition w_nopipe : World := set_fifos (fun _ => ∅) w_ready.

(** A system whose source holds 5 bytes for a stream started at instant 7:
    the read at instant 7 yields them, the write at instant 8 takes them,
    and the reads from instant 9 on yield nothing. *)
Definition os_five : OS :=
  mkOS (fun _ => None) (fun t => if (t <? 9)%nat then 5%N else 0%N)
    (fun _ => []) 8192.

(** * Vocabulary of the transport properties *)

(** The bytes the pipes have accepted so far. *)
Definition piped_sum (w : World) : Z :=
  foldr (fun e acc => e.2 + acc) 0 (piped w).

(** What [read] returns at instant [t]. *)
Definition read_result (os : OS) (t : nat) : Z :=
  match os_fail os t with
  | Some _ => -1
  | None => Z.min (Z.pos (BUFSIZ os)) (Z.of_N (os_val os t))
  end.

(** The heap once the block a pointer refers to is released. *)
Definition released (p : ptr) (h : gmap loc object) : gmap loc object :=
  match p with
  | Some l => delete l h
  | None => h
  end.

(** The open queue descriptors once a descriptor value is closed. *)
Definition closed (q : Z) (m : gmap nat Z) : gmap nat Z :=
  if q <? 0 then m else delete (Z.to_nat q) m.

(** [p] is NULL or points to a live array of bytes. *)
Definition bytes_or_null (w : World) (p : ptr) : Prop :=
  ∀ a, p = Some a → ∃ bs, heap w !! a = Some (OBytes bs).

(** Two pointers do not refer to the same block. *)
Definition apart (p q : ptr) : Prop := ∀ a, p = Some a → q ≠ Some a.

(** [l] is a live client object [c] that owns the blocks it points to. *)
Definition handle_live (w : World) (l : loc) (c : IotClient) : Prop :=
  heap w !! l = Some (OClient c) ∧
  bytes_or_null w (fifoName c) ∧ bytes_or_null w (txBuf c) ∧
  bytes_or_null w (rxBuf c) ∧
  apart (fifoName c) (txBuf c) ∧ apart (fifoName c) (rxBuf c) ∧
  apart (txBuf c) (rxBuf c).

(** The path a handle's pipe name holds, if it has one. *)
Definition fifo_of (w : World) (c : IotClient) : option (list Z) :=
  match fifoName c with
  | Some a => match heap w !! a with
              | Some (OBytes bs) => Some (cstr bs)
              | _ => None
              end
  | None => None
  end.

(** The FIFOs of the file system once that of a handle is removed. *)
Definition unlinked (p : option (list Z)) (s : gset (list Z)) : gset (list Z) :=
  match p with
  | Some path => s ∖ {[path]}
  | None => s
  end.

(** The bytes of a run of blocks. *)
Definition blocks_sum (blocks : list Z) : Z := foldr Z.add 0 blocks.

(** What is recorded for the pipe [d] when the blocks of a stream that
    starts at instant [t] are written to it, the last block first.  The
    stream reads at [t] and writes at the next instant, block after block;
    a write the system refuses leaves no record, one it accepts records the
    count the pipe took. *)
Fixpoint pipe_accepts (os : OS) (d : nat) (t : nat) (blocks : list Z)
    : list (nat * Z) :=
  match blocks with
  | [] => []
  | n :: bs =>
      pipe_accepts os d (S (S t)) bs ++
      match os_fail os (S t) with
      | None => [(d, Z.min n (Z.of_N (os_val os (S t))))]
      | Some _ => []
      end
  end.

(** * Further sample systems *)

(** A system that delivers a long message first and short ones afterwards,
    and the receiver of [w_listen] once the long message was received. *)
Definition os_two : OS :=
  mkOS (fun _ => None) (fun _ => 0%N)
    (fun t => if (t =? 10)%nat
              then lit "ab" ++ [LF; LF] ++ lit "cd" ++ [LF; LF] ++ lit "ef"
              else lit "wxyz")
    8192.

Definition w_stale : World :=
  mkWorld
    {[ 1%positive := OClient c_listen;
       2%positive := OBytes (replicate 64 0);
       3%positive := OBytes (fifo_path 1234 ++ [NUL]);
       5%positive := OBytes (lit "ab" ++ [NUL; LF] ++ lit "cd" ++ [LF; LF]
                               ++ lit "ef" ++ replicate 6 0) ]}
    {[ 0%nat := 64; 1%nat := 16 ]} ∅ {[ fifo_path 1234 ]}
    {[ MESSAGE_QUEUE_NAME := 64; lit "/rx" := 16 ]} 0 1234 11 [] [].

(** A system that delivers the message ["hello"]. *)
Definition os_plain : OS :=
  mkOS (fun _ => None) (fun _ => 0%N) (fun _ => lit "hello") 8192.

(** A system whose pipe takes 3 bytes of each write. *)
Definition os_short : OS :=
  mkOS (fun _ => None) (fun _ => 3%N) (fun _ => []) 8192.


(** A system in which the call at instant 8, the second call made from
    [w_ready], fails with EIO. *)
Definition os_read_fails : OS :=
  mkOS (fun t => if (t =? 8)%nat then Some 5%positive else None)
    (fun _ => 268435456%N) (fun _ => []) 8192.

(** A process that has the queue descriptor 0 open before it creates a
    client handle. *)
Definition w_busy : World :=
  mkWorld ∅ {[ 0%nat := 64 ]} ∅ ∅ {[ MESSAGE_QUEUE_NAME := 64 ]} 0 1234 0 [] [].

(** The process of [w_ready] on a system where a queue named "/rx" for
    messages of up to 64 bytes exists already. *)
Definition w_taken : World :=
  set_queues (insert (lit "/rx") 64) w_ready.

(** A system in which the call at instant 10, the first call made from
    [w_listen], is interrupted (EINTR, 4). *)
Definition os_recv_fails : OS :=
  mkOS (fun t => if (t =? 10)%nat then Some 4%positive else None)
    (fun _ => 0%N) (fun _ => []) 8192.
(** * Facts about C strings *)

Lemma rd_nil i : rd [] i = NUL.
Proof. unfold rd. by rewrite lookup_nil. Qed.

Lemma rd_cons_S c m i : rd (c :: m) (S i) = rd m i.
Proof. reflexivity. Qed.

Lemma rd_drop m v i : rd (drop v m) i = rd m (v + i).
Proof. unfold rd. by rewrite lookup_drop. Qed.

Lemma rd_app_r (a b : list Z) i : rd (a ++ b) (length a + i) = rd b i.
Proof.
  unfold rd. rewrite lookup_app_r by lia.
  by replace (length a + i - length a)%nat with i by lia.
Qed.

Lemma rd_cstr m i : (i < strlen m)%nat → rd m i = rd (cstr m) i ∧ rd m i ≠ NUL.
Proof.
  unfold strlen. revert i. induction m as [|c m IH]; intros i Hi; simpl in *.
  - lia.
  - destruct (Z.eqb_spec c NUL) as [->|Hc]; simpl in *; [lia|].
    destruct i as [|i]; [by split|].
    rewrite !rd_cons_S. apply IH. lia.
Qed.

Lemma rd_strlen m : rd m (strlen m) = NUL.
Proof.
  unfold strlen. induction m as [|c m IH]; simpl.
  - apply rd_nil.
  - destruct (Z.eqb_spec c NUL) as [->|Hc]; simpl; [done|].
    by rewrite rd_cons_S.
Qed.

Lemma starts_spec n h : starts n h = true ↔ ∃ t, h = n ++ t.
Proof.
  revert h. induction n as [|x n IH]; intros h; simpl.
  - split; [intros _; by exists h|done].
  - destruct h as [|y h].
    + split; [done|]. by intros [t Ht].
    + rewrite andb_true_iff, IH, Z.eqb_eq. split.
      * intros [-> [t ->]]. by exists t.
      * intros [t Ht]. simplify_eq. split; [done|]. by exists t.
Qed.

(** [strstr] returns an occurrence, and the first one. *)
Lemma find_from_Some n h off k :
  find_from n h off = Some k →
  ∃ pre post, h = pre ++ n ++ post ∧ k = (off + length pre)%nat ∧
    ∀ j, (j < length pre)%nat → starts n (drop j h) = false.
Proof.
  revert off. induction h as [|y h IH]; intros off; simpl.
  - destruct (starts n []) eqn:E; intros Hk; simplify_eq.
    apply starts_spec in E as [t Ht]. exists [], t. simpl.
    split; [done|]. split; [lia|]. intros j Hj. lia.
  - destruct (starts n (y :: h)) eqn:E; intros Hk.
    + simplify_eq. apply starts_spec in E as [t Ht]. exists [], t. simpl.
      split; [done|]. split; [lia|]. intros j Hj. lia.
    + apply IH in Hk as (pre & post & -> & -> & Hmin).
      exists (y :: pre), post. simpl. split; [done|]. split; [lia|].
      intros [|j] Hj; [done|]. simpl. apply Hmin. lia.
Qed.

Lemma find_from_None n h off : find_from n h off = None → ¬ occurs n h.
Proof.
  revert off. induction h as [|y h IH]; intros off; simpl.
  - destruct (starts n []) eqn:E; [done|]. intros _ (pre & post & Hh).
    symmetry in Hh. apply app_eq_nil in Hh as [-> Hh].
    apply app_eq_nil in Hh as [-> _]. done.
  - destruct (starts n (y :: h)) eqn:E; [done|]. intros Hk (pre & post & Hh).
    destruct pre as [|z pre]; simpl in Hh.
    + assert (starts n (y :: h) = true) by (apply starts_spec; eauto).
      congruence.
    + simplify_eq. eapply IH; [done|]. by exists pre, post.
Qed.

Lemma find_from_first n pre post off :
  (∀ j, (j < length pre)%nat → starts n (drop j (pre ++ n ++ post)) = false) →
  find_from n (pre ++ n ++ post) off = Some (off + length pre)%nat.
Proof.
  revert off. induction pre as [|y pre IH]; intros off Hmin; simpl.
  - assert (starts n (n ++ post) = true) as E by (apply starts_spec; eauto).
    destruct (n ++ post); simpl; rewrite E; f_equal; lia.
  - pose proof (Hmin 0%nat ltac:(simpl; lia)) as E0. simpl in E0.
    rewrite E0. rewrite IH; [f_equal; lia|].
    intros j Hj. apply (Hmin (S j)). simpl. lia.
Qed.

Lemma upto_end_lt m j :
  (j < length (upto_end m))%nat →
  rd m j = rd (upto_end m) j ∧ is_end (rd m j) = false.
Proof.
  revert j. induction m as [|c m IH]; intros j Hj; simpl in *.
  - lia.
  - destruct (is_end c) eqn:E; simpl in *; [lia|].
    destruct j as [|j]; [by split|].
    rewrite !rd_cons_S. apply IH. lia.
Qed.

Lemma upto_end_at m : is_end (rd m (length (upto_end m))) = true.
Proof.
  induction m as [|c m IH]; simpl.
  - done.
  - destruct (is_end c) eqn:E; simpl; [done|]. by rewrite rd_cons_S.
Qed.

Lemma prop_value_lt m v j :
  (j < length (prop_value m v))%nat →
  prop_value m v !! j = Some (rd m (v + j)) ∧ is_end (rd m (v + j)) = false.
Proof.
  unfold prop_value. intros Hj.
  destruct (upto_end_lt _ _ Hj) as [E1 E2]. rewrite rd_drop in E1, E2.
  split; [|done]. rewrite E1. unfold rd.
  destruct (lookup_lt_is_Some_2 _ _ Hj) as [x ->]. done.
Qed.

Lemma prop_value_at m v : is_end (rd m (v + length (prop_value m v))) = true.
Proof. unfold prop_value. rewrite <- rd_drop. apply upto_end_at. Qed.

Lemma end_within_value m v len :
  end_within m v 0 len = negb (len <=? length (prop_value m v))%nat.
Proof.
  unfold end_within. destruct (Nat.leb_spec len (length (prop_value m v))); simpl.
  - apply not_true_is_false. rewrite existsb_exists.
    intros (j & Hj & E). apply in_seq in Hj.
    destruct (prop_value_lt m v j) as [_ E']; [lia|]. congruence.
  - apply existsb_exists. exists (length (prop_value m v)).
    split; [apply in_seq; lia|apply prop_value_at].
Qed.

(** The copy loop writes every position it visits, whatever the character
    read, and reports success once a character ending the value was seen. *)
Lemma GetProperty_loop_spec m v k : ∀ i buf r r' buf',
  (i + k ≤ length buf)%nat →
  GetProperty_loop m v k i buf r = (r', buf') →
  length buf' = length buf ∧
  (∀ j, (i ≤ j < i + k)%nat → buf' !! j = Some (stored (rd m (v + j)))) ∧
  (∀ j, (j < i ∨ i + k ≤ j)%nat → buf' !! j = buf !! j) ∧
  r' = (if end_within m v i k then EOK else r).
Proof.
  induction k as [|k IH]; intros i buf r r' buf' Hlen; simpl.
  - intros [= <- <-]. split; [done|]. split; [intros j Hj; lia|]. by split.
  - fold (is_end (rd m (v + i))). unfold end_within. simpl.
    destruct (is_end (rd m (v + i))) eqn:E; simpl; intros Hrun;
      apply IH in Hrun; rewrite ?length_insert in *; try lia;
      destruct Hrun as (HL & Hin & Hout & Hr); (split; [done|]);
      (split; [|split]).
    + intros j Hj. destruct (decide (j = i)) as [->|Hne].
      * rewrite Hout by lia. rewrite list_lookup_insert_eq by lia.
        unfold stored. by rewrite E.
      * apply Hin. lia.
    + intros j Hj. rewrite Hout by lia. apply list_lookup_insert_ne. lia.
    + subst r'. unfold end_within. by destruct (existsb _ _).
    + intros j Hj. destruct (decide (j = i)) as [->|Hne].
      * rewrite Hout by lia. rewrite list_lookup_insert_eq by lia.
        unfold stored. by rewrite E.
      * apply Hin. lia.
    + intros j Hj. rewrite Hout by lia. apply list_lookup_insert_ne. lia.
    + done.
Qed.

(** The run of [IOTCLIENT_GetProperty] once the name was found before a
    colon, [v] being the offset of the value. *)
Lemma GetProperty_found h pr b len p :
  (0 < len ≤ length b)%nat →
  strstr h pr = Some p →
  rd h (p + strlen pr) = COLON →
  let v := (p + strlen pr + 1)%nat in
  ∃ b',
    IOTCLIENT_GetProperty (Some h) (Some pr) (Some b) len
    = (if (len <=? length (prop_value h v))%nat then ENOMEM else EOK, Some b') ∧
    length b' = length b ∧
    (∀ i, (i < len)%nat → b' !! i = Some (stored (rd h (v + i)))) ∧
    (∀ i, (len ≤ i)%nat → b' !! i = b !! i).
Proof.
  intros Hlen Hp Hc v. unfold IOTCLIENT_GetProperty.
  destruct (Nat.ltb_spec 0 len) as [_|?]; [|lia].
  rewrite Hp, Hc. simpl.
  destruct (GetProperty_loop h (p + strlen pr + 1) len 0 b ENOMEM) as [r b'] eqn:Hrun.
  apply GetProperty_loop_spec in Hrun as (HL & Hin & Hout & Hr); [|lia].
  exists b'. rewrite end_within_value in Hr. fold v in Hr, Hin.
  repeat split.
  - subst r. by destruct (len <=? _)%nat.
  - done.
  - intros i Hi. apply Hin. lia.
  - intros i Hi. apply Hout. lia.
Qed.

Lemma cstr_app (s t : list Z) : NUL ∉ s → cstr (s ++ t) = s ++ cstr t.
Proof.
  induction s as [|c s IH]; simpl; intros Hs; [done|].
  rewrite not_elem_of_cons in Hs. destruct Hs as [Hc Hs].
  destruct (Z.eqb_spec c NUL) as [->|_]; [done|]. by rewrite IH.
Qed.

(** Where [strstr] finds the delimiter of headers and body. *)
Lemma strstr_delimiter (pre rest : list Z) :
  NUL ∉ pre → ¬ occurs [LF; LF] (pre ++ [LF]) →
  strstr (pre ++ LF :: LF :: rest) [LF; LF; NUL] = Some (length pre).
Proof.
  intros Hnul Hfirst. unfold strstr.
  rewrite cstr_app by done.
  change (cstr [LF; LF; NUL]) with [LF; LF].
  change (cstr (LF :: LF :: rest)) with ([LF; LF] ++ cstr rest).
  rewrite (find_from_first [LF; LF] pre (cstr rest) 0); [done|].
  intros j Hj. apply not_true_is_false. intros Hs. apply Hfirst.
  apply starts_spec in Hs as [t Ht].
  rewrite drop_app_le in Ht by lia.
  exists (take j pre).
  destruct (drop j pre) as [|x [|y tl]] eqn:Hd.
  - apply (f_equal length) in Hd. rewrite length_drop in Hd. simpl in Hd. lia.
  - simpl in Ht. injection Ht as -> _. exists [].
    rewrite <- (take_drop j pre) at 1. rewrite Hd. by rewrite <- app_assoc.
  - simpl in Ht. injection Ht as -> -> _. exists (tl ++ [LF]).
    rewrite <- (take_drop j pre) at 1. rewrite Hd. by rewrite <- !app_assoc.
Qed.


Lemma cstr_terminated (s t : list Z) : NUL ∉ s → cstr (s ++ NUL :: t) = s.
Proof.
  intros Hs. rewrite cstr_app by done. simpl. apply app_nil_r.
Qed.

(** A message without NUL and without the delimiter, followed by a NUL:
    [strstr] finds nothing. *)
Lemma strstr_no_delimiter (msg rest : list Z) :
  NUL ∉ msg → ¬ occurs [LF; LF] msg →
  strstr (msg ++ NUL :: rest) [LF; LF; NUL] = None.
Proof.
  intros Hnul Hno. unfold strstr. rewrite cstr_terminated by done.
  change (cstr [LF; LF; NUL]) with [LF; LF].
  destruct (find_from [LF; LF] msg 0) as [k|] eqn:E; [|done].
  destruct Hno. apply find_from_Some in E as (pre & post & -> & _).
  by exists pre, post.
Qed.

Example GetProperty_b :
  IOTCLIENT_GetProperty (Some (lit "a:1" ++ [LF] ++ lit "b:2" ++ [LF; LF; NUL]))
    (Some (lit "b" ++ [NUL])) (Some (replicate 8 7)) 8
  = (EOK, Some (lit "2" ++ [0; 0; 0; 0; 0; 0; 0])).
Proof. reflexivity. Qed.

Example GetProperty_c :
  fst (IOTCLIENT_GetProperty (Some (lit "a:1" ++ [LF; LF; NUL]))
         (Some (lit "c" ++ [NUL])) (Some (replicate 8 7)) 8) = ENOENT.
Proof. reflexivity. Qed.


(** * Facts about the heap and the calls *)

Lemma load_client_ok w l c :
  heap w !! l = Some (OClient c) → load_client l w = Ret c w.
Proof. unfold load_client. by intros ->. Qed.

Lemma load_bytes_ok w l bs :
  heap w !! l = Some (OBytes bs) → load_bytes l w = Ret bs w.
Proof. unfold load_bytes. by intros ->. Qed.

Lemma store_bytes_ok w l old bs :
  heap w !! l = Some (OBytes old) →
  store_bytes l bs w = Ret tt (set_heap (insert l (OBytes bs)) w).
Proof. intros H. unfold store_bytes, bind. by rewrite (load_bytes_ok _ _ _ H). Qed.

Lemma update_client_ok w l c f :
  heap w !! l = Some (OClient c) →
  update_client l f w = Ret tt (set_heap (insert l (OClient (f c))) w).
Proof. intros H. unfold update_client, bind. by rewrite (load_client_ok _ _ _ H). Qed.

Lemma memcpy_ok dst off src :
  (off + length src ≤ length dst)%nat →
  memcpy dst off src = Some (take off dst ++ src ++ drop (off + length src) dst).
Proof.
  unfold memcpy. intros H.
  destruct (Nat.leb_spec (off + length src) (length dst)); [done|lia].
Qed.

Lemma memcpy_length dst off src new :
  memcpy dst off src = Some new → length new = length dst.
Proof.
  unfold memcpy. destruct (Nat.leb_spec (off + length src) (length dst)); [|done].
  intros [= <-]. rewrite !length_app, length_take, length_drop. lia.
Qed.
(** The three copies of [iotclient_SendHeaders] lay the frame out at the
    start of the transmit buffer. *)
Lemma frame_layout (txbuf p4 q4 hd : list Z) :
  length p4 = 4%nat → length q4 = 4%nat →
  (8 + length hd ≤ length txbuf)%nat →
  ∃ b1 b2 b3,
    memcpy txbuf 0 p4 = Some b1 ∧ memcpy b1 4 q4 = Some b2 ∧
    memcpy b2 8 hd = Some b3 ∧
    b3 = p4 ++ q4 ++ hd ++ drop (8 + length hd) txbuf.
Proof.
  intros Hp Hq Hlen.
  destruct (memcpy txbuf 0 p4) as [b1|] eqn:E1; [|rewrite memcpy_ok in E1 by lia; done].
  pose proof (memcpy_length _ _ _ _ E1) as L1.
  destruct (memcpy b1 4 q4) as [b2|] eqn:E2; [|rewrite memcpy_ok in E2 by lia; done].
  pose proof (memcpy_length _ _ _ _ E2) as L2.
  destruct (memcpy b2 8 hd) as [b3|] eqn:E3; [|rewrite memcpy_ok in E3 by lia; done].
  exists b1, b2, b3. do 3 (split; [done|]).
  rewrite memcpy_ok in E1, E2, E3 by lia. simplify_eq. simpl.
  rewrite Hp, Hq. simpl.
  replace (S (S (S (S (S (S (S (S (length hd))))))))) with (8 + length hd)%nat by done.
  assert (take 4 (p4 ++ drop 4 txbuf) = p4) as -> by (by apply take_app_length').
  assert (drop 8 (p4 ++ drop 4 txbuf) = drop 8 txbuf) as ->.
  { rewrite drop_app_ge by lia. rewrite Hp, drop_drop. done. }
  rewrite (app_assoc p4 q4 (drop 8 txbuf)).
  rewrite take_app_length' by (rewrite length_app; lia).
  rewrite drop_app_ge by (rewrite length_app; lia).
  rewrite length_app, Hp, Hq, drop_drop. rewrite <- !app_assoc.
  do 4 f_equal. lia.
Qed.

Lemma heap_objects_differ w l1 l2 c bs :
  heap w !! l1 = Some (OClient c) → heap w !! l2 = Some (OBytes bs) → l1 ≠ l2.
Proof. intros H1 H2 ->. congruence. Qed.

(** ** Stepping through a computation *)

Lemma bind_Ret {A B} (m : M A) (k : A → M B) w a w' :
  m w = Ret a w' → bind m k w = k a w'.
Proof. unfold bind. by intros ->. Qed.

Lemma bind_UB {A B} (m : M A) (k : A → M B) w :
  m w = UB → bind m k w = UB.
Proof. unfold bind. by intros ->. Qed.

Lemma bind_assoc {A B C} (m : M A) (f : A → M B) (k : B → M C) w :
  bind (bind m f) k w = bind m (fun x => bind (f x) k) w.
Proof. unfold bind. by destruct (m w). Qed.

Ltac mstep H := rewrite ?bind_assoc; rewrite (bind_Ret _ _ _ _ _ H); cbv beta.
Ltac mpure := cbn [bind ret get_world modify fail_with now undefined negb].

(** ** What the calls return *)

Lemma mq_send_accepted os w q msg d size :
  mq_lookup w q = Some (d, size) →
  Z.of_nat (length msg) ≤ size →
  os_fail os (clock w) = None →
  mq_send os q msg w = Ret 0 (log_sent d msg (tick w)).
Proof.
  intros Hq Hlen Hos. unfold mq_send, bind, now, get_world. simpl.
  change (mq_lookup (tick w) q) with (mq_lookup w q). rewrite Hq.
  destruct (Z.ltb_spec size (Z.of_nat (length msg))); [lia|]. by rewrite Hos.
Qed.

Lemma mq_send_refused os w q msg d size e :
  mq_lookup w q = Some (d, size) →
  Z.of_nat (length msg) ≤ size →
  os_fail os (clock w) = Some e →
  mq_send os q msg w = Ret (-1) (set_errno (Z.pos e) (tick w)).
Proof.
  intros Hq Hlen Hos. unfold mq_send, bind, now, get_world. simpl.
  change (mq_lookup (tick w) q) with (mq_lookup w q). rewrite Hq.
  destruct (Z.ltb_spec size (Z.of_nat (length msg))); [lia|]. by rewrite Hos.
Qed.

Lemma open_wronly_ok os w path :
  path ∈ fifos w → os_fail os (clock w) = None →
  open_wronly os path w
  = Ret (Z.of_nat (fresh (fds w))) (set_fds (union {[fresh (fds w)]}) (tick w)).
Proof.
  intros Hp Hos. unfold open_wronly, bind, now, get_world. simpl.
  rewrite bool_decide_eq_true_2 by done. by rewrite Hos.
Qed.

Lemma open_wronly_refused os w path e :
  path ∈ fifos w → os_fail os (clock w) = Some e →
  open_wronly os path w = Ret (-1) (set_errno (Z.pos e) (tick w)).
Proof.
  intros Hp Hos. unfold open_wronly, bind, now, get_world. simpl.
  rewrite bool_decide_eq_true_2 by done. by rewrite Hos.
Qed.

Lemma open_wronly_missing os w path :
  path ∉ fifos w →
  open_wronly os path w = Ret (-1) (set_errno ENOENT (tick w)).
Proof.
  intros Hp. unfold open_wronly, bind, now, get_world. simpl.
  by rewrite bool_decide_eq_false_2 by done.
Qed.

(** An open either yields a descriptor that is open from then on, or -1
    with errno set to a non-zero code; it writes nothing. *)
Lemma open_wronly_cases os w path :
  (∃ d, open_wronly os path w
        = Ret (Z.of_nat d) (set_fds (union {[d]}) (tick w)) ∧
        path ∈ fifos w ∧ os_fail os (clock w) = None) ∨
  (∃ e, open_wronly os path w = Ret (-1) (set_errno e (tick w)) ∧ e ≠ 0 ∧
        ¬ (path ∈ fifos w ∧ os_fail os (clock w) = None)).
Proof.
  destruct (decide (path ∈ fifos w)) as [Hp|Hp].
  - destruct (os_fail os (clock w)) as [e|] eqn:Hos.
    + right. exists (Z.pos e). rewrite (open_wronly_refused _ _ _ e Hp Hos).
      split; [done|]. split; [done|]. by intros [_ ?].
    + left. eexists. rewrite (open_wronly_ok _ _ _ Hp Hos). done.
  - right. exists ENOENT. rewrite (open_wronly_missing _ _ _ Hp).
    split; [done|]. split; [done|]. by intros [? _].
Qed.

Lemma write_open os w d n :
  d ∈ fds w → os_fail os (clock w) = None →
  write os (Z.of_nat d) n w
  = Ret (Z.min n (Z.of_N (os_val os (clock w))))
        (log_piped d (Z.min n (Z.of_N (os_val os (clock w)))) (tick w)).
Proof.
  intros Hd Hos. unfold write, bind, now, get_world. simpl.
  rewrite bool_decide_eq_true_2 by (rewrite Nat2Z.id; split; [lia|done]).
  rewrite Hos. simpl. by rewrite Nat2Z.id.
Qed.

Lemma write_refused os w d n e :
  d ∈ fds w → os_fail os (clock w) = Some e →
  write os (Z.of_nat d) n w = Ret (-1) (set_errno (Z.pos e) (tick w)).
Proof.
  intros Hd Hos. unfold write, bind, now, get_world. simpl.
  rewrite bool_decide_eq_true_2 by (rewrite Nat2Z.id; split; [lia|done]).
  by rewrite Hos.
Qed.

Lemma close_open w d :
  d ∈ fds w →
  close (Z.of_nat d) w = Ret 0 (set_fds (fun s => s ∖ {[d]}) (tick w)).
Proof.
  intros Hd. unfold close, bind, now, get_world. simpl.
  rewrite bool_decide_eq_true_2 by (rewrite Nat2Z.id; split; [lia|done]).
  simpl. by rewrite Nat2Z.id.
Qed.

Ltac mstep_close :=
  rewrite ?bind_assoc;
  match goal with
  | |- context [bind (close (Z.of_nat ?d)) _ ?W] =>
      let H := fresh in
      assert (d ∈ fds W) as H
        by (simpl; first [assumption | apply elem_of_union_l, elem_of_singleton; reflexivity | set_solver]);
      rewrite (bind_Ret _ _ _ _ _ (close_open W d H)); cbv beta; clear H
  end.


Lemma mq_receive_delivers os w q rx old d msgsize size :
  mq_lookup w q = Some (d, msgsize) →
  msgsize ≤ size →
  heap w !! rx = Some (OBytes old) →
  os_fail os (clock w) = None →
  let msg := take (Z.to_nat msgsize) (os_data os (clock w)) in
  (length msg ≤ length old)%nat →
  mq_receive os q rx size w
  = Ret (Z.of_nat (length msg))
        (set_heap (insert rx (OBytes (msg ++ drop (length msg) old))) (tick w)).
Proof.
  intros Hq Hsz Hb Hos msg Hlen.
  unfold mq_receive, bind, now, get_world, store_bytes, bind. cbn [clock tick].
  change (mq_lookup (tick w) q) with (mq_lookup w q). rewrite Hq.
  destruct (Z.ltb_spec size msgsize); [lia|]. rewrite Hos. fold msg.
  assert (heap (tick w) !! rx = Some (OBytes old)) as Hb' by exact Hb.
  rewrite (load_bytes_ok _ _ _ Hb').
  rewrite memcpy_ok by (simpl; lia). rewrite (load_bytes_ok _ _ _ Hb').
  reflexivity.
Qed.


Lemma fresh_heap (h : gmap loc object) : h !! fresh (dom h) = None.
Proof. apply not_elem_of_dom. apply is_fresh. Qed.

Lemma fresh_mqs (m : gmap nat Z) : m !! fresh (dom m) = None.
Proof. apply not_elem_of_dom. apply is_fresh. Qed.

Lemma calloc_ok os w init :
  os_fail os (clock w) = None →
  calloc os init w
  = Ret (Some (fresh (dom (heap w))))
        (set_heap (insert (fresh (dom (heap w))) init) (tick w)).
Proof. intros Hos. unfold calloc, bind, now. simpl. by rewrite Hos. Qed.

Lemma calloc_fails os w init e :
  os_fail os (clock w) = Some e →
  calloc os init w = Ret None (set_errno ENOMEM (tick w)).
Proof. intros Hos. unfold calloc, bind, now. simpl. by rewrite Hos. Qed.

Lemma free_live w l o :
  heap w !! l = Some o → free (Some l) w = Ret tt (set_heap (delete l) w).
Proof. intros H. unfold free, bind, get_world. simpl. by rewrite H. Qed.

Lemma mq_open_existing os w name size create :
  queues w !! name = Some size →
  os_fail os (clock w) = None →
  mq_open os name create w
  = Ret (Z.of_nat (fresh (dom (mqs w))))
        (set_mqs (insert (fresh (dom (mqs w))) size) (tick w)).
Proof.
  intros Hq Hos. unfold mq_open, bind, now, get_world. simpl.
  rewrite Hos, Hq. done.
Qed.

Lemma mq_lookup_fresh w size w' :
  mqs w' = <[fresh (dom (mqs w)) := size]> (mqs w) →
  mq_lookup w' (Z.of_nat (fresh (dom (mqs w)))) = Some (fresh (dom (mqs w)), size).
Proof.
  intros E. unfold mq_lookup.
  destruct (Z.ltb_spec (Z.of_nat (fresh (dom (mqs w)))) 0); [lia|].
  rewrite Nat2Z.id, E, lookup_insert_eq. done.
Qed.

Lemma mq_getattr_fails os w q e :
  os_fail os (clock w) = Some e →
  mq_getattr os q w = Ret None (set_errno (Z.pos e) (tick w)).
Proof.
  intros Hos. unfold mq_getattr, bind, now, get_world. simpl.
  rewrite Hos. by destruct (mq_lookup (tick w) q) as [[? ?]|].
Qed.

Lemma mq_getattr_ok os w q d size :
  mq_lookup w q = Some (d, size) →
  os_fail os (clock w) = None →
  mq_getattr os q w = Ret (Some size) (tick w).
Proof.
  intros Hq Hos. unfold mq_getattr, bind, now, get_world. simpl.
  rewrite Hos. change (mq_lookup (tick w) q) with (mq_lookup w q). by rewrite Hq.
Qed.


Lemma mq_close_closes w q :
  ∃ r w', mq_close q w = Ret r w' ∧ heap w' = heap w ∧
          mqs w' = closed q (mqs w) ∧ fifos w' = fifos w.
Proof.
  unfold mq_close, bind, now, get_world. simpl.
  change (mq_lookup (tick w) q) with (mq_lookup w q).
  unfold mq_lookup, closed. destruct (Z.ltb_spec q 0).
  - eexists _, _. split; [reflexivity|]. done.
  - destruct (mqs w !! Z.to_nat q) eqn:E; simpl.
    + eexists _, _. split; [reflexivity|]. done.
    + eexists _, _. split; [reflexivity|]. simpl.
      split; [done|]. split; [|done]. symmetry. by apply delete_id.
Qed.

Lemma unlink_removes w path :
  ∃ r w', unlink path w = Ret r w' ∧ heap w' = heap w ∧
          mqs w' = mqs w ∧ fifos w' = fifos w ∖ {[path]}.
Proof.
  unfold unlink, bind, now, get_world. simpl.
  case_bool_decide as Hin; simpl.
  - eexists _, _. split; [reflexivity|]. done.
  - eexists _, _. split; [reflexivity|]. simpl.
    split; [done|]. split; [done|]. apply set_eq. intros x.
    rewrite elem_of_difference, elem_of_singleton. split; [|by intros [? _]].
    intros Hx. split; [done|]. by intros ->.
Qed.

Lemma set_fifoName_id c : fifoName c = None → set_fifoName None c = c.
Proof. destruct c. simpl. by intros ->. Qed.
Lemma set_txBuf_id c : txBuf c = None → set_txBuf None c = c.
Proof. destruct c. simpl. by intros ->. Qed.
Lemma set_rxBuf_id c : rxBuf c = None → set_rxBuf None c = c.
Proof. destruct c. simpl. by intros ->. Qed.
Lemma set_txMsgQ_id c : txMsgQ c = -1 → set_txMsgQ (-1) c = c.
Proof. destruct c. simpl. by intros ->. Qed.
Lemma set_rxMsgQ_id c : rxMsgQ c = -1 → set_rxMsgQ (-1) c = c.
Proof. destruct c. simpl. by intros ->. Qed.

Lemma DestroyFIFO_releases w l c :
  heap w !! l = Some (OClient c) →
  bytes_or_null w (fifoName c) →
  ∃ w', iotclient_DestroyFIFO (Some l) w = Ret tt w' ∧
        heap w' = <[l := OClient (set_fifoName None c)]>
                    (released (fifoName c) (heap w)) ∧
        mqs w' = mqs w ∧
        fifos w' = unlinked (fifo_of w c) (fifos w).
Proof.
  intros Hl Hnm. unfold iotclient_DestroyFIFO, fifo_of.
  mstep (load_client_ok _ _ _ Hl).
  destruct (fifoName c) as [a|] eqn:Ha.
  - destruct (Hnm a eq_refl) as [bs Hbs]. rewrite Hbs.
    assert (l ≠ a) as Hne by (by eapply heap_objects_differ).
    mstep (load_bytes_ok _ _ _ Hbs).
    destruct (unlink_removes w (cstr bs)) as (r & w1 & Hun & Hh1 & Hm1 & Hf1).
    mstep Hun.
    assert (heap w1 !! a = Some (OBytes bs)) as Hbs1 by (by rewrite Hh1).
    mstep (free_live _ _ _ Hbs1).
    assert (heap (set_heap (delete a) w1) !! l = Some (OClient c)) as Hl1.
    { simpl. rewrite lookup_delete_ne by done. by rewrite Hh1. }
    rewrite (update_client_ok _ _ _ (set_fifoName None) Hl1).
    eexists. split; [reflexivity|]. simpl. by rewrite Hh1.
  - mpure. exists w. split; [done|]. simpl. rewrite set_fifoName_id by done.
    split; [|done]. symmetry. by apply insert_id.
Qed.

Lemma DestroyTxMessageQueue_releases w l c :
  heap w !! l = Some (OClient c) →
  bytes_or_null w (txBuf c) →
  ∃ w', iotclient_DestroyTxMessageQueue (Some l) w = Ret tt w' ∧
        heap w' = <[l := OClient (set_txMsgQ (-1) (set_txBuf None c))]>
                    (released (txBuf c) (heap w)) ∧
        mqs w' = closed (txMsgQ c) (mqs w) ∧
        fifos w' = fifos w.
Proof.
  intros Hl Hb. unfold iotclient_DestroyTxMessageQueue.
  mstep (load_client_ok _ _ _ Hl).
  assert (∃ w1, (match txBuf c with
                 | Some _ => run free (txBuf c); update_client l (set_txBuf None)
                 | None => ret ()
                 end) w = Ret tt w1 ∧
                heap w1 = <[l := OClient (set_txBuf None c)]>
                            (released (txBuf c) (heap w)) ∧
                mqs w1 = mqs w ∧ fifos w1 = fifos w) as (w1 & Hfree & Hh1 & Hm1 & Hf1).
  { destruct (txBuf c) as [a|] eqn:Ha.
    - destruct (Hb a eq_refl) as [bs Hbs].
      assert (l ≠ a) as Hne by (by eapply heap_objects_differ).
      mstep (free_live _ _ _ Hbs).
      assert (heap (set_heap (delete a) w) !! l = Some (OClient c)) as Hl1.
      { simpl. by rewrite lookup_delete_ne. }
      rewrite (update_client_ok _ _ _ (set_txBuf None) Hl1).
      eexists. split; [reflexivity|]. done.
    - exists w. split; [done|]. simpl. rewrite set_txBuf_id by done.
      split; [|done]. symmetry. by apply insert_id. }
  mstep Hfree.
  assert (heap w1 !! l = Some (OClient (set_txBuf None c))) as Hl1.
  { rewrite Hh1. apply lookup_insert_eq. }
  mstep (load_client_ok _ _ _ Hl1).
  change (txMsgQ (set_txBuf None c)) with (txMsgQ c).
  destruct (Z.eqb_spec (txMsgQ c) (-1)) as [Hq|Hq]; cbn [negb].
  - exists w1. split; [done|]. rewrite Hh1, Hm1, Hf1.
    rewrite set_txMsgQ_id by done. rewrite Hq. done.
  - destruct (mq_close_closes w1 (txMsgQ c)) as (r & w2 & Hcl & Hh2 & Hm2 & Hf2).
    mstep Hcl.
    assert (heap w2 !! l = Some (OClient (set_txBuf None c))) as Hl2
      by (by rewrite Hh2).
    rewrite (update_client_ok _ _ _ (set_txMsgQ (-1)) Hl2).
    eexists. split; [reflexivity|]. simpl.
    rewrite Hh2, Hh1, Hm2, Hm1, Hf2, Hf1. by rewrite insert_insert_eq.
Qed.

Lemma DestroyRxMessageQueue_releases w l c :
  heap w !! l = Some (OClient c) →
  bytes_or_null w (rxBuf c) →
  ∃ w', iotclient_DestroyRxMessageQueue (Some l) w = Ret tt w' ∧
        heap w' = <[l := OClient (set_rxMsgQ (-1) (set_rxBuf None c))]>
                    (released (rxBuf c) (heap w)) ∧
        mqs w' = closed (rxMsgQ c) (mqs w) ∧
        fifos w' = fifos w.
Proof.
  intros Hl Hb. unfold iotclient_DestroyRxMessageQueue.
  mstep (load_client_ok _ _ _ Hl).
  assert (∃ w1, (match rxBuf c with
                 | Some _ => run free (rxBuf c); update_client l (set_rxBuf None)
                 | None => ret ()
                 end) w = Ret tt w1 ∧
                heap w1 = <[l := OClient (set_rxBuf None c)]>
                            (released (rxBuf c) (heap w)) ∧
                mqs w1 = mqs w ∧ fifos w1 = fifos w) as (w1 & Hfree & Hh1 & Hm1 & Hf1).
  { destruct (rxBuf c) as [a|] eqn:Ha.
    - destruct (Hb a eq_refl) as [bs Hbs].
      assert (l ≠ a) as Hne by (by eapply heap_objects_differ).
      mstep (free_live _ _ _ Hbs).
      assert (heap (set_heap (delete a) w) !! l = Some (OClient c)) as Hl1.
      { simpl. by rewrite lookup_delete_ne. }
      rewrite (update_client_ok _ _ _ (set_rxBuf None) Hl1).
      eexists. split; [reflexivity|]. done.
    - exists w. split; [done|]. simpl. rewrite set_rxBuf_id by done.
      split; [|done]. symmetry. by apply insert_id. }
  mstep Hfree.
  assert (heap w1 !! l = Some (OClient (set_rxBuf None c))) as Hl1.
  { rewrite Hh1. apply lookup_insert_eq. }
  mstep (load_client_ok _ _ _ Hl1).
  change (rxMsgQ (set_rxBuf None c)) with (rxMsgQ c).
  destruct (Z.eqb_spec (rxMsgQ c) (-1)) as [Hq|Hq]; cbn [negb].
  - exists w1. split; [done|]. rewrite Hh1, Hm1, Hf1.
    rewrite set_rxMsgQ_id by done. rewrite Hq. done.
  - destruct (mq_close_closes w1 (rxMsgQ c)) as (r & w2 & Hcl & Hh2 & Hm2 & Hf2).
    mstep Hcl.
    assert (heap w2 !! l = Some (OClient (set_rxBuf None c))) as Hl2
      by (by rewrite Hh2).
    rewrite (update_client_ok _ _ _ (set_rxMsgQ (-1)) Hl2).
    eexists. split; [reflexivity|]. simpl.
    rewrite Hh2, Hh1, Hm2, Hm1, Hf2, Hf1. by rewrite insert_insert_eq.
Qed.

Lemma lookup_released p (h : gmap loc object) i :
  released p h !! i = if decide (p = Some i) then None else h !! i.
Proof.
  destruct p as [a|]; simpl.
  - destruct (decide (a = i)) as [->|Hne].
    + rewrite lookup_delete_eq. by rewrite decide_True.
    + rewrite lookup_delete_ne by done. rewrite decide_False; [done|]. congruence.
  - done.
Qed.

Lemma load_client_dangling w l : heap w !! l = None → load_client l w = UB.
Proof. unfold load_client. by intros ->. Qed.


Lemma getpid_returns w : getpid w = Ret (self w) (tick w).
Proof. reflexivity. Qed.

Lemma asprintf_ok os w s :
  os_fail os (clock w) = None →
  asprintf os s w
  = Ret (Z.of_nat (length s), Some (fresh (dom (heap w))))
        (set_heap (insert (fresh (dom (heap w))) (OBytes (s ++ [NUL]))) (tick w)).
Proof.
  intros Hos. unfold asprintf. mstep (calloc_ok os w (OBytes (s ++ [NUL])) Hos). done.
Qed.

Lemma mkfifo_ok os w path :
  path ∉ fifos w → os_fail os (clock w) = None →
  mkfifo os path w = Ret 0 (set_fifos (union {[path]}) (tick w)).
Proof.
  intros Hp Hos. unfold mkfifo, bind, now, get_world. simpl.
  rewrite bool_decide_eq_false_2 by done. by rewrite Hos.
Qed.

Lemma mq_close_open w q d size :
  mq_lookup w q = Some (d, size) →
  mq_close q w = Ret 0 (set_mqs (delete d) (tick w)).
Proof.
  intros Hq. unfold mq_close, bind, now, get_world. simpl.
  change (mq_lookup (tick w) q) with (mq_lookup w q). by rewrite Hq.
Qed.


Lemma fresh_ne (h : gmap loc object) a o : h !! a = Some o → fresh (dom h) ≠ a.
Proof.
  intros Ha E. pose proof (fresh_heap h) as Hf. rewrite E in Hf. congruence.
Qed.


(** * Properties of IOTCLIENT_GetProperty *)

(** A name found before a colon occurs in the headers followed by a colon. *)
Lemma found_occurs h pr p :
  strstr h pr = Some p →
  rd h (p + strlen pr) = COLON →
  occurs (cstr pr ++ [COLON]) (cstr h).
Proof.
  unfold strstr, strlen. intros Hp Hc.
  apply find_from_Some in Hp as (pre & post & Hh & -> & _). simpl in Hc.
  destruct post as [|c post].
  - replace (length pre + length (cstr pr))%nat with (strlen h) in Hc.
    + rewrite rd_strlen in Hc. done.
    + unfold strlen. rewrite Hh, !length_app. simpl. lia.
  - destruct (rd_cstr h (length pre + length (cstr pr))) as [E _].
    + unfold strlen. rewrite Hh, !length_app. simpl. lia.
    + rewrite E, Hh in Hc. rewrite app_assoc in Hc.
      rewrite <- length_app in Hc.
      rewrite <- (Nat.add_0_r (length (pre ++ cstr pr))) in Hc.
      rewrite rd_app_r in Hc. unfold rd in Hc. simpl in Hc. subst c.
      exists pre, post. by rewrite <- !app_assoc.
Qed.

(** The value returned once the name was found before a colon. *)
Lemma GetProperty_found_value h pr b len p :
  (0 < len ≤ length b)%nat →
  strstr h pr = Some p →
  rd h (p + strlen pr) = COLON →
  let val := prop_value h (p + strlen pr + 1) in
  ∃ b', IOTCLIENT_GetProperty (Some h) (Some pr) (Some b) len
        = (if (len <=? length val)%nat then ENOMEM else EOK, Some b') ∧
        length b' = length b ∧
        ((length val < len)%nat → take (S (length val)) b' = val ++ [NUL]).
Proof.
  intros Hlen Hp Hc. cbv zeta.
  set (val := prop_value h (p + strlen pr + 1)).
  destruct (GetProperty_found h pr b len p) as (b' & Hrun & HL & Hin & _);
    [lia|done|done|].
  exists b'. split; [done|]. split; [done|]. intros Hfit.
  apply list_eq. intros i.
  destruct (decide (i < length val)%nat) as [Hi|Hi].
  - rewrite lookup_take_lt by lia. rewrite lookup_app_l by lia.
    rewrite Hin by lia. destruct (prop_value_lt h _ i Hi) as [E' E].
    fold val in E'. rewrite E'.
    unfold stored. by rewrite E.
  - destruct (decide (i = length val)) as [->|Hne].
    + rewrite lookup_take_lt by lia. rewrite Hin by lia.
      rewrite lookup_app_r by lia. rewrite Nat.sub_diag. simpl.
      unfold stored. by rewrite prop_value_at.
    + rewrite lookup_take_ge by lia. symmetry. apply lookup_ge_None.
      rewrite length_app. simpl. lia.
Qed.

(** C2, as the code has it.  With [len > 0] and a caller's buffer of at
    least [len] bytes: a zero capacity is rejected with EINVAL before the
    headers are looked at; the result is ENOENT when the name nowhere occurs
    followed by a colon; and when the first occurrence of the name is
    followed by a colon the result is ENOMEM exactly when the value does not
    fit with its terminator in [len] bytes, and otherwise EOK with the
    buffer holding the value and its NUL terminator. *)
Theorem GetProperty_results (h pr b : list Z) (len : nat) :
  (len ≤ length b)%nat →
  (len = 0%nat →
     IOTCLIENT_GetProperty (Some h) (Some pr) (Some b) len = (EINVAL, Some b)) ∧
  ((0 < len)%nat → ¬ occurs (cstr pr ++ [COLON]) (cstr h) →
     IOTCLIENT_GetProperty (Some h) (Some pr) (Some b) len = (ENOENT, Some b)) ∧
  ((0 < len)%nat → ∀ p, strstr h pr = Some p → rd h (p + strlen pr) = COLON →
     let val := prop_value h (p + strlen pr + 1) in
     ∃ b', IOTCLIENT_GetProperty (Some h) (Some pr) (Some b) len
           = (if (len <=? length val)%nat then ENOMEM else EOK, Some b') ∧
           length b' = length b ∧
           ((length val < len)%nat → take (S (length val)) b' = val ++ [NUL])).
Proof.
  intros Hlen. split; [|split].
  - intros ->. reflexivity.
  - intros Hpos Hno. unfold IOTCLIENT_GetProperty.
    destruct (Nat.ltb_spec 0 len) as [_|?]; [|lia].
    destruct (strstr h pr) as [p|] eqn:Hp; [|done].
    destruct (Z.eqb_spec (rd h (p + strlen pr)) COLON) as [Hc|_]; [|done].
    destruct Hno. by apply (found_occurs h pr p).
  - intros Hpos p Hp Hc. apply GetProperty_found_value; [lia|done|done].
Qed.

Lemma GetProperty_results_witness :
  ∃ b', IOTCLIENT_GetProperty
          (Some (lit "a:1" ++ [LF] ++ lit "b:2" ++ [LF; LF; NUL]))
          (Some (lit "b" ++ [NUL])) (Some (replicate 8 7)) 8
        = (EOK, Some b') ∧ take 2 b' = lit "2" ++ [NUL].
Proof.
  destruct (GetProperty_results
              (lit "a:1" ++ [LF] ++ lit "b:2" ++ [LF; LF; NUL])
              (lit "b" ++ [NUL]) (replicate 8 7) 8) as (_ & _ & H).
  - simpl. lia.
  - destruct (H ltac:(lia) 4%nat eq_refl eq_refl) as (b' & E & _ & T).
    exists b'. split; [exact E|]. apply T. simpl. lia.
Defined.

(** C2 as stated fails for a zero capacity: the call is refused with EINVAL,
    which is neither the buffer-too-small code nor EMSGSIZE. *)
Lemma GetProperty_zero_capacity :
  fst (IOTCLIENT_GetProperty (Some (lit "a:1" ++ [LF; LF; NUL]))
         (Some (lit "a" ++ [NUL])) (Some []) 0) = EINVAL ∧
  EINVAL ≠ ENOMEM ∧ EINVAL ≠ EMSGSIZE.
Proof. split; [reflexivity|]. split; discriminate. Qed.

(** Only the first occurrence of the name is examined: a name that first
    occurs inside another header name is reported as not found, although a
    header of that name follows. *)
Example GetProperty_first_occurrence_only :
  fst (IOTCLIENT_GetProperty (Some (lit "ab:1" ++ [LF] ++ lit "a:2" ++ [LF; LF; NUL]))
         (Some (lit "a" ++ [NUL])) (Some (replicate 8 7)) 8) = ENOENT.
Proof. reflexivity. Qed.

(** C3: the name is matched as a bare substring.  Asked for "foo", with
    headers whose only header is "myfoo:9", the call succeeds and returns
    the value of "myfoo", whatever follows the header in memory and whatever
    the buffer held. *)
Theorem GetProperty_matches_inside_name (rest b : list Z) (len : nat) :
  (2 ≤ len ≤ length b)%nat →
  ∃ b', IOTCLIENT_GetProperty (Some (lit "myfoo:9" ++ LF :: rest))
          (Some (lit "foo" ++ [NUL])) (Some b) len = (EOK, Some b') ∧
        take 2 b' = lit "9" ++ [NUL].
Proof.
  intros Hlen.
  destruct (GetProperty_found_value (lit "myfoo:9" ++ LF :: rest)
              (lit "foo" ++ [NUL]) b len 2) as (b' & E & _ & T);
    [lia|reflexivity|reflexivity|].
  exists b'. split.
  - rewrite E. change (prop_value _ _) with (lit "9").
    destruct (Nat.leb_spec len (length (lit "9"))) as [Hle|_]; [|done].
    simpl in Hle. lia.
  - apply T. change (prop_value _ _) with (lit "9"). simpl. lia.
Qed.

Lemma GetProperty_matches_inside_name_witness :
  ∃ b', IOTCLIENT_GetProperty (Some (lit "myfoo:9" ++ LF :: [LF; NUL]))
          (Some (lit "foo" ++ [NUL])) (Some (replicate 8 7)) 8 = (EOK, Some b') ∧
        take 2 b' = lit "9" ++ [NUL].
Proof.
  apply (GetProperty_matches_inside_name [LF; NUL] (replicate 8 7) 8).
  simpl. lia.
Defined.

(** C10: once the name is found before a colon, each of the [len] positions
    of the caller's buffer is written, from the character at the same
    distance behind the start of the value: that character itself, or NUL
    when it is a line feed or a NUL.  So [len] characters are read from the
    headers, past the end of the value, and nothing of the first [len] bytes
    of the buffer is kept; the bytes behind them are untouched. *)
Theorem GetProperty_writes_whole_buffer (h pr b : list Z) (len p : nat) :
  (0 < len ≤ length b)%nat →
  strstr h pr = Some p →
  rd h (p + strlen pr) = COLON →
  let v := (p + strlen pr + 1)%nat in
  ∃ r b', IOTCLIENT_GetProperty (Some h) (Some pr) (Some b) len = (r, Some b') ∧
    (r = EOK ∨ r = ENOMEM) ∧
    take len b' = (fun i => stored (rd h (v + i))) <$> seq 0 len ∧
    drop len b' = drop len b.
Proof.
  intros Hlen Hp Hc v.
  destruct (GetProperty_found h pr b len p) as (b' & Hrun & HL & Hin & Hout);
    [done..|].
  eexists _, b'. split; [exact Hrun|]. split; [|split].
  - destruct (len <=? _)%nat; auto.
  - apply list_eq. intros i. destruct (decide (i < len)%nat) as [Hi|Hi].
    + rewrite lookup_take_lt by lia. rewrite Hin by lia.
      rewrite list_lookup_fmap. rewrite lookup_seq_lt by lia. done.
    + rewrite lookup_take_ge by lia. symmetry. apply lookup_ge_None.
      rewrite length_fmap, length_seq. lia.
  - apply list_eq. intros i. rewrite !lookup_drop. apply Hout. lia.
Qed.

Lemma GetProperty_writes_whole_buffer_witness :
  ∃ r b', IOTCLIENT_GetProperty
            (Some (lit "a:1" ++ [LF] ++ lit "b:2" ++ [LF; LF; NUL]))
            (Some (lit "a" ++ [NUL])) (Some (replicate 9 7)) 8 = (r, Some b') ∧
    (r = EOK ∨ r = ENOMEM) ∧
    take 8 b' = lit "1" ++ [NUL] ++ lit "b:2" ++ [NUL; NUL; NUL] ∧
    drop 8 b' = [7].
Proof.
  apply (GetProperty_writes_whole_buffer
           (lit "a:1" ++ [LF] ++ lit "b:2" ++ [LF; LF; NUL])
           (lit "a" ++ [NUL]) (replicate 9 7) 8 0);
    [simpl; lia|reflexivity|reflexivity].
Defined.

(** * Properties of IOTCLIENT_Receive *)

(** C1, where the code departs from it.  For a message whose first
    delimiter ["\n\n"] follows [pre], with no NUL in [pre]: the headers
    returned are the first [length pre] bytes, terminated in place, and the
    body starts two bytes behind them, as claimed; but the body length
    reported is [n - length pre], two more than the bytes that follow the
    delimiter, so that a message ending with the delimiter is given a body
    of two bytes and not an empty one. *)
Theorem Receive_body_length os w l c rx old d msgsize pre post out :
  heap w !! l = Some (OClient c) →
  rxBuf c = Some rx →
  heap w !! rx = Some (OBytes old) →
  Z.of_nat (length old) = rxBufSize c →
  rxBufSize c < SIZE_MOD →
  mq_lookup w (rxMsgQ c) = Some (d, msgsize) →
  msgsize ≤ rxBufSize c →
  os_fail os (clock w) = None →
  take (Z.to_nat msgsize) (os_data os (clock w)) = pre ++ LF :: LF :: post →
  NUL ∉ pre → ¬ occurs [LF; LF] (pre ++ [LF]) →
  let n := Z.of_nat (length (pre ++ LF :: LF :: post)) in
  let k := Z.of_nat (length pre) in
  ∃ w', IOTCLIENT_Receive os (Some l) true out w
        = Ret (EOK, mkReceived (Some (rx, 0%nat)) k
                      (Some (rx, (length pre + 2)%nat)) (n - k)) w' ∧
        n - k = Z.of_nat (length post) + 2 ∧
        heap w' !! rx
        = Some (OBytes (pre ++ NUL :: LF :: post
                          ++ drop (length (pre ++ LF :: LF :: post)) old)).
Proof.
  intros Hl Hrx Hb Hsz Hmax Hq Hms Hos Hmsg Hnul Hfirst n k.
  assert (n - k = Z.of_nat (length post) + 2) as Hnk.
  { unfold n, k. rewrite length_app. simpl. lia. }
  assert (length (pre ++ LF :: LF :: post) ≤ length old)%nat as Hfits.
  { rewrite <- Hmsg. rewrite length_take. lia. }
  assert (l ≠ rx) as Hne by (by eapply heap_objects_differ).
  unfold IOTCLIENT_Receive.
  mstep (load_client_ok _ _ _ Hl). rewrite Hrx.
  assert ((rxMsgQ c =? -1) = false) as ->.
  { apply Z.eqb_neq. intros E. rewrite E in Hq. done. }
  assert ((0 <? rxBufSize c) = true) as ->.
  { apply Z.ltb_lt. rewrite length_app in Hfits. simpl in Hfits. lia. }
  cbn [negb andb].
  pose proof (mq_receive_delivers os w (rxMsgQ c) rx old d msgsize (rxBufSize c)
                Hq Hms Hb Hos) as Hrecv.
  cbv zeta in Hrecv. rewrite Hmsg in Hrecv. specialize (Hrecv Hfits).
  mstep Hrecv. fold n.
  assert ((0 <? n) = true) as ->.
  { apply Z.ltb_lt. unfold n. rewrite length_app. simpl. lia. }
  set (buf := (pre ++ LF :: LF :: post) ++ drop (length (pre ++ LF :: LF :: post)) old).
  assert (heap (set_heap <[rx:=OBytes buf]> (tick w)) !! rx = Some (OBytes buf)) as Hb2.
  { simpl. apply lookup_insert_eq. }
  mstep (load_bytes_ok _ _ _ Hb2).
  assert (strstr buf [LF; LF; NUL] = Some (length pre)) as ->.
  { unfold buf. rewrite <- app_assoc. simpl. by apply strstr_delimiter. }
  mstep (store_bytes_ok _ _ _ (<[length pre:=NUL]> buf) Hb2). fold k.
  assert ((k <? rxBufSize c) = true) as ->.
  { apply Z.ltb_lt. unfold k. rewrite length_app in Hfits. simpl in Hfits. lia. }
  assert (to_size_t (n - k) = n - k) as ->.
  { apply Z.mod_small. rewrite Hnk. unfold n in *.
    rewrite length_app in Hfits. simpl in Hfits. lia. }
  eexists. split; [reflexivity|]. split; [done|].
  simpl. rewrite lookup_insert_eq. do 2 f_equal.
  unfold buf. rewrite <- app_assoc.
  rewrite insert_app_r_alt by lia. rewrite Nat.sub_diag. done.
Qed.

Lemma Receive_body_length_witness :
  ∃ w', IOTCLIENT_Receive os_sample (Some 1%positive) true
          (mkReceived None 0 None 0) w_listen
        = Ret (EOK, mkReceived (Some (5%positive, 0%nat)) 3
                      (Some (5%positive, 5%nat)) 4) w' ∧
        heap w' !! 5%positive
        = Some (OBytes (lit "a:1" ++ [NUL; LF] ++ lit "xy" ++ replicate 9 0)).
Proof.
  destruct (Receive_body_length os_sample w_listen 1%positive c_listen 5%positive
              (replicate 16 0) 1%nat 16 (lit "a:1") (lit "xy")
              (mkReceived None 0 None 0))
    as (w' & Hrun & _ & Hbuf);
    [reflexivity|reflexivity|reflexivity|reflexivity|reflexivity|reflexivity|
     discriminate|reflexivity|reflexivity| | |].
  - apply (bool_decide_unpack _). vm_compute. exact I.
  - apply (find_from_None _ _ 0). reflexivity.
  - exists w'. split; [exact Hrun|exact Hbuf].
Defined.

(** A message without the delimiter, in a buffer that holds no delimiter
    behind it either: no headers, and the whole message is the body. *)
Lemma Receive_no_delimiter os w l c rx old d msgsize out :
  heap w !! l = Some (OClient c) →
  rxBuf c = Some rx →
  heap w !! rx = Some (OBytes old) →
  Z.of_nat (length old) = rxBufSize c →
  mq_lookup w (rxMsgQ c) = Some (d, msgsize) →
  msgsize ≤ rxBufSize c →
  os_fail os (clock w) = None →
  let msg := take (Z.to_nat msgsize) (os_data os (clock w)) in
  msg ≠ [] →
  strstr (msg ++ drop (length msg) old) [LF; LF; NUL] = None →
  ∃ w', IOTCLIENT_Receive os (Some l) true out w
        = Ret (EOK, mkReceived None 0 (Some (rx, 0%nat)) (Z.of_nat (length msg))) w' ∧
        heap w' !! rx = Some (OBytes (msg ++ drop (length msg) old)).
Proof.
  intros Hl Hrx Hb Hsz Hq Hms Hos msg Hne Hnone.
  assert (length msg ≤ length old)%nat as Hfits.
  { unfold msg. rewrite length_take. lia. }
  assert (0 < length msg)%nat as Hpos by (destruct msg; [done|simpl; lia]).
  unfold IOTCLIENT_Receive.
  mstep (load_client_ok _ _ _ Hl). rewrite Hrx.
  assert ((rxMsgQ c =? -1) = false) as ->.
  { apply Z.eqb_neq. intros E. rewrite E in Hq. done. }
  assert ((0 <? rxBufSize c) = true) as -> by (apply Z.ltb_lt; lia).
  cbn [negb andb].
  mstep (mq_receive_delivers os w (rxMsgQ c) rx old d msgsize (rxBufSize c)
           Hq Hms Hb Hos Hfits).
  fold msg.
  assert ((0 <? Z.of_nat (length msg)) = true) as -> by (apply Z.ltb_lt; lia).
  set (buf := msg ++ drop (length msg) old) in *.
  assert (heap (set_heap <[rx:=OBytes buf]> (tick w)) !! rx = Some (OBytes buf)) as Hb2.
  { simpl. apply lookup_insert_eq. }
  mstep (load_bytes_ok _ _ _ Hb2). rewrite Hnone. mpure.
  eexists. split; [reflexivity|]. exact Hb2.
Qed.

(** * Properties of the control channel and of the body channel *)

(** The run of [iotclient_SendHeaders] on a handle whose transmit buffer
    and control channel are as [IOTCLIENT_Create] leaves them. *)
Lemma SendHeaders_run os w l c tx txbuf hd d :
  heap w !! l = Some (OClient c) →
  txBuf c = Some tx →
  heap w !! tx = Some (OBytes txbuf) →
  Z.of_nat (length txbuf) = maxMessageSize c →
  mq_lookup w (txMsgQ c) = Some (d, maxMessageSize c) →
  Z.of_nat (strlen hd) + 8 < SIZE_MOD →
  let n := Z.of_nat (strlen hd) in
  let frame := preamble ++ pid_bytes (pid c) ++ cstr hd in
  Z.of_nat (length frame) = 8 + n ∧
  (maxMessageSize c ≤ 8 + n →
     iotclient_SendHeaders os (Some l) (Some hd) w = Ret EMSGSIZE w) ∧
  (8 + n < maxMessageSize c →
     ∃ w', match os_fail os (clock w) with
           | None =>
               iotclient_SendHeaders os (Some l) (Some hd) w = Ret EOK w' ∧
               sent w' = (d, frame) :: sent w
           | Some e =>
               iotclient_SendHeaders os (Some l) (Some hd) w = Ret (Z.pos e) w' ∧
               sent w' = sent w
           end).
Proof.
  intros Hl Htx Hb Hsz Hq Hwrap n frame.
  assert (Z.of_nat (length frame) = 8 + n) as Hframe.
  { unfold frame, n, strlen. rewrite !length_app. simpl. lia. }
  split; [done|].
  assert (to_size_t (n + 8) = n + 8) as Hts.
  { unfold to_size_t. apply Z.mod_small. unfold n. lia. }
  split.
  - intros Hbig. unfold iotclient_SendHeaders, bind.
    rewrite (load_client_ok _ _ _ Hl), Htx. fold n. rewrite Hts.
    destruct (Z.ltb_spec (n + 8) (maxMessageSize c)); [lia|done].
  - intros Hfit.
    destruct (frame_layout txbuf (take 4 preamble) (pid_bytes (pid c)) (cstr hd))
      as (b1 & b2 & b3 & E1 & E2 & E3 & Hb3); [done|done|unfold n, strlen in *; lia|].
    assert (l ≠ tx) as Hne by (by eapply heap_objects_differ).
    assert (take (Z.to_nat (n + 8)) b3 = frame) as Htake.
    { rewrite Hb3. change (take 4 preamble) with preamble.
      replace (preamble ++ pid_bytes (pid c) ++ cstr hd ++ drop (8 + length (cstr hd)) txbuf)
        with (frame ++ drop (8 + length (cstr hd)) txbuf)
        by (unfold frame; by rewrite <- !app_assoc).
      apply take_app_length'. lia. }
    assert ((txMsgQ c =? -1) = false) as Hq1.
    { apply Z.eqb_neq. intros E. rewrite E in Hq. done. }
    assert (mq_lookup (set_heap <[tx:=OBytes b3]> w) (txMsgQ c)
            = Some (d, maxMessageSize c)) as Hq2 by exact Hq.
    assert (heap (set_heap <[tx:=OBytes b3]> w) !! l = Some (OClient c)) as Hl2.
    { simpl. by rewrite lookup_insert_ne. }
    assert ((maxMessageSize c <? Z.of_nat (length frame)) = false) as Hsmall.
    { apply Z.ltb_ge. lia. }
    destruct (os_fail os (clock w)) as [e|] eqn:Hos; eexists;
      unfold iotclient_SendHeaders, iotclient_log;
      mstep (load_client_ok _ _ _ Hl); rewrite Htx; fold n; rewrite Hts;
      (destruct (Z.ltb_spec (n + 8) (maxMessageSize c)); [|lia]);
      mstep (load_bytes_ok _ _ _ Hb); rewrite E1, E2, E3;
      mstep (store_bytes_ok _ _ _ b3 Hb); rewrite Hq1; mpure;
      mstep (load_client_ok _ _ _ Hl2); mpure;
      rewrite Htake.
    + mstep (mq_send_refused os _ _ frame _ _ e Hq2 ltac:(lia) Hos). mpure. simpl. done.
    + mstep (mq_send_accepted os _ _ frame _ _ Hq2 ltac:(lia) Hos). mpure. simpl. done.
Qed.

(** C4: the frame handed to the control channel is the 4 bytes of the
    preamble, the 4 bytes of the process id as they lie in memory and the
    characters of the headers, with nothing behind them: [8 + strlen] bytes,
    the terminator left out.  The result is EMSGSIZE exactly when
    [8 + strlen] is not below the maximum message size learned from the
    channel (the system itself reporting EMSGSIZE for over-long messages
    only), and then nothing is sent. *)
Theorem SendHeaders_frame os w l c tx txbuf hd d :
  heap w !! l = Some (OClient c) →
  txBuf c = Some tx →
  heap w !! tx = Some (OBytes txbuf) →
  Z.of_nat (length txbuf) = maxMessageSize c →
  mq_lookup w (txMsgQ c) = Some (d, maxMessageSize c) →
  Z.of_nat (strlen hd) + 8 < SIZE_MOD →
  os_fail os (clock w) ≠ Some 90%positive →
  let n := Z.of_nat (strlen hd) in
  let frame := preamble ++ pid_bytes (pid c) ++ cstr hd in
  ∃ r w', iotclient_SendHeaders os (Some l) (Some hd) w = Ret r w' ∧
    Z.of_nat (length frame) = 8 + n ∧
    (r = EMSGSIZE ↔ maxMessageSize c ≤ 8 + n) ∧
    (r = EOK ↔ 8 + n < maxMessageSize c ∧ os_fail os (clock w) = None) ∧
    (r = EOK → sent w' = (d, frame) :: sent w) ∧
    (r ≠ EOK → sent w' = sent w).
Proof.
  intros Hl Htx Hb Hsz Hq Hwrap Hos n frame.
  destruct (SendHeaders_run os w l c tx txbuf hd d Hl Htx Hb Hsz Hq Hwrap)
    as (Hlen & Hbig & Hfit). fold n in Hbig, Hfit. fold frame in Hlen, Hfit.
  destruct (Z.le_gt_cases (maxMessageSize c) (8 + n)) as [Hc|Hc].
  - exists EMSGSIZE, w. split; [by apply Hbig|]. split; [done|].
    split; [done|]. split; [|split].
    + split; [done|]. intros [? _]. lia.
    + done.
    + done.
  - destruct (Hfit ltac:(lia)) as [w' Hrun].
    destruct (os_fail os (clock w)) as [e|] eqn:E; destruct Hrun as [Hrun Hsent].
    + exists (Z.pos e), w'. split; [done|]. split; [done|].
      split; [|split; [|split]].
      * split; [|lia]. intros [= ->]. done.
      * split; [done|]. by intros [_ ?].
      * done.
      * done.
    + exists EOK, w'. split; [done|]. split; [done|].
      split; [|split; [|split]].
      * split; [done|lia].
      * split; [|done]. intros _. split; [lia|done].
      * done.
      * done.
Qed.

Lemma SendHeaders_frame_witness :
  ∃ r w', iotclient_SendHeaders os_sample (Some 1%positive)
            (Some (lit "k:v" ++ [LF; LF; NUL])) w_ready = Ret r w' ∧
    r = EOK ∧
    sent w' = [(0%nat, lit "IOTC" ++ [210; 4; 0; 0] ++ lit "k:v" ++ [LF; LF])].
Proof.
  destruct (SendHeaders_frame os_sample w_ready 1%positive c_ready 2%positive
              (replicate 64 0) (lit "k:v" ++ [LF; LF; NUL]) 0%nat)
    as (r & w' & Hrun & _ & _ & Hok & Hsent & _);
    [reflexivity|reflexivity|reflexivity|reflexivity|reflexivity|reflexivity|
     discriminate|].
  exists r, w'. split; [exact Hrun|].
  assert (r = EOK) as Hr by (apply Hok; split; [reflexivity|reflexivity]).
  split; [exact Hr|]. exact (Hsent Hr).
Defined.

(** C5, as the code has it.  A body of 256 MiB or more is never sent: the
    call fails and nothing is written to the pipe.  The pipe is opened before
    the length is looked at, so the result is EMSGSIZE only when the pipe
    opens; when it does not, the result is the error of the open, ENOENT
    for a pipe that is not in the file system.  A shorter body, such as one
    of 256 MiB - 1 bytes, passes the check, and the call succeeds when the
    pipe opens and the write takes the whole body. *)
Theorem SendBody_size_limit os w l c nm path len :
  heap w !! l = Some (OClient c) →
  fifoName c = Some nm →
  heap w !! nm = Some (OBytes path) →
  0 ≤ len < SIZE_MOD →
  (MAX_IOT_MSG_SIZE ≤ len →
     ∃ r w', iotclient_SendBody os (Some l) true len w = Ret r w' ∧
             r ≠ EOK ∧ piped w' = piped w ∧
             (cstr path ∈ fifos w → os_fail os (clock w) = None → r = EMSGSIZE) ∧
             (cstr path ∉ fifos w → r = ENOENT) ∧
             (∀ e, cstr path ∈ fifos w → os_fail os (clock w) = Some e →
                   r = Z.pos e)) ∧
  (len < MAX_IOT_MSG_SIZE →
     cstr path ∈ fifos w → os_fail os (clock w) = None →
     os_fail os (S (clock w)) = None → len ≤ Z.of_N (os_val os (S (clock w))) →
     ∃ w', iotclient_SendBody os (Some l) true len w = Ret EOK w' ∧
           piped w' = (fresh (fds w), len) :: piped w).
Proof.
  intros Hl Hnm Hp Hlen. split.
  - intros Hbig. unfold iotclient_SendBody.
    mstep (load_client_ok _ _ _ Hl). rewrite Hnm.
    mstep (load_bytes_ok _ _ _ Hp).
    destruct (decide (cstr path ∈ fifos w)) as [Hin|Hout].
    + destruct (os_fail os (clock w)) as [e|] eqn:Hos.
      * mstep (open_wronly_refused os _ _ e Hin Hos).
        change (-1 =? -1) with true. cbn [negb]. mpure.
        eexists _, _. split; [reflexivity|]. simpl.
        split; [done|]. split; [done|]. split; [done|]. split; [done|].
        intros e' _ [= <-]. reflexivity.
      * mstep (open_wronly_ok os _ _ Hin Hos).
        destruct (Z.eqb_spec (Z.of_nat (fresh (fds w))) (-1)); [lia|]. cbn [negb].
        destruct (Z.ltb_spec len MAX_IOT_MSG_SIZE); [lia|].
        eexists _, _. split; [reflexivity|]. simpl.
        split; [done|]. split; [done|]. split; [done|]. split; [done|].
        intros e' _ [=].
    + mstep (open_wronly_missing os _ _ Hout).
      change (-1 =? -1) with true. cbn [negb]. mpure.
      eexists _, _. split; [reflexivity|]. simpl.
      split; [done|]. split; [done|]. split; [done|]. split; [done|].
      intros e' ?. done.
  - intros Hsmall Hin Hos Hos1 Hval. unfold iotclient_SendBody.
    mstep (load_client_ok _ _ _ Hl). rewrite Hnm.
    mstep (load_bytes_ok _ _ _ Hp).
    mstep (open_wronly_ok os _ _ Hin Hos).
    destruct (Z.eqb_spec (Z.of_nat (fresh (fds w))) (-1)); [lia|]. cbn [negb].
    destruct (Z.ltb_spec len MAX_IOT_MSG_SIZE); [|lia].
    assert (fresh (fds w) ∈ fds (set_fds (union {[fresh (fds w)]}) (tick w))) as Hfd.
    { simpl. apply elem_of_union_l, elem_of_singleton. reflexivity. }
    mstep (write_open os _ _ len Hfd Hos1). simpl clock.
    rewrite Z.min_l by lia.
    unfold to_size_t at 1. rewrite (Z.mod_small len) by lia.
    rewrite Z.eqb_refl. mpure.
    mstep_close. mpure.
    eexists. split; [reflexivity|]. done.
Qed.

Lemma SendBody_size_limit_witness :
  (∃ r w', iotclient_SendBody os_sample (Some 1%positive) true
             MAX_IOT_MSG_SIZE w_ready = Ret r w' ∧
           r = EMSGSIZE ∧ piped w' = []) ∧
  (∃ r w', iotclient_SendBody os_sample (Some 1%positive) true
             MAX_IOT_MSG_SIZE w_nopipe = Ret r w' ∧
           r = ENOENT ∧ piped w' = []) ∧
  (∃ w', iotclient_SendBody os_sample (Some 1%positive) true
           (MAX_IOT_MSG_SIZE - 1) w_ready = Ret EOK w' ∧
         piped w' = [(0%nat, MAX_IOT_MSG_SIZE - 1)]).
Proof.
  assert (cstr (fifo_path 1234 ++ [NUL]) ∈ fifos w_ready) as Hin.
  { apply (bool_decide_unpack _). vm_compute. exact I. }
  split; [|split].
  - destruct (SendBody_size_limit os_sample w_ready 1%positive c_ready 3%positive
                (fifo_path 1234 ++ [NUL]) MAX_IOT_MSG_SIZE)
      as [Hbig _]; [reflexivity|reflexivity|reflexivity|done|].
    destruct (Hbig ltac:(reflexivity)) as (r & w' & Hrun & _ & Hp & Hr & _).
    exists r, w'. split; [exact Hrun|]. split; [|exact Hp].
    apply Hr; [exact Hin|reflexivity].
  - destruct (SendBody_size_limit os_sample w_nopipe 1%positive c_ready 3%positive
                (fifo_path 1234 ++ [NUL]) MAX_IOT_MSG_SIZE)
      as [Hbig _]; [reflexivity|reflexivity|reflexivity|done|].
    destruct (Hbig ltac:(reflexivity)) as (r & w' & Hrun & _ & Hp & _ & Hr & _).
    exists r, w'. split; [exact Hrun|]. split; [|exact Hp].
    apply Hr. intros H. exact (not_elem_of_empty _ H).
  - destruct (SendBody_size_limit os_sample w_ready 1%positive c_ready 3%positive
                (fifo_path 1234 ++ [NUL]) (MAX_IOT_MSG_SIZE - 1))
      as [_ Hsmall]; [reflexivity|reflexivity|reflexivity|done|].
    apply Hsmall; [reflexivity|exact Hin|reflexivity|reflexivity|].
    vm_compute. discriminate.
Defined.

(** C5 as stated fails when the pipe does not open: a body of 256 MiB sent
    through a handle whose pipe is not in the file system is refused with
    ENOENT, the error of the open, not with EMSGSIZE. *)
Lemma SendBody_too_large_without_pipe :
  (∃ w', iotclient_SendBody os_sample (Some 1%positive) true MAX_IOT_MSG_SIZE
           w_nopipe = Ret ENOENT w') ∧
  ENOENT ≠ EMSGSIZE.
Proof. split; [eexists; vm_compute; reflexivity|discriminate]. Qed.

(** * Properties of streaming *)

Lemma read_returns os fd w :
  ∃ w', read os fd w = Ret (read_result os (clock w)) w' ∧
        clock w' = S (clock w) ∧ fds w' = fds w ∧ piped w' = piped w ∧
        heap w' = heap w ∧ mqs w' = mqs w ∧ fifos w' = fifos w.
Proof.
  unfold read, read_result, bind, now. simpl.
  destruct (os_fail os (clock w)); simpl; eexists; split; reflexivity || done.
Qed.

(** A write to an open descriptor adds at most the count asked for. *)
Lemma write_adds os w d n :
  d ∈ fds w → 0 ≤ n →
  ∃ r w', write os (Z.of_nat d) n w = Ret r w' ∧
          clock w' = S (clock w) ∧ fds w' = fds w ∧
          piped_sum w ≤ piped_sum w' ≤ piped_sum w + n ∧
          heap w' = heap w ∧ mqs w' = mqs w ∧ fifos w' = fifos w.
Proof.
  intros Hd Hn. destruct (os_fail os (clock w)) as [e|] eqn:Hos.
  - rewrite (write_refused os w d n e Hd Hos). eexists _, _.
    split; [reflexivity|]. unfold piped_sum. simpl. repeat split; lia.
  - rewrite (write_open os w d n Hd Hos). eexists _, _.
    split; [reflexivity|]. unfold piped_sum. simpl. repeat split; lia.
Qed.

(** The loop of [iotclient_StreamBody], started in a state where [total]
    and [bytesLeft] add up to the ceiling: with fuel for one more iteration
    than bytes are left it ends; the two counters still add up to the
    ceiling; the pipes have accepted no more than [total] grew; and when it
    ends below the ceiling, its last read yielded no byte. *)
Lemma StreamBody_loop_inv os fd d : ∀ fuel total left w,
  d ∈ fds w → 0 ≤ left → total + left = MAX_IOT_MSG_SIZE → 0 ≤ total →
  (Z.to_nat left < fuel)%nat →
  ∃ total' w',
    StreamBody_loop os fuel fd (Z.of_nat d) total left w
    = Ret (total', MAX_IOT_MSG_SIZE - total') w' ∧
    total ≤ total' ≤ MAX_IOT_MSG_SIZE ∧
    piped_sum w ≤ piped_sum w' ≤ piped_sum w + (total' - total) ∧
    fds w' = fds w ∧ heap w' = heap w ∧ mqs w' = mqs w ∧ fifos w' = fifos w ∧
    (clock w ≤ clock w')%nat ∧
    (total' < MAX_IOT_MSG_SIZE →
       (clock w < clock w')%nat ∧
       to_size_t (read_result os (pred (clock w'))) = 0).
Proof.
  induction fuel as [|fuel IH]; intros total left w Hd Hleft Hinv Htot Hfuel; [lia|].
  simpl. destruct (Z.ltb_spec total MAX_IOT_MSG_SIZE) as [Hlt|Hge].
  - destruct (read_returns os fd w) as (w1 & Hread & Hck1 & Hfd1 & Hp1 & Hh1 & Hm1 & Hf1).
    mstep Hread.
    set (r := to_size_t (read_result os (clock w))).
    assert (0 ≤ r < SIZE_MOD) as Hr by (apply Z.mod_pos_bound; reflexivity).
    set (n := if left <? r then left else r).
    assert (0 ≤ n ≤ left ∧ (n = 0 → r = 0)) as (Hn & Hn0).
    { unfold n. destruct (Z.ltb_spec left r); lia. }
    destruct (Z.ltb_spec 0 n) as [Hpos|Hzero].
    + destruct (write_adds os w1 d n) as (rw & w2 & Hwrite & Hck2 & Hfd2 & Hp2 & Hh2 & Hm2 & Hf2);
        [by rewrite Hfd1|lia|].
      mstep Hwrite.
      assert (to_size_t (total + n) = total + n) as ->.
      { apply Z.mod_small. unfold SIZE_MOD. unfold MAX_IOT_MSG_SIZE in *. lia. }
      assert (to_size_t (left - n) = left - n) as ->.
      { apply Z.mod_small. unfold SIZE_MOD. unfold MAX_IOT_MSG_SIZE in *. lia. }
      destruct (IH (total + n) (left - n) w2) as (t' & w' & Hrun & Hb & Hps & Hfd' & Hh' & Hm' & Hf' & Hck' & Hex);
        [by rewrite Hfd2, Hfd1|lia|lia|lia|lia|].
      exists t', w'. split; [exact Hrun|].
      assert (piped_sum w1 = piped_sum w) as Hps1 by (unfold piped_sum; by rewrite Hp1).
      split; [lia|]. split; [lia|].
      split; [congruence|]. split; [congruence|]. split; [congruence|].
      split; [congruence|]. split; [lia|].
      intros Hl. destruct (Hex Hl) as [? ?]. split; [lia|done].
    + exists total, w1. mpure.
      replace (MAX_IOT_MSG_SIZE - total) with left by lia.
      split; [done|]. split; [lia|].
      assert (piped_sum w1 = piped_sum w) as Hps1 by (unfold piped_sum; by rewrite Hp1).
      split; [lia|]. do 4 (split; [done|]). split; [lia|].
      intros _. split; [lia|]. rewrite Hck1. simpl. fold r.
      apply Hn0. lia.
  - exists total, w. mpure. replace (MAX_IOT_MSG_SIZE - total) with left by lia.
    split; [done|]. split; [lia|]. split; [lia|]. do 4 (split; [done|]).
    split; [lia|]. intros ?. lia.
Qed.

(** The blocks of the loop.  Started in a state where [total] and
    [bytesLeft] add up to the ceiling, the loop handles a run of blocks:
    each is what a read of the source yields, cut to what is then left of
    the ceiling, and each is handed to one write; the run ends when nothing
    is left or a read yields nothing. *)
Lemma StreamBody_loop_blocks os fd d : ∀ fuel total left w,
  d ∈ fds w → 0 ≤ left → total + left = MAX_IOT_MSG_SIZE → 0 ≤ total →
  (Z.to_nat left < fuel)%nat →
  ∃ blocks w',
    StreamBody_loop os fuel fd (Z.of_nat d) total left w
    = Ret (total + blocks_sum blocks, left - blocks_sum blocks) w' ∧
    (∀ i n, blocks !! i = Some n →
       0 < n ∧
       n = Z.min (left - blocks_sum (take i blocks))
             (to_size_t (read_result os (clock w + 2 * i)))) ∧
    (blocks_sum blocks = left ∨
     to_size_t (read_result os (clock w + 2 * length blocks)) = 0) ∧
    piped w' = pipe_accepts os d (clock w) blocks ++ piped w.
Proof.
  induction fuel as [|fuel IH]; intros total left w Hd Hleft Hinv Htot Hfuel; [lia|].
  simpl. destruct (Z.ltb_spec total MAX_IOT_MSG_SIZE) as [Hlt|Hge].
  - destruct (read_returns os fd w)
      as (w1 & Hread & Hck1 & Hfd1 & Hp1 & _).
    mstep Hread.
    set (r := to_size_t (read_result os (clock w))).
    assert (0 ≤ r < SIZE_MOD) as Hr by (apply Z.mod_pos_bound; reflexivity).
    assert ((if left <? r then left else r) = Z.min left r) as ->.
    { destruct (Z.ltb_spec left r); lia. }
    set (n := Z.min left r).
    destruct (Z.ltb_spec 0 n) as [Hpos|Hzero].
    + assert (d ∈ fds w1) as Hd1 by (by rewrite Hfd1).
      assert (∃ rw w2, write os (Z.of_nat d) n w1 = Ret rw w2 ∧
                fds w2 = fds w1 ∧ clock w2 = S (clock w1) ∧
                piped w2 = match os_fail os (clock w1) with
                           | None => [(d, Z.min n (Z.of_N (os_val os (clock w1))))]
                           | Some _ => []
                           end ++ piped w1)
        as (rw & w2 & Hwrite & Hfd2 & Hck2 & Hp2).
      { destruct (os_fail os (clock w1)) as [e|] eqn:Hos.
        - rewrite (write_refused os w1 d n e Hd1 Hos). by eexists _, _.
        - rewrite (write_open os w1 d n Hd1 Hos). by eexists _, _. }
      mstep Hwrite.
      assert (to_size_t (total + n) = total + n) as ->.
      { apply Z.mod_small. unfold SIZE_MOD. unfold MAX_IOT_MSG_SIZE in *. lia. }
      assert (to_size_t (left - n) = left - n) as ->.
      { apply Z.mod_small. unfold SIZE_MOD. unfold MAX_IOT_MSG_SIZE in *. lia. }
      destruct (IH (total + n) (left - n) w2)
        as (bs & w' & Hrun & Hblk & Hend & Hpiped);
        [by rewrite Hfd2|lia|lia|lia|lia|].
      assert (clock w2 = S (S (clock w))) as Hck by (by rewrite Hck2, Hck1).
      exists (n :: bs), w'. split; [|split; [|split]].
      * rewrite Hrun. unfold blocks_sum. simpl. do 2 f_equal; lia.
      * intros [|i] m Hm.
        -- injection Hm as <-. split; [done|]. unfold blocks_sum. simpl.
           rewrite Nat.add_0_r, Z.sub_0_r. done.
        -- destruct (Hblk i m Hm) as [Hm0 Hmn]. split; [done|].
           rewrite Hmn, Hck. unfold blocks_sum. simpl.
           f_equal; [lia|]. do 2 f_equal. lia.
      * destruct Hend as [Hsum|Hzero].
        -- left. unfold blocks_sum in *. simpl. lia.
        -- right. rewrite <- Hzero, Hck. simpl length. do 2 f_equal. lia.
      * rewrite Hpiped, Hp2, Hp1, Hck, Hck1. simpl.
        by rewrite <- app_assoc.
    + exists [], w1. mpure. unfold blocks_sum. simpl.
      rewrite Z.add_0_r, Z.sub_0_r, Nat.add_0_r.
      split; [done|]. split; [intros i m [=]|]. split; [|done].
      right. fold r. unfold n in Hzero. lia.
  - exists [], w. mpure. unfold blocks_sum. simpl.
    rewrite Z.add_0_r, Z.sub_0_r.
    split; [done|]. split; [intros i m [=]|]. split; [|done].
    left. lia.
Qed.

(** C8: the loop reads the source block by block and hands each block to
    the pipe, until the source yields nothing or the ceiling of 256 MiB is
    reached.  Started in a state where [total] and [bytesLeft] add up to the
    ceiling, with fuel for one more iteration than bytes are left, the loop
    ends and has handled a run of blocks: each block is what one read of the
    source yielded, cut to what was then left of the ceiling, and not empty;
    [total] grew by their sum and [bytesLeft] fell by it, so the two still
    add up to the ceiling and [total] never passes it; each block was
    handed to one write, and the pipe recorded what these writes took, no
    more than [total] grew; and the run ended at the ceiling or with a read
    that yielded no byte. *)
Theorem StreamBody_loop_ceiling os fd d fuel total left w :
  d ∈ fds w →
  0 ≤ total → 0 ≤ left → total + left = MAX_IOT_MSG_SIZE →
  (Z.to_nat left < fuel)%nat →
  ∃ blocks total' left' w',
    StreamBody_loop os fuel fd (Z.of_nat d) total left w = Ret (total', left') w' ∧
    total' = total + blocks_sum blocks ∧
    (∀ i n, blocks !! i = Some n →
       0 < n ∧
       n = Z.min (left - blocks_sum (take i blocks))
             (to_size_t (read_result os (clock w + 2 * i)))) ∧
    (total' = MAX_IOT_MSG_SIZE ∨
     to_size_t (read_result os (clock w + 2 * length blocks)) = 0) ∧
    piped w' = pipe_accepts os d (clock w) blocks ++ piped w ∧
    total ≤ total' ∧ 0 ≤ left' ∧ total' + left' = MAX_IOT_MSG_SIZE ∧
    piped_sum w' - piped_sum w ≤ total' - total ∧
    total' - total ≤ MAX_IOT_MSG_SIZE ∧
    (total' < MAX_IOT_MSG_SIZE →
       to_size_t (read_result os (pred (clock w'))) = 0).
Proof.
  intros Hd Htot Hleft Hinv Hfuel.
  destruct (StreamBody_loop_inv os fd d fuel total left w Hd Hleft Hinv Htot Hfuel)
    as (t' & w' & Hrun & Hb & Hps & _ & _ & _ & _ & _ & Hex).
  destruct (StreamBody_loop_blocks os fd d fuel total left w Hd Hleft Hinv Htot Hfuel)
    as (blocks & w'' & Hrun' & Hblk & Hend & Hpiped).
  rewrite Hrun in Hrun'. injection Hrun' as Ht' _ <-.
  exists blocks, t', (MAX_IOT_MSG_SIZE - t'), w'. split; [exact Hrun|].
  split; [exact Ht'|]. split; [exact Hblk|]. split.
  { destruct Hend as [Hsum|Hzero]; [left; lia|by right]. }
  split; [exact Hpiped|].
  do 5 (split; [lia|]). intros Hl. by destruct (Hex Hl).
Qed.

Lemma StreamBody_loop_ceiling_witness :
  ∃ w',
    StreamBody_loop os_five (S (Z.to_nat MAX_IOT_MSG_SIZE)) 0 (Z.of_nat 0)
      0 MAX_IOT_MSG_SIZE (set_fds (union {[0%nat]}) w_ready)
    = Ret (5, MAX_IOT_MSG_SIZE - 5) w' ∧
    piped w' = [(0%nat, 5)].
Proof.
  destruct (StreamBody_loop_ceiling os_five 0 0%nat (S (Z.to_nat MAX_IOT_MSG_SIZE))
              0 MAX_IOT_MSG_SIZE (set_fds (union {[0%nat]}) w_ready))
    as (blocks & total' & left' & w' & Hrun & Htot & Hblk & Hend & Hpiped
        & _ & _ & Hinv & _).
  - simpl. apply elem_of_union_l, elem_of_singleton. reflexivity.
  - lia.
  - discriminate.
  - lia.
  - apply Nat.lt_succ_diag_r.
  - destruct blocks as [|n bs].
    + exfalso. destruct Hend as [H|H].
      * rewrite Htot in H. vm_compute in H. discriminate.
      * vm_compute in H. discriminate.
    + destruct (Hblk 0%nat n eq_refl) as [_ Hn]. vm_compute in Hn. subst n.
      destruct bs as [|m bs].
      * exists w'. split; [|exact Hpiped].
        assert (total' = 5) as -> by exact Htot.
        assert (left' = MAX_IOT_MSG_SIZE - 5) as -> by lia.
        exact Hrun.
      * exfalso. destruct (Hblk 1%nat m eq_refl) as [Hm0 Hm].
        vm_compute in Hm. subst m. lia.
Defined.

(** C9: the result of [iotclient_StreamBody] is settled once the pipe is
    opened: EINVAL for a NULL handle or the descriptor -1, ENOENT without a
    pipe name, EBADF when the pipe does not open, and EOK otherwise,
    whatever the reads of the source and the writes to the pipe return
    afterwards. *)
Theorem StreamBody_result os fuel w l c fd :
  heap w !! l = Some (OClient c) →
  (Z.to_nat MAX_IOT_MSG_SIZE < fuel)%nat →
  iotclient_StreamBody os fuel None fd w = Ret EINVAL w ∧
  iotclient_StreamBody os fuel (Some l) (-1) w = Ret EINVAL w ∧
  (fifoName c = None → fd ≠ -1 →
     iotclient_StreamBody os fuel (Some l) fd w = Ret ENOENT w) ∧
  (∀ nm path, fifoName c = Some nm → heap w !! nm = Some (OBytes path) → fd ≠ -1 →
     ∃ w', iotclient_StreamBody os fuel (Some l) fd w
           = Ret (if bool_decide (cstr path ∈ fifos w ∧ os_fail os (clock w) = None)
                  then EOK else EBADF) w').
Proof.
  intros Hl Hfuel. split; [done|]. split; [done|]. split.
  - intros Hnone Hfd. unfold iotclient_StreamBody.
    destruct (Z.eqb_spec fd (-1)); [done|]. cbn [negb].
    mstep (load_client_ok _ _ _ Hl). by rewrite Hnone.
  - intros nm path Hnm Hp Hfd. unfold iotclient_StreamBody.
    destruct (Z.eqb_spec fd (-1)); [done|]. cbn [negb].
    mstep (load_client_ok _ _ _ Hl). rewrite Hnm.
    mstep (load_bytes_ok _ _ _ Hp).
    destruct (open_wronly_cases os w (cstr path))
      as [(d & Ho & Hin & Hos)|(e & Ho & He & Hno)]; mstep Ho.
    + rewrite bool_decide_eq_true_2 by done.
      destruct (Z.eqb_spec (Z.of_nat d) (-1)); [lia|]. cbn [negb].
      destruct (StreamBody_loop_inv os fd d fuel 0 MAX_IOT_MSG_SIZE
                  (set_fds (union {[d]}) (tick w)))
        as (t' & w' & Hrun & _ & _ & Hfd' & _);
        [simpl; apply elem_of_union_l, elem_of_singleton; reflexivity
        |done|done|done|lia|].
      mstep Hrun.
      assert (d ∈ fds w') as Hd'.
      { rewrite Hfd'. simpl. apply elem_of_union_l, elem_of_singleton. reflexivity. }
      mstep (close_open _ _ Hd'). mpure. eexists. reflexivity.
    + rewrite bool_decide_eq_false_2 by done. simpl. eexists. reflexivity.
Qed.

Lemma StreamBody_result_witness :
  ∃ w', iotclient_StreamBody os_sample (S (Z.to_nat MAX_IOT_MSG_SIZE))
          (Some 1%positive) 5 w_ready = Ret EOK w'.
Proof.
  destruct (StreamBody_result os_sample (S (Z.to_nat MAX_IOT_MSG_SIZE)) w_ready
              1%positive c_ready 5 eq_refl (Nat.lt_succ_diag_r _))
    as (_ & _ & _ & H).
  destruct (H 3%positive (fifo_path 1234 ++ [NUL]) eq_refl eq_refl) as [w' Hrun];
    [discriminate|].
  rewrite bool_decide_eq_true_2 in Hrun.
  - exists w'. exact Hrun.
  - split; [|reflexivity]. apply (bool_decide_unpack _). vm_compute. exact I.
Defined.

(** * Properties of the life cycle of the handle *)

(** When every step succeeds, [IOTCLIENT_Create] returns a live handle with
    the control channel open, the maximum message size learned from it, a
    zero-filled transmit buffer of that size, and its pipe in the file
    system under the recorded name. *)
Lemma Create_success os w size :
  queues w !! MESSAGE_QUEUE_NAME = Some size →
  cstr (fifo_path (self w) ++ [NUL]) ∉ fifos w →
  (∀ k, (k < 7)%nat → os_fail os (clock w + k) = None) →
  ∃ l tx nm c w',
    IOTCLIENT_Create os w = Ret (Some l) w' ∧
    handle_live w' l c ∧
    txBuf c = Some tx ∧
    heap w' !! tx = Some (OBytes (replicate (Z.to_nat size) 0)) ∧
    maxMessageSize c = size ∧
    mq_lookup w' (txMsgQ c) = Some (fresh (dom (mqs w)), size) ∧
    rxBuf c = None ∧
    pid c = self w ∧
    fifoName c = Some nm ∧
    heap w' !! nm = Some (OBytes (fifo_path (self w) ++ [NUL])) ∧
    cstr (fifo_path (self w) ++ [NUL]) ∈ fifos w'.
Proof.
  intros Hq Hpath Hos.
  assert (os_fail os (clock w) = None) as H0
    by (rewrite <- (Nat.add_0_r (clock w)); apply Hos; lia).
  assert (∀ k, (0 < k < 7)%nat → os_fail os (k + clock w) = None) as Hos'
    by (intros k Hk; rewrite Nat.add_comm; apply Hos; lia).
  unfold IOTCLIENT_Create.
  mstep (calloc_ok os w (OClient zero_client) H0).
  set (l := fresh (dom (heap w))).
  unfold iotclient_CreateTxMessageQueue.
  set (w1 := set_heap <[l:=OClient zero_client]> (tick w)).
  assert (heap w1 !! l = Some (OClient zero_client)) as Hl1 by apply lookup_insert_eq.
  mstep (update_client_ok _ _ _ (set_txMsgQ (-1)) Hl1).
  set (w2 := set_heap _ w1).
  assert (queues w2 !! MESSAGE_QUEUE_NAME = Some size) as Hq2 by exact Hq.
  assert (os_fail os (clock w2) = None) as H1' by (apply (Hos' 1%nat); lia).
  mstep (mq_open_existing os w2 _ _ None Hq2 H1').
  set (d := fresh (dom (mqs w2))).
  set (w3 := set_mqs _ (tick w2)).
  assert (heap w3 !! l = Some (OClient (set_txMsgQ (-1) zero_client))) as Hl3
    by apply lookup_insert_eq.
  mstep (update_client_ok _ _ _ (set_txMsgQ (Z.of_nat d)) Hl3).
  destruct (Z.eqb_spec (Z.of_nat d) (-1)); [lia|]. cbn [negb].
  set (w4 := set_heap _ w3).
  assert (mq_lookup w4 (Z.of_nat d) = Some (d, size)) as Hd4.
  { apply (mq_lookup_fresh w size w4). reflexivity. }
  assert (os_fail os (clock w4) = None) as H2' by (apply (Hos' 2%nat); lia).
  mstep (mq_getattr_ok os w4 (Z.of_nat d) d size Hd4 H2').
  set (c4 := set_txMsgQ (Z.of_nat d) (set_txMsgQ (-1) zero_client)).
  assert (heap (tick w4) !! l = Some (OClient c4)) as Hl4 by apply lookup_insert_eq.
  mstep (update_client_ok _ _ _ (set_maxMessageSize size) Hl4).
  set (w5 := set_heap _ (tick w4)).
  assert (os_fail os (clock w5) = None) as H3' by (apply (Hos' 3%nat); lia).
  mstep (calloc_ok os w5 (OBytes (replicate (Z.to_nat size) 0)) H3').
  set (tx := fresh (dom (heap w5))).
  assert (tx ≠ l) as Htxl.
  { eapply fresh_ne. unfold w5. simpl. apply lookup_insert_eq. }
  set (w6 := set_heap _ (tick w5)).
  assert (heap w6 !! l = Some (OClient (set_maxMessageSize size c4))) as Hl6.
  { unfold w6. simpl. rewrite lookup_insert_ne by done. apply lookup_insert_eq. }
  mstep (update_client_ok _ _ _ (set_txBuf (Some tx)) Hl6). mpure.
  change (EOK =? EOK) with true. cbv iota.
  set (c6 := set_txBuf (Some tx) (set_maxMessageSize size c4)).
  set (w7 := set_heap _ w6).
  unfold iotclient_CreateFIFO.
  mstep (getpid_returns w7).
  assert (heap (tick w7) !! l = Some (OClient c6)) as Hl7 by apply lookup_insert_eq.
  mstep (update_client_ok _ _ _ (set_pid (self w7)) Hl7).
  change (self w7) with (self w).
  set (w8 := set_heap _ (tick w7)).
  assert (os_fail os (clock w8) = None) as H5' by (apply (Hos' 5%nat); lia).
  mstep (asprintf_ok os w8 (fifo_path (self w)) H5').
  set (nm := fresh (dom (heap w8))).
  assert (nm ≠ l) as Hnml.
  { eapply fresh_ne. unfold w8. simpl. apply lookup_insert_eq. }
  assert (nm ≠ tx) as Hnmtx.
  { eapply fresh_ne. unfold w8, w7, w6. simpl.
    rewrite lookup_insert_ne by done. rewrite lookup_insert_ne by done.
    apply lookup_insert_eq. }
  set (w9 := set_heap _ (tick w8)).
  assert (heap w9 !! l = Some (OClient (set_pid (self w) c6))) as Hl9.
  { unfold w9. simpl. rewrite lookup_insert_ne by done. apply lookup_insert_eq. }
  mstep (update_client_ok _ _ _ (set_fifoName (Some nm)) Hl9).
  set (c := set_fifoName (Some nm) (set_pid (self w) c6)).
  set (w10 := set_heap _ w9).
  assert (heap w10 !! l = Some (OClient c)) as Hl10 by apply lookup_insert_eq.
  mstep (load_client_ok _ _ _ Hl10).
  change (fifoName c) with (Some nm). cbv iota.
  assert ((0 <? Z.of_nat (length (fifo_path (self w)))) = true) as ->.
  { apply Z.ltb_lt. unfold fifo_path. rewrite length_app.
    change (length (lit "/tmp/iothub_")) with 12%nat. lia. }
  assert (heap w10 !! nm = Some (OBytes (fifo_path (self w) ++ [NUL]))) as Hnm10.
  { unfold w10, w9. simpl. rewrite lookup_insert_ne by done. apply lookup_insert_eq. }
  mstep (load_bytes_ok _ _ _ Hnm10).
  assert (os_fail os (clock w10) = None) as H6' by (apply (Hos' 6%nat); lia).
  mstep (mkfifo_ok os w10 _ Hpath H6').
  change (0 =? 0) with true. cbv iota. mpure.
  change (EOK =? EOK) with true. cbn [negb]. mpure.
  change (EOK =? EOK) with true. cbn [negb].
  set (w11 := set_fifos _ (tick w10)).
  assert (heap w11 !! tx = Some (OBytes (replicate (Z.to_nat size) 0))) as Htx11.
  { unfold w11, w10, w9, w8, w7, w6. simpl.
    rewrite lookup_insert_ne by done. rewrite lookup_insert_ne by done.
    rewrite lookup_insert_ne by done. rewrite lookup_insert_ne by done.
    apply lookup_insert_eq. }
  exists l, tx, nm, c, w11. split; [reflexivity|].
  split; [|split; [reflexivity|]; split; [exact Htx11|]; split; [reflexivity|];
           split; [exact Hd4|]; split; [reflexivity|]; split; [reflexivity|];
           split; [reflexivity|]; split; [exact Hnm10|]].
  - split; [exact Hl10|].
    split; [intros a [= <-]; eexists; exact Hnm10|].
    split; [intros a [= <-]; eexists; exact Htx11|].
    split; [intros a [=]|].
    split; [intros a [= <-] [= E]; done|].
    split; [intros a [= <-]; discriminate|].
    intros a [= <-]; discriminate.
  - simpl. apply elem_of_union_l, elem_of_singleton. reflexivity.
Qed.

Example Create_sample :
  IOTCLIENT_Create os_sample w_boot = Ret (Some 1%positive) w_ready.
Proof. vm_compute. reflexivity. Qed.

Example CreateReceiver_sample :
  IOTCLIENT_CreateReceiver os_sample (Some 1%positive) (lit "rx" ++ [NUL]) 10 16
    w_ready = Ret EOK w_listen.
Proof. vm_compute. reflexivity. Qed.

(** The sibling path: when the transmit buffer cannot be allocated the
    channel is closed again, and nothing stays acquired. *)
Lemma Create_closes_queue_without_buffer os w size e :
  queues w !! MESSAGE_QUEUE_NAME = Some size →
  os_fail os (clock w) = None →
  os_fail os (S (clock w)) = None →
  os_fail os (S (S (clock w))) = None →
  os_fail os (S (S (S (clock w)))) = Some e →
  ∃ w', IOTCLIENT_Create os w = Ret None w' ∧
        heap w' = heap w ∧ mqs w' = mqs w.
Proof.
  intros Hq H0 H1 H2 H3. unfold IOTCLIENT_Create.
  mstep (calloc_ok os w (OClient zero_client) H0).
  set (l := fresh (dom (heap w))).
  unfold iotclient_CreateTxMessageQueue.
  set (w1 := set_heap <[l:=OClient zero_client]> (tick w)).
  assert (heap w1 !! l = Some (OClient zero_client)) as Hl1 by apply lookup_insert_eq.
  mstep (update_client_ok _ _ _ (set_txMsgQ (-1)) Hl1).
  set (w2 := set_heap _ w1).
  assert (queues w2 !! MESSAGE_QUEUE_NAME = Some size) as Hq2 by exact Hq.
  assert (os_fail os (clock w2) = None) as H1' by exact H1.
  mstep (mq_open_existing os w2 _ _ None Hq2 H1').
  set (d := fresh (dom (mqs w2))).
  set (w3 := set_mqs _ (tick w2)).
  assert (heap w3 !! l = Some (OClient (set_txMsgQ (-1) zero_client))) as Hl3
    by apply lookup_insert_eq.
  mstep (update_client_ok _ _ _ (set_txMsgQ (Z.of_nat d)) Hl3).
  destruct (Z.eqb_spec (Z.of_nat d) (-1)); [lia|]. cbn [negb].
  set (w4 := set_heap _ w3).
  assert (mq_lookup w4 (Z.of_nat d) = Some (d, size)) as Hd4.
  { apply (mq_lookup_fresh w size w4). reflexivity. }
  assert (os_fail os (clock w4) = None) as H2' by exact H2.
  mstep (mq_getattr_ok os w4 (Z.of_nat d) d size Hd4 H2').
  set (c4 := set_txMsgQ (Z.of_nat d) (set_txMsgQ (-1) zero_client)).
  assert (heap (tick w4) !! l = Some (OClient c4)) as Hl4 by apply lookup_insert_eq.
  mstep (update_client_ok _ _ _ (set_maxMessageSize size) Hl4).
  set (w5 := set_heap _ (tick w4)).
  assert (os_fail os (clock w5) = Some e) as H3' by exact H3.
  mstep (calloc_fails os w5 (OBytes (replicate (Z.to_nat size) 0)) e H3').
  set (w6 := set_errno ENOMEM (tick w5)).
  assert (heap w6 !! l = Some (OClient (set_maxMessageSize size c4))) as Hl6
    by apply lookup_insert_eq.
  mstep (update_client_ok _ _ _ (set_txBuf None) Hl6).
  set (w7 := set_heap _ w6).
  assert (mq_lookup w7 (Z.of_nat d) = Some (d, size)) as Hd7 by exact Hd4.
  mstep (mq_close_open w7 (Z.of_nat d) d size Hd7).
  set (w8 := set_mqs (delete d) (tick w7)).
  assert (heap w8 !! l = Some (OClient (set_txBuf None (set_maxMessageSize size c4)))) as Hl8
    by apply lookup_insert_eq.
  mstep (update_client_ok _ _ _ (set_txMsgQ (-1)) Hl8). mpure.
  change (ENOMEM =? EOK) with false. cbn [negb]. mpure.
  change (ENOMEM =? EOK) with false. cbn [negb].
  set (w9 := set_heap _ w8).
  assert (heap w9 !! l = Some (OClient (set_txMsgQ (-1) (set_txBuf None (set_maxMessageSize size c4))))) as Hl9
    by apply lookup_insert_eq.
  mstep (free_live _ _ _ Hl9). mpure.
  eexists. split; [reflexivity|]. simpl. split.
  - rewrite !insert_insert_eq. rewrite delete_insert_eq.
    apply delete_id. apply fresh_heap.
  - rewrite delete_insert_eq. apply delete_id. apply fresh_mqs.
Qed.


(** C6, where the code departs from it: when the control channel opens
    and the query of its attributes then fails, [IOTCLIENT_Create] returns
    NULL and frees the handle, but the descriptor of the channel, which was
    not open before the call, is still open after it. *)
Theorem Create_leaks_queue os w size e :
  queues w !! MESSAGE_QUEUE_NAME = Some size →
  os_fail os (clock w) = None →
  os_fail os (S (clock w)) = None →
  os_fail os (S (S (clock w))) = Some e →
  ∃ w', IOTCLIENT_Create os w = Ret None w' ∧
        heap w' = heap w ∧
        mqs w !! fresh (dom (mqs w)) = None ∧
        mqs w' = <[fresh (dom (mqs w)) := size]> (mqs w).
Proof.
  intros Hq H0 H1 H2. unfold IOTCLIENT_Create.
  mstep (calloc_ok os w (OClient zero_client) H0).
  set (l := fresh (dom (heap w))).
  unfold iotclient_CreateTxMessageQueue.
  set (w1 := set_heap <[l:=OClient zero_client]> (tick w)).
  assert (heap w1 !! l = Some (OClient zero_client)) as Hl1 by apply lookup_insert_eq.
  mstep (update_client_ok _ _ _ (set_txMsgQ (-1)) Hl1).
  set (w2 := set_heap _ w1).
  assert (queues w2 !! MESSAGE_QUEUE_NAME = Some size) as Hq2 by exact Hq.
  assert (os_fail os (clock w2) = None) as H1' by exact H1.
  mstep (mq_open_existing os w2 _ _ None Hq2 H1').
  set (d := fresh (dom (mqs w2))).
  set (w3 := set_mqs _ (tick w2)).
  assert (heap w3 !! l = Some (OClient (set_txMsgQ (-1) zero_client))) as Hl3
    by apply lookup_insert_eq.
  mstep (update_client_ok _ _ _ (set_txMsgQ (Z.of_nat d)) Hl3).
  destruct (Z.eqb_spec (Z.of_nat d) (-1)); [lia|]. cbn [negb].
  set (w4 := set_heap _ w3).
  assert (os_fail os (clock w4) = Some e) as H2' by exact H2.
  mstep (mq_getattr_fails os w4 (Z.of_nat d) e H2'). mpure.
  change (EIO =? EOK) with false. cbn [negb]. mpure.
  change (EIO =? EOK) with false. cbn [negb].
  set (w5 := set_errno _ _).
  assert (heap w5 !! l = Some (OClient (set_txMsgQ (Z.of_nat d) (set_txMsgQ (-1) zero_client)))) as Hl5
    by apply lookup_insert_eq.
  mstep (free_live _ _ _ Hl5). mpure.
  eexists. split; [reflexivity|]. simpl.
  split; [|split].
  - rewrite !insert_insert_eq. rewrite delete_insert_eq.
    apply delete_id. apply fresh_heap.
  - apply fresh_mqs.
  - reflexivity.
Qed.

Lemma Create_leaks_queue_witness :
  ∃ w', IOTCLIENT_Create os_noattr w_boot = Ret None w' ∧
        heap w' = ∅ ∧ mqs w' = {[ 0%nat := 64 ]}.
Proof.
  destruct (Create_leaks_queue os_noattr w_boot 64 5%positive)
    as (w' & Hrun & Hheap & _ & Hmqs);
    [reflexivity|reflexivity|reflexivity|reflexivity|].
  exists w'. split; [exact Hrun|]. split; [exact Hheap|exact Hmqs].
Defined.

(** A handle that was released cannot be closed again. *)
Lemma Close_dangling w l : heap w !! l = None → IOTCLIENT_Close (Some l) w = UB.
Proof.
  intros H. unfold IOTCLIENT_Close, iotclient_log.
  rewrite !bind_assoc. apply bind_UB. by apply load_client_dangling.
Qed.

(** C7, as the code has it.  Closing a live handle succeeds, whether or not
    its pipe is still in the file system: the pipe is unlinked, the blocks
    the handle owns and the handle itself are freed, and its two queue
    descriptors are closed.  Closing NULL is refused with EINVAL.  The
    handle is gone after the call: closing it once more uses freed memory,
    which is undefined, not a second success. *)
Theorem Close_releases w l c :
  handle_live w l c →
  IOTCLIENT_Close None w = Ret EINVAL w ∧
  ∃ w', IOTCLIENT_Close (Some l) w = Ret EOK w' ∧
    heap w' = delete l (released (rxBuf c) (released (txBuf c)
                (released (fifoName c) (heap w)))) ∧
    mqs w' = closed (rxMsgQ c) (closed (txMsgQ c) (mqs w)) ∧
    fifos w' = unlinked (fifo_of w c) (fifos w) ∧
    IOTCLIENT_Close (Some l) w' = UB.
Proof.
  intros (Hl & Hnm & Htx & Hrx & Hat & Har & Htr). split; [done|].
  unfold IOTCLIENT_Close. unfold iotclient_log at 1.
  mstep (load_client_ok _ _ _ Hl). mpure.
  destruct (DestroyFIFO_releases w l c Hl Hnm) as (w1 & Hrun1 & Hh1 & Hm1 & Hf1).
  mstep Hrun1.
  set (c1 := set_fifoName None c) in *.
  assert (heap w1 !! l = Some (OClient c1)) as Hl1.
  { rewrite Hh1. apply lookup_insert_eq. }
  assert (bytes_or_null w1 (txBuf c1)) as Htx1.
  { intros a Ha. change (txBuf c1) with (txBuf c) in Ha.
    destruct (Htx a Ha) as [bs Hbs]. exists bs.
    assert (l ≠ a) by exact (heap_objects_differ w l a c bs Hl Hbs).
    rewrite Hh1, lookup_insert_ne, lookup_released by done.
    rewrite decide_False; [done|]. intros E. by apply (Hat a). }
  destruct (DestroyTxMessageQueue_releases w1 l c1 Hl1 Htx1)
    as (w2 & Hrun2 & Hh2 & Hm2 & Hf2).
  mstep Hrun2.
  set (c2 := set_txMsgQ (-1) (set_txBuf None c1)) in *.
  assert (heap w2 !! l = Some (OClient c2)) as Hl2.
  { rewrite Hh2. apply lookup_insert_eq. }
  assert (bytes_or_null w2 (rxBuf c2)) as Hrx2.
  { intros a Ha. change (rxBuf c2) with (rxBuf c) in Ha.
    destruct (Hrx a Ha) as [bs Hbs]. exists bs.
    assert (l ≠ a) by exact (heap_objects_differ w l a c bs Hl Hbs).
    rewrite Hh2, lookup_insert_ne, lookup_released by done.
    change (txBuf c1) with (txBuf c).
    rewrite decide_False by (intros E; by apply (Htr a)).
    rewrite Hh1, lookup_insert_ne, lookup_released by done.
    rewrite decide_False; [done|]. intros E. by apply (Har a). }
  destruct (DestroyRxMessageQueue_releases w2 l c2 Hl2 Hrx2)
    as (w3 & Hrun3 & Hh3 & Hm3 & Hf3).
  mstep Hrun3.
  assert (heap w3 !! l = Some (OClient (set_rxMsgQ (-1) (set_rxBuf None c2)))) as Hl3.
  { rewrite Hh3. apply lookup_insert_eq. }
  mstep (free_live _ _ _ Hl3). mpure.
  eexists. split; [reflexivity|]. simpl.
  assert (delete l (heap w3)
          = delete l (released (rxBuf c) (released (txBuf c)
                        (released (fifoName c) (heap w))))) as Hheap.
  { apply map_eq. intros i. destruct (decide (i = l)) as [->|Hi].
    - by rewrite !lookup_delete_eq.
    - rewrite !lookup_delete_ne by done.
      rewrite Hh3, lookup_insert_ne, lookup_released by done.
      change (rxBuf c2) with (rxBuf c). rewrite (lookup_released (rxBuf c)).
      destruct (decide (rxBuf c = Some i)); [done|].
      rewrite Hh2, lookup_insert_ne, lookup_released by done.
      change (txBuf c1) with (txBuf c). rewrite (lookup_released (txBuf c)).
      destruct (decide (txBuf c = Some i)); [done|].
      rewrite Hh1, lookup_insert_ne by done. done. }
  split; [exact Hheap|]. split; [|split].
  - rewrite Hm3, Hm2, Hm1. done.
  - rewrite Hf3, Hf2, Hf1. done.
  - apply Close_dangling. simpl. apply lookup_delete_eq.
Qed.

Lemma Close_releases_witness :
  ∃ w', IOTCLIENT_Close (Some 1%positive) (set_fifos (fun _ => ∅) w_ready)
        = Ret EOK w' ∧
        heap w' = ∅ ∧ mqs w' = ∅ ∧ fifos w' = ∅ ∧
        IOTCLIENT_Close (Some 1%positive) w' = UB.
Proof.
  destruct (Close_releases (set_fifos (fun _ => ∅) w_ready) 1%positive c_ready)
    as (_ & w' & Hrun & Hheap & Hmqs & Hfifos & Hub).
  - split; [reflexivity|].
    split; [intros a [= <-]; eexists; reflexivity|].
    split; [intros a [= <-]; eexists; reflexivity|].
    split; [intros a [=]|].
    split; [intros a [= <-]; discriminate|].
    split; [intros a [= <-]; discriminate|].
    intros a [= <-]; discriminate.
  - exists w'. split; [exact Hrun|].
    split; [rewrite Hheap; vm_compute; reflexivity|].
    split; [rewrite Hmqs; vm_compute; reflexivity|].
    split; [rewrite Hfifos; vm_compute; reflexivity|exact Hub].
Defined.

(** C7 as stated fails for the second call: a handle that was created and
    closed cannot be closed again. *)
Lemma Close_twice_undefined :
  (∃ w', (do h <- IOTCLIENT_Create os_sample; IOTCLIENT_Close h) w_boot
         = Ret EOK w') ∧
  (do h <- IOTCLIENT_Create os_sample;
   run IOTCLIENT_Close h;
   IOTCLIENT_Close h) w_boot = UB.
Proof. split; [eexists|]; vm_compute; reflexivity. Qed.

(** * Further facts about the header codec *)

Lemma starts_app_long n l x :
  (length n ≤ length l)%nat → starts n (l ++ x) = starts n l.
Proof.
  revert l. induction n as [|a n IH]; intros l Hl; [done|].
  destruct l as [|b l]; simpl in *; [lia|].
  rewrite IH by lia. done.
Qed.

Lemma upto_end_app (val rest : list Z) :
  (∀ c, c ∈ val → is_end c = false) → upto_end (val ++ LF :: rest) = val.
Proof.
  induction val as [|c val IH]; intros Hval; simpl; [done|].
  rewrite (Hval c) by (apply elem_of_cons; by left).
  rewrite IH; [done|]. intros c' Hc'. apply Hval. apply elem_of_cons. by right.
Qed.

Lemma not_end_not_NUL (val : list Z) :
  (∀ c, c ∈ val → is_end c = false) → NUL ∉ val.
Proof. intros Hval Hin. by apply Hval in Hin. Qed.

(** The layout of a header line in a block of headers, for the search and
    for the copy. *)
Lemma header_line_found (pre name val rest : list Z) :
  NUL ∉ pre → NUL ∉ name →
  (∀ c, c ∈ val → is_end c = false) →
  (∀ j, (j < length pre)%nat → starts name (drop j (pre ++ name)) = false) →
  let h := pre ++ name ++ COLON :: val ++ LF :: rest in
  strstr h (name ++ [NUL]) = Some (length pre) ∧
  strlen (name ++ [NUL]) = length name ∧
  rd h (length pre + length name) = COLON ∧
  prop_value h (length pre + length name + 1) = val.
Proof.
  intros Hpre Hname Hval Hfirst h.
  assert (cstr (name ++ [NUL]) = name) as Hn by (by apply cstr_terminated).
  assert (cstr h = pre ++ name ++ COLON :: val ++ LF :: cstr rest) as Hh.
  { unfold h. rewrite cstr_app by done. f_equal.
    rewrite cstr_app by done. f_equal.
    change (COLON :: val ++ LF :: rest) with ([COLON] ++ val ++ LF :: rest).
    rewrite cstr_app by (by intros ?%list_elem_of_singleton).
    rewrite cstr_app by (by apply not_end_not_NUL). done. }
  split; [|split; [|split]].
  - unfold strstr. rewrite Hn, Hh.
    rewrite (find_from_first name pre _ 0); [done|].
    intros j Hj. rewrite app_assoc. rewrite drop_app_le by (rewrite length_app; lia).
    rewrite starts_app_long; [by apply Hfirst|].
    rewrite length_drop, length_app. lia.
  - unfold strlen. by rewrite Hn.
  - unfold h. rewrite app_assoc, <- length_app.
    rewrite <- (Nat.add_0_r (length (pre ++ name))). by rewrite rd_app_r.
  - unfold prop_value, h.
    replace (pre ++ name ++ COLON :: val ++ LF :: rest)
      with ((pre ++ name ++ [COLON]) ++ val ++ LF :: rest)
      by (by rewrite <- !app_assoc).
    rewrite drop_app_length' by (rewrite !length_app; simpl; lia).
    by apply upto_end_app.
Qed.


Lemma cstr_length_le m : (length (cstr m) ≤ length m)%nat.
Proof.
  induction m as [|c m IH]; simpl; [done|].
  destruct (c =? NUL); simpl; lia.
Qed.

Lemma upto_end_app_end (val rest : list Z) e :
  is_end e = true →
  (∀ c, c ∈ val → is_end c = false) → upto_end (val ++ e :: rest) = val.
Proof.
  intros He. induction val as [|c val IH]; intros Hval; simpl; [by rewrite He|].
  rewrite (Hval c) by (apply elem_of_cons; by left).
  rewrite IH; [done|]. intros c' Hc'. apply Hval. apply elem_of_cons. by right.
Qed.

(** The layout of a header line that ends the block of headers: the
    character behind its value is the NUL that ends the block. *)
Lemma header_line_last (pre name val rest : list Z) :
  NUL ∉ pre → NUL ∉ name →
  (∀ c, c ∈ val → is_end c = false) →
  (∀ j, (j < length pre)%nat → starts name (drop j (pre ++ name)) = false) →
  let h := pre ++ name ++ COLON :: val ++ NUL :: rest in
  strstr h (name ++ [NUL]) = Some (length pre) ∧
  strlen (name ++ [NUL]) = length name ∧
  rd h (length pre + length name) = COLON ∧
  prop_value h (length pre + length name + 1) = val.
Proof.
  intros Hpre Hname Hval Hfirst h.
  assert (cstr (name ++ [NUL]) = name) as Hn by (by apply cstr_terminated).
  assert (cstr h = pre ++ name ++ COLON :: val) as Hh.
  { unfold h. rewrite cstr_app by done. f_equal.
    rewrite cstr_app by done. f_equal.
    change (COLON :: val ++ NUL :: rest) with ([COLON] ++ val ++ NUL :: rest).
    rewrite cstr_app by (by intros ?%list_elem_of_singleton).
    rewrite cstr_terminated by (by apply not_end_not_NUL). done. }
  split; [|split; [|split]].
  - unfold strstr. rewrite Hn, Hh.
    rewrite (find_from_first name pre _ 0); [done|].
    intros j Hj. rewrite app_assoc. rewrite drop_app_le by (rewrite length_app; lia).
    rewrite starts_app_long; [by apply Hfirst|].
    rewrite length_drop, length_app. lia.
  - unfold strlen. by rewrite Hn.
  - unfold h. rewrite app_assoc, <- length_app.
    rewrite <- (Nat.add_0_r (length (pre ++ name))). by rewrite rd_app_r.
  - unfold prop_value, h.
    replace (pre ++ name ++ COLON :: val ++ NUL :: rest)
      with ((pre ++ name ++ [COLON]) ++ val ++ NUL :: rest)
      by (by rewrite <- !app_assoc).
    rewrite drop_app_length' by (rewrite !length_app; simpl; lia).
    by apply upto_end_app_end.
Qed.

(** Where [strstr] finds a name that first occurs behind [pre]. *)
Lemma strstr_first (pre name rest : list Z) :
  NUL ∉ pre → NUL ∉ name →
  (∀ j, (j < length pre)%nat → starts name (drop j (pre ++ name)) = false) →
  strstr (pre ++ name ++ rest) (name ++ [NUL]) = Some (length pre).
Proof.
  intros Hpre Hname Hfirst. unfold strstr.
  rewrite (cstr_terminated name []) by done.
  rewrite cstr_app by done. rewrite cstr_app by done.
  rewrite (find_from_first name pre _ 0); [done|].
  intros j Hj. rewrite app_assoc. rewrite drop_app_le by (rewrite length_app; lia).
  rewrite starts_app_long; [by apply Hfirst|].
  rewrite length_drop, length_app. lia.
Qed.

(** * Further facts about receiving *)

Lemma mq_receive_refused os w q rx size :
  (mq_lookup w q = None ∨
   (∃ d msgsize, mq_lookup w q = Some (d, msgsize) ∧
      (size < msgsize ∨ ∃ e, os_fail os (clock w) = Some e))) →
  ∃ e, mq_receive os q rx size w = Ret (-1) (set_errno e (tick w)) ∧ e ≠ 0.
Proof.
  intros H. unfold mq_receive, bind, now, get_world. cbn [clock tick].
  change (mq_lookup (tick w) q) with (mq_lookup w q).
  destruct H as [->|(d & msgsize & -> & H)].
  - by exists EBADF.
  - destruct (Z.ltb_spec size msgsize) as [?|Hge].
    + by exists EMSGSIZE.
    + destruct H as [?|[e He]]; [lia|]. rewrite He. by exists (Z.pos e).
Qed.

(** What [IOTCLIENT_Receive] does once a message is delivered in which
    [strstr] finds the delimiter at offset [k]. *)
Lemma Receive_delimiter_found os w l c rx old d msgsize k out :
  heap w !! l = Some (OClient c) →
  rxBuf c = Some rx →
  heap w !! rx = Some (OBytes old) →
  Z.of_nat (length old) = rxBufSize c →
  mq_lookup w (rxMsgQ c) = Some (d, msgsize) →
  msgsize ≤ rxBufSize c →
  os_fail os (clock w) = None →
  let msg := take (Z.to_nat msgsize) (os_data os (clock w)) in
  let buf := msg ++ drop (length msg) old in
  msg ≠ [] →
  strstr buf [LF; LF; NUL] = Some k →
  ∃ w', IOTCLIENT_Receive os (Some l) true out w
        = Ret (EOK, mkReceived (Some (rx, 0%nat)) (Z.of_nat k)
                      (Some (rx, (k + 2)%nat))
                      (to_size_t (Z.of_nat (length msg) - Z.of_nat k))) w' ∧
        heap w' !! rx = Some (OBytes (<[k := NUL]> buf)).
Proof.
  intros Hl Hrx Hb Hsz Hq Hms Hos msg buf Hne Hk.
  assert (length msg ≤ length old)%nat as Hfits.
  { unfold msg. rewrite length_take. lia. }
  assert (0 < length msg)%nat as Hpos by (destruct msg; [done|simpl; lia]).
  assert (length buf = length old) as Hlen.
  { unfold buf. rewrite length_app, length_drop. lia. }
  assert (k < length buf)%nat as Hkb.
  { unfold strstr in Hk. apply find_from_Some in Hk as (pre & post & Hc & -> & _).
    pose proof (cstr_length_le buf) as Hle. rewrite Hc in Hle.
    rewrite !length_app in Hle. simpl in *. lia. }
  unfold IOTCLIENT_Receive.
  mstep (load_client_ok _ _ _ Hl). rewrite Hrx.
  assert ((rxMsgQ c =? -1) = false) as ->.
  { apply Z.eqb_neq. intros E. rewrite E in Hq. done. }
  assert ((0 <? rxBufSize c) = true) as -> by (apply Z.ltb_lt; lia).
  cbn [negb andb].
  mstep (mq_receive_delivers os w (rxMsgQ c) rx old d msgsize (rxBufSize c)
           Hq Hms Hb Hos Hfits).
  fold msg. fold buf.
  assert ((0 <? Z.of_nat (length msg)) = true) as -> by (apply Z.ltb_lt; lia).
  assert (heap (set_heap <[rx:=OBytes buf]> (tick w)) !! rx = Some (OBytes buf)) as Hb2.
  { simpl. apply lookup_insert_eq. }
  mstep (load_bytes_ok _ _ _ Hb2). rewrite Hk.
  mstep (store_bytes_ok _ _ _ (<[k:=NUL]> buf) Hb2).
  assert ((Z.of_nat k <? rxBufSize c) = true) as -> by (apply Z.ltb_lt; lia).
  eexists. split; [reflexivity|]. simpl. apply lookup_insert_eq.
Qed.


(** A handle whose receive descriptor is -1 receives nothing. *)
Lemma Receive_closed os w l c outs out :
  heap w !! l = Some (OClient c) → rxMsgQ c = -1 →
  IOTCLIENT_Receive os (Some l) outs out w = Ret (EINVAL, out) w.
Proof.
  intros Hl Hq. unfold IOTCLIENT_Receive.
  mstep (load_client_ok _ _ _ Hl). rewrite Hq.
  by destruct (rxBuf c).
Qed.

(** The run of [IOTCLIENT_Receive] in a system where [mq_receive] answers:
    a result that is not EOK comes with the results, the heap and the open
    queues as they were. *)
Lemma Receive_run os w l c outs out :
  heap w !! l = Some (OClient c) →
  (∀ rx, rxBuf c = Some rx →
     ∃ old, heap w !! rx = Some (OBytes old) ∧ Z.of_nat (length old) = rxBufSize c) →
  ∃ rc out' w', IOTCLIENT_Receive os (Some l) outs out w = Ret (rc, out') w' ∧
    (rc ≠ EOK → out' = out ∧ heap w' = heap w ∧ mqs w' = mqs w).
Proof.
  intros Hl Hbuf. unfold IOTCLIENT_Receive.
  mstep (load_client_ok _ _ _ Hl).
  destruct (rxBuf c) as [rx|] eqn:Hrx; [|by eexists _, _, _].
  destruct (Hbuf rx eq_refl) as (old & Hb & Hsz).
  destruct (negb (rxMsgQ c =? -1) && (0 <? rxBufSize c) && outs) eqn:Hguard;
    [|by eexists _, _, _].
  destruct (mq_lookup w (rxMsgQ c)) as [[d msgsize]|] eqn:Hq.
  - destruct (Z.lt_ge_cases (rxBufSize c) msgsize) as [Hsmall|Hms].
    + destruct (mq_receive_refused os w (rxMsgQ c) rx (rxBufSize c)) as (e & Hr & He).
      { right. exists d, msgsize. split; [done|]. by left. }
      mstep Hr. simpl. eexists _, _, _. split; [reflexivity|]. done.
    + destruct (os_fail os (clock w)) as [e|] eqn:Hos.
      * destruct (mq_receive_refused os w (rxMsgQ c) rx (rxBufSize c)) as (e' & Hr & He).
        { right. exists d, msgsize. split; [done|]. right. by exists e. }
        mstep Hr. simpl. eexists _, _, _. split; [reflexivity|]. done.
      * set (msg := take (Z.to_nat msgsize) (os_data os (clock w))).
        assert (length msg ≤ length old)%nat as Hfits.
        { unfold msg. rewrite length_take. lia. }
        mstep (mq_receive_delivers os w (rxMsgQ c) rx old d msgsize (rxBufSize c)
                 Hq Hms Hb Hos Hfits).
        fold msg. set (buf := msg ++ drop (length msg) old).
        assert (heap (set_heap <[rx:=OBytes buf]> (tick w)) !! rx
                = Some (OBytes buf)) as Hb2 by apply lookup_insert_eq.
        destruct (Z.ltb_spec 0 (Z.of_nat (length msg))) as [Hpos|Hzero].
        -- mstep (load_bytes_ok _ _ _ Hb2).
           destruct (strstr buf [LF; LF; NUL]) as [k|].
           ++ mstep (store_bytes_ok _ _ _ (<[k:=NUL]> buf) Hb2).
              destruct (Z.of_nat k <? rxBufSize c);
                eexists _, _, _; (split; [reflexivity|done]).
           ++ eexists _, _, _. split; [reflexivity|done].
        -- simpl. eexists _, _, _. split; [reflexivity|]. intros _.
           split; [done|]. simpl. split; [|done].
           destruct msg; [|simpl in Hzero; lia]. unfold buf. simpl.
           by apply insert_id.
  - destruct (mq_receive_refused os w (rxMsgQ c) rx (rxBufSize c)) as (e & Hr & He).
    { by left. }
    mstep Hr. simpl. eexists _, _, _. split; [reflexivity|]. done.
Qed.

(** * Further facts about sending *)

(** Closing the descriptor that was opened last restores the set of open
    descriptors. *)
Lemma fresh_fd_closed (s : gset nat) : ({[fresh s]} ∪ s) ∖ {[fresh s]} = s.
Proof.
  apply set_eq. intros x.
  rewrite elem_of_difference, elem_of_union, !elem_of_singleton.
  pose proof (is_fresh s) as Hf. split.
  - intros [[->|?] ?]; done.
  - intros Hx. split; [by right|]. intros ->. done.
Qed.

(** What [iotclient_SendBody] returns, and what it leaves behind, once the
    pipe is open. *)
Lemma SendBody_run os w l c nm path len :
  heap w !! l = Some (OClient c) →
  fifoName c = Some nm →
  heap w !! nm = Some (OBytes path) →
  0 ≤ len < SIZE_MOD →
  cstr path ∈ fifos w →
  os_fail os (clock w) = None →
  let d := fresh (fds w) in
  let t := S (clock w) in
  let r := Z.min len (Z.of_N (os_val os t)) in
  ∃ rc w', iotclient_SendBody os (Some l) true len w = Ret rc w' ∧
    heap w' = heap w ∧ mqs w' = mqs w ∧ sent w' = sent w ∧ fifos w' = fifos w ∧
    (MAX_IOT_MSG_SIZE ≤ len →
       rc = EMSGSIZE ∧ piped w' = piped w ∧ fds w' = {[d]} ∪ fds w ∧ d ∉ fds w) ∧
    (len < MAX_IOT_MSG_SIZE →
       fds w' = fds w ∧
       match os_fail os t with
       | Some e => rc = Z.pos e ∧ piped w' = piped w
       | None => rc = (if len <=? Z.of_N (os_val os t) then EOK else EIO) ∧
                 piped w' = (d, r) :: piped w
       end).
Proof.
  intros Hl Hnm Hp Hlen Hin Hos d t r. unfold iotclient_SendBody.
  mstep (load_client_ok _ _ _ Hl). rewrite Hnm.
  mstep (load_bytes_ok _ _ _ Hp).
  mstep (open_wronly_ok os _ _ Hin Hos). fold d.
  destruct (Z.eqb_spec (Z.of_nat d) (-1)); [lia|]. cbn [negb].
  destruct (Z.ltb_spec len MAX_IOT_MSG_SIZE) as [Hsmall|Hbig].
  - assert (d ∈ fds (set_fds (union {[d]}) (tick w))) as Hfd.
    { simpl. apply elem_of_union_l, elem_of_singleton. reflexivity. }
    destruct (os_fail os t) as [e|] eqn:Hw.
    + mstep (write_refused os _ d len e Hfd Hw).
      change (to_size_t (-1)) with (SIZE_MOD - 1).
      destruct (Z.eqb_spec (SIZE_MOD - 1) len) as [E|_].
      { unfold MAX_IOT_MSG_SIZE, SIZE_MOD in *. lia. }
      rewrite Z.eqb_refl. mpure. mstep_close. mpure.
      eexists _, _. split; [reflexivity|]. simpl.
      do 4 (split; [done|]). split; [lia|]. intros _.
      split; [apply fresh_fd_closed|done].
    + mstep (write_open os _ d len Hfd Hw). simpl clock. fold t. fold r.
      assert (0 ≤ r ≤ len) as Hr by (unfold r; lia).
      assert (to_size_t r = r) as ->.
      { apply Z.mod_small. lia. }
      assert (∃ rc, (if r =? len then ret EOK
                     else if r =? to_size_t (-1)
                          then do w0 <- get_world; ret (errno w0)
                          else ret EIO)
                    = ret rc ∧
                    rc = (if len <=? Z.of_N (os_val os t) then EOK else EIO))
        as (rc & -> & Hrc).
      { destruct (Z.leb_spec len (Z.of_N (os_val os t))) as [Hle|Hgt].
        - exists EOK. unfold r. rewrite Z.min_l by lia. by rewrite Z.eqb_refl.
        - exists EIO. destruct (Z.eqb_spec r len) as [E|_]; [unfold r in *; lia|].
          change (to_size_t (-1)) with (SIZE_MOD - 1).
          destruct (Z.eqb_spec r (SIZE_MOD - 1)) as [E|_]; [|done].
          unfold MAX_IOT_MSG_SIZE, SIZE_MOD in *. lia. }
      mpure. mstep_close. mpure.
      eexists _, _. split; [reflexivity|]. simpl.
      do 4 (split; [done|]). split; [lia|]. intros _.
      split; [apply fresh_fd_closed|done].
  - eexists _, _. split; [reflexivity|]. simpl.
    do 4 (split; [done|]). split; [|lia]. intros _.
    split; [done|]. split; [done|]. split; [done|]. apply is_fresh.
Qed.

(** The world [iotclient_SendHeaders] leaves when the frame fits. *)
Lemma SendHeaders_world os w l c tx txbuf hd d :
  heap w !! l = Some (OClient c) →
  txBuf c = Some tx →
  heap w !! tx = Some (OBytes txbuf) →
  Z.of_nat (length txbuf) = maxMessageSize c →
  mq_lookup w (txMsgQ c) = Some (d, maxMessageSize c) →
  8 + Z.of_nat (strlen hd) < maxMessageSize c →
  maxMessageSize c ≤ SIZE_MOD →
  let frame := preamble ++ pid_bytes (pid c) ++ cstr hd in
  let b3 := frame ++ drop (length frame) txbuf in
  iotclient_SendHeaders os (Some l) (Some hd) w
  = match os_fail os (clock w) with
    | None => Ret EOK (log_sent d frame (tick (set_heap <[tx:=OBytes b3]> w)))
    | Some e => Ret (Z.pos e)
                  (set_errno (Z.pos e) (tick (set_heap <[tx:=OBytes b3]> w)))
    end.
Proof.
  intros Hl Htx Hb Hsz Hq Hfit Hmax frame b3.
  set (n := Z.of_nat (strlen hd)) in *.
  assert (Z.of_nat (length frame) = 8 + n) as Hframe.
  { unfold frame, n, strlen. rewrite !length_app. simpl. lia. }
  assert (to_size_t (n + 8) = n + 8) as Hts.
  { unfold to_size_t. apply Z.mod_small. unfold n. lia. }
  destruct (frame_layout txbuf (take 4 preamble) (pid_bytes (pid c)) (cstr hd))
    as (b1 & b2 & b3' & E1 & E2 & E3 & Hb3); [done|done|unfold n, strlen in *; lia|].
  assert (b3' = b3) as ->.
  { rewrite Hb3. unfold b3, frame. change (take 4 preamble) with preamble.
    rewrite <- !app_assoc. reflexivity. }
  assert (l ≠ tx) as Hne by exact (heap_objects_differ w l tx c txbuf Hl Hb).
  assert (take (Z.to_nat (n + 8)) b3 = frame) as Htake.
  { unfold b3. apply take_app_length'. lia. }
  assert ((txMsgQ c =? -1) = false) as Hq1.
  { apply Z.eqb_neq. intros E. rewrite E in Hq. done. }
  assert (mq_lookup (set_heap <[tx:=OBytes b3]> w) (txMsgQ c)
          = Some (d, maxMessageSize c)) as Hq2 by exact Hq.
  assert (heap (set_heap <[tx:=OBytes b3]> w) !! l = Some (OClient c)) as Hl2.
  { simpl. by rewrite lookup_insert_ne. }
  unfold iotclient_SendHeaders, iotclient_log.
  mstep (load_client_ok _ _ _ Hl). rewrite Htx. fold n. rewrite Hts.
  destruct (Z.ltb_spec (n + 8) (maxMessageSize c)); [|lia].
  mstep (load_bytes_ok _ _ _ Hb). rewrite E1, E2, E3.
  mstep (store_bytes_ok _ _ _ b3 Hb). rewrite Hq1. mpure.
  mstep (load_client_ok _ _ _ Hl2). mpure. rewrite Htake.
  destruct (os_fail os (clock w)) as [e|] eqn:Hos.
  - mstep (mq_send_refused os _ _ frame _ _ e Hq2 ltac:(lia) Hos). mpure. done.
  - mstep (mq_send_accepted os _ _ frame _ _ Hq2 ltac:(lia) Hos). mpure. done.
Qed.

(** * Further facts about streaming *)

(** The loop touches nothing but the clock, the error number and the record
    of what was piped. *)
Lemma StreamBody_loop_sent os fd fd_out : ∀ fuel total left w r w',
  StreamBody_loop os fuel fd fd_out total left w = Ret r w' →
  sent w' = sent w.
Proof.
  induction fuel as [|fuel IH]; intros total left w r w' Hrun; [done|].
  simpl in Hrun. destruct (total <? MAX_IOT_MSG_SIZE).
  - unfold bind at 1 in Hrun.
    destruct (read os fd w) as [| |rd w1] eqn:Hread; try done.
    assert (sent w1 = sent w) as H1.
    { unfold read, bind, now in Hread. simpl in Hread.
      destruct (os_fail os (clock w)); simpl in Hread; by inversion Hread. }
    destruct (0 <? _).
    + unfold bind at 1 in Hrun.
      destruct (write os fd_out _ w1) as [| |rw w2] eqn:Hwrite; try done.
      assert (sent w2 = sent w1) as H2.
      { unfold write, bind, now, get_world in Hwrite. simpl in Hwrite.
        destruct (bool_decide _); [destruct (os_fail os (clock w1))|];
          simpl in Hwrite; by inversion Hwrite. }
      rewrite (IH _ _ _ _ _ Hrun). congruence.
    + inversion Hrun. by subst.
  - inversion Hrun. by subst.
Qed.

(** The loop on a system that refuses nothing, whose source always has a
    full block and whose pipe always takes one. *)
Lemma StreamBody_loop_full os fd d :
  (∀ t, os_fail os t = None) →
  (∀ t, Z.pos (BUFSIZ os) ≤ Z.of_N (os_val os t)) →
  Z.pos (BUFSIZ os) < SIZE_MOD →
  ∀ fuel total left w,
  d ∈ fds w → 0 ≤ left → total + left = MAX_IOT_MSG_SIZE → 0 ≤ total →
  (Z.to_nat left < fuel)%nat →
  ∃ w', StreamBody_loop os fuel fd (Z.of_nat d) total left w
        = Ret (MAX_IOT_MSG_SIZE, 0) w' ∧
        piped_sum w' = piped_sum w + left ∧ fds w' = fds w.
Proof.
  intros Hok Hval Hbuf.
  induction fuel as [|fuel IH]; intros total left w Hd Hleft Hinv Htot Hfuel; [lia|].
  simpl. destruct (Z.ltb_spec total MAX_IOT_MSG_SIZE) as [Hlt|Hge].
  - unfold read. unfold now at 1. unfold bind at 1. unfold bind at 1.
    cbn [clock]. rewrite Hok. unfold ret at 1.
    rewrite (Z.min_l _ _ (Hval (clock w))).
    assert (to_size_t (Z.pos (BUFSIZ os)) = Z.pos (BUFSIZ os)) as ->.
    { apply Z.mod_small. lia. }
    set (n := if left <? Z.pos (BUFSIZ os) then left else Z.pos (BUFSIZ os)).
    assert (0 < n ≤ left ∧ n ≤ Z.pos (BUFSIZ os)) as (Hn & Hnb).
    { unfold n. destruct (Z.ltb_spec left (Z.pos (BUFSIZ os))); lia. }
    destruct (Z.ltb_spec 0 n); [|lia].
    assert (d ∈ fds (tick w)) as Hd1 by exact Hd.
    mstep (write_open os (tick w) d n Hd1 (Hok _)).
    assert (Z.min n (Z.of_N (os_val os (clock (tick w)))) = n) as ->.
    { apply Z.min_l. specialize (Hval (clock (tick w))). lia. }
    assert (to_size_t (total + n) = total + n) as ->.
    { apply Z.mod_small. unfold SIZE_MOD. unfold MAX_IOT_MSG_SIZE in *. lia. }
    assert (to_size_t (left - n) = left - n) as ->.
    { apply Z.mod_small. unfold SIZE_MOD. unfold MAX_IOT_MSG_SIZE in *. lia. }
    destruct (IH (total + n) (left - n) (log_piped d n (tick (tick w))))
      as (w' & Hrun & Hps & Hfd); [exact Hd|lia|lia|lia|lia|].
    exists w'. split; [exact Hrun|]. split; [|exact Hfd].
    rewrite Hps. unfold piped_sum. simpl. lia.
  - exists w. mpure. assert (total = MAX_IOT_MSG_SIZE) as -> by lia.
    assert (left = 0) as -> by lia. split; [done|]. split; [lia|done].
Qed.

(** What [iotclient_StreamBody] leaves behind on a handle with a pipe
    name: the open descriptors, the heap, the queues and the control channel
    are as before, and the pipes have accepted at most 256 MiB more. *)
Lemma StreamBody_run os fuel w l c nm path fd :
  heap w !! l = Some (OClient c) →
  fifoName c = Some nm →
  heap w !! nm = Some (OBytes path) →
  fd ≠ -1 →
  (Z.to_nat MAX_IOT_MSG_SIZE < fuel)%nat →
  ∃ w', iotclient_StreamBody os fuel (Some l) fd w
        = Ret (if bool_decide (cstr path ∈ fifos w ∧ os_fail os (clock w) = None)
               then EOK else EBADF) w' ∧
    fds w' = fds w ∧ heap w' = heap w ∧ mqs w' = mqs w ∧ fifos w' = fifos w ∧
    sent w' = sent w ∧
    piped_sum w ≤ piped_sum w' ≤ piped_sum w + MAX_IOT_MSG_SIZE.
Proof.
  intros Hl Hnm Hp Hfd Hfuel. unfold iotclient_StreamBody.
  destruct (Z.eqb_spec fd (-1)); [done|]. cbn [negb].
  mstep (load_client_ok _ _ _ Hl). rewrite Hnm.
  mstep (load_bytes_ok _ _ _ Hp).
  destruct (open_wronly_cases os w (cstr path))
    as [(d & Ho & Hin & Hos)|(e & Ho & He & Hno)]; mstep Ho.
  - rewrite bool_decide_eq_true_2 by done.
    assert (d = fresh (fds w)) as ->.
    { rewrite (open_wronly_ok os _ _ Hin Hos) in Ho. inversion Ho. lia. }
    set (d := fresh (fds w)) in *.
    destruct (Z.eqb_spec (Z.of_nat d) (-1)); [lia|]. cbn [negb].
    set (w1 := set_fds (union {[d]}) (tick w)).
    destruct (StreamBody_loop_inv os fd d fuel 0 MAX_IOT_MSG_SIZE w1)
      as (t' & w' & Hrun & Hb & Hps & Hfd' & Hh' & Hm' & Hf' & _);
      [simpl; apply elem_of_union_l, elem_of_singleton; reflexivity
      |done|done|done|lia|].
    pose proof (StreamBody_loop_sent _ _ _ _ _ _ _ _ _ Hrun) as Hs'.
    mstep Hrun.
    assert (d ∈ fds w') as Hd'.
    { rewrite Hfd'. simpl. apply elem_of_union_l, elem_of_singleton. reflexivity. }
    mstep (close_open _ _ Hd'). mpure. eexists. split; [reflexivity|]. simpl.
    split; [rewrite Hfd'; apply fresh_fd_closed|].
    do 4 (split; [done|]).
    change (piped_sum (set_fds (λ s : gset nat, s ∖ {[d]}) (tick w')))
      with (piped_sum w').
    change (piped_sum w1) with (piped_sum w) in Hps. lia.
  - rewrite bool_decide_eq_false_2 by done. simpl. eexists.
    split; [reflexivity|]. simpl. do 5 (split; [done|]).
    unfold piped_sum. simpl. unfold MAX_IOT_MSG_SIZE. lia.
Qed.

(** * Further facts about the life cycle of the handle *)

(** Writing to a live object does not change which blocks are live. *)
Lemma heap_dom_update (h : gmap loc object) l o o' :
  h !! l = Some o → dom (<[l := o']> h) = dom h.
Proof. intros H. apply dom_insert_lookup_L. by exists o. Qed.

(** The run of [iotclient_CreateTxMessageQueue] when the control channel
    exists and no call is refused. *)
Lemma CreateTxMessageQueue_ok os w l c size :
  heap w !! l = Some (OClient c) →
  queues w !! MESSAGE_QUEUE_NAME = Some size →
  os_fail os (clock w) = None →
  os_fail os (S (clock w)) = None →
  os_fail os (S (S (clock w))) = None →
  let d := fresh (dom (mqs w)) in
  let tx := fresh (dom (heap w)) in
  let c' := set_txBuf (Some tx) (set_maxMessageSize size
              (set_txMsgQ (Z.of_nat d) (set_txMsgQ (-1) c))) in
  ∃ w', iotclient_CreateTxMessageQueue os (Some l) w = Ret EOK w' ∧
    heap w' = <[l := OClient c']>
                (<[tx := OBytes (replicate (Z.to_nat size) 0)]> (heap w)) ∧
    mqs w' = <[d := size]> (mqs w) ∧
    fifos w' = fifos w ∧ fds w' = fds w ∧ queues w' = queues w ∧
    self w' = self w ∧ clock w' = S (S (S (clock w))).
Proof.
  intros Hl Hq H0 H1 H2 d tx c'. unfold iotclient_CreateTxMessageQueue.
  mstep (update_client_ok _ _ _ (set_txMsgQ (-1)) Hl).
  set (w1 := set_heap _ w).
  assert (queues w1 !! MESSAGE_QUEUE_NAME = Some size) as Hq1 by exact Hq.
  assert (os_fail os (clock w1) = None) as H0' by exact H0.
  mstep (mq_open_existing os w1 _ _ None Hq1 H0').
  change (fresh (dom (mqs w1))) with d.
  set (w2 := set_mqs _ (tick w1)).
  assert (heap w2 !! l = Some (OClient (set_txMsgQ (-1) c))) as Hl2
    by apply lookup_insert_eq.
  mstep (update_client_ok _ _ _ (set_txMsgQ (Z.of_nat d)) Hl2).
  destruct (Z.eqb_spec (Z.of_nat d) (-1)); [lia|]. cbn [negb].
  set (w3 := set_heap _ w2).
  assert (mq_lookup w3 (Z.of_nat d) = Some (d, size)) as Hd3.
  { apply (mq_lookup_fresh w size w3). reflexivity. }
  assert (os_fail os (clock w3) = None) as H1' by exact H1.
  mstep (mq_getattr_ok os w3 (Z.of_nat d) d size Hd3 H1').
  set (c3 := set_txMsgQ (Z.of_nat d) (set_txMsgQ (-1) c)).
  assert (heap (tick w3) !! l = Some (OClient c3)) as Hl3 by apply lookup_insert_eq.
  mstep (update_client_ok _ _ _ (set_maxMessageSize size) Hl3).
  set (w4 := set_heap _ (tick w3)).
  assert (os_fail os (clock w4) = None) as H2' by exact H2.
  mstep (calloc_ok os w4 (OBytes (replicate (Z.to_nat size) 0)) H2').
  assert (fresh (dom (heap w4)) = tx) as Htx.
  { unfold w4, w3, w2, w1, tx. simpl. f_equal.
    rewrite (heap_dom_update _ l _ _ (lookup_insert_eq _ _ _)).
    rewrite (heap_dom_update _ l _ _ (lookup_insert_eq _ _ _)).
    by rewrite (heap_dom_update _ l _ _ Hl). }
  rewrite Htx.
  assert (tx ≠ l) as Htxl by (eapply fresh_ne; exact Hl).
  set (w5 := set_heap _ (tick w4)).
  assert (heap w5 !! l = Some (OClient (set_maxMessageSize size c3))) as Hl5.
  { unfold w5. simpl. rewrite lookup_insert_ne by done. apply lookup_insert_eq. }
  mstep (update_client_ok _ _ _ (set_txBuf (Some tx)) Hl5). mpure.
  eexists. split; [reflexivity|]. simpl.
  split; [|done].
  apply map_eq. intros i. destruct (decide (i = l)) as [->|Hi].
  - by rewrite !lookup_insert_eq.
  - rewrite !(lookup_insert_ne _ l i) by done.
    destruct (decide (i = tx)) as [->|Hi2].
    + by rewrite !lookup_insert_eq.
    + rewrite !(lookup_insert_ne _ tx i) by done.
      rewrite !(lookup_insert_ne _ l i) by done. done.
Qed.

Lemma fifo_path_length p : (0 <? Z.of_nat (length (fifo_path p))) = true.
Proof.
  apply Z.ltb_lt. unfold fifo_path. rewrite length_app.
  change (length (lit "/tmp/iothub_")) with 12%nat. lia.
Qed.

(** The first steps of [iotclient_CreateFIFO]: the process id and the name
    of the pipe are recorded in the handle. *)
Lemma CreateFIFO_names os w l c :
  heap w !! l = Some (OClient c) →
  os_fail os (S (clock w)) = None →
  let nm := fresh (dom (heap w)) in
  let c' := set_fifoName (Some nm) (set_pid (self w) c) in
  let w' := set_heap (λ _, <[l := OClient c']>
                             (<[nm := OBytes (fifo_path (self w) ++ [NUL])]> (heap w)))
              (tick (tick w)) in
  nm ≠ l ∧
  iotclient_CreateFIFO os (Some l) w
  = (do rc <- mkfifo os (cstr (fifo_path (self w) ++ [NUL]));
     if rc =? 0 then ret EOK
     else run iotclient_DestroyFIFO (Some l);
          do w0 <- get_world; ret (errno w0)) w'.
Proof.
  intros Hl H1 nm c' w'.
  assert (nm ≠ l) as Hnml by (eapply fresh_ne; exact Hl).
  split; [exact Hnml|].
  unfold iotclient_CreateFIFO.
  mstep (getpid_returns w).
  assert (heap (tick w) !! l = Some (OClient c)) as Hl1 by exact Hl.
  mstep (update_client_ok _ _ _ (set_pid (self w)) Hl1).
  set (w2 := set_heap _ (tick w)).
  assert (os_fail os (clock w2) = None) as H1' by exact H1.
  mstep (asprintf_ok os w2 (fifo_path (self w)) H1').
  assert (fresh (dom (heap w2)) = nm) as ->.
  { unfold w2, nm. simpl. by rewrite (heap_dom_update _ l _ _ Hl). }
  set (w3 := set_heap _ (tick w2)).
  assert (heap w3 !! l = Some (OClient (set_pid (self w) c))) as Hl3.
  { unfold w3. simpl. rewrite lookup_insert_ne by done. apply lookup_insert_eq. }
  mstep (update_client_ok _ _ _ (set_fifoName (Some nm)) Hl3).
  set (w4 := set_heap _ w3).
  assert (w4 = w') as ->.
  { unfold w4, w3, w2, w'. destruct w. unfold set_heap, tick. simpl. f_equal.
    apply map_eq. intros i. destruct (decide (i = l)) as [->|Hi].
    - by rewrite !lookup_insert_eq.
    - rewrite !(lookup_insert_ne _ l i) by done.
      destruct (decide (i = nm)) as [->|Hi2].
      + by rewrite !lookup_insert_eq.
      + rewrite !(lookup_insert_ne _ nm i) by done.
        rewrite !(lookup_insert_ne _ l i) by done. done. }
  assert (heap w' !! l = Some (OClient c')) as Hl' by apply lookup_insert_eq.
  mstep (load_client_ok _ _ _ Hl').
  change (fifoName c') with (Some nm). cbv iota.
  rewrite fifo_path_length.
  assert (heap w' !! nm = Some (OBytes (fifo_path (self w) ++ [NUL]))) as Hnm'.
  { unfold w'. simpl. rewrite lookup_insert_ne by done. apply lookup_insert_eq. }
  mstep (load_bytes_ok _ _ _ Hnm'). reflexivity.
Qed.

Lemma CreateFIFO_ok os w l c :
  heap w !! l = Some (OClient c) →
  os_fail os (S (clock w)) = None →
  os_fail os (S (S (clock w))) = None →
  cstr (fifo_path (self w) ++ [NUL]) ∉ fifos w →
  let nm := fresh (dom (heap w)) in
  let c' := set_fifoName (Some nm) (set_pid (self w) c) in
  ∃ w', iotclient_CreateFIFO os (Some l) w = Ret EOK w' ∧
    heap w' = <[l := OClient c']>
                (<[nm := OBytes (fifo_path (self w) ++ [NUL])]> (heap w)) ∧
    mqs w' = mqs w ∧
    fifos w' = {[cstr (fifo_path (self w) ++ [NUL])]} ∪ fifos w ∧
    fds w' = fds w ∧ queues w' = queues w ∧ self w' = self w ∧
    clock w' = S (S (S (clock w))).
Proof.
  intros Hl H1 H2 Hpath nm c'.
  destruct (CreateFIFO_names os w l c Hl H1) as [_ ->].
  set (w' := set_heap _ _).
  assert (cstr (fifo_path (self w) ++ [NUL]) ∉ fifos w') as Hpath' by exact Hpath.
  assert (os_fail os (clock w') = None) as H2' by exact H2.
  mstep (mkfifo_ok os w' _ Hpath' H2').
  change (0 =? 0) with true. cbv iota. mpure.
  eexists. split; [reflexivity|]. done.
Qed.

(** [iotclient_CreateFIFO] when a pipe of that name is in the file system
    already. *)
Lemma CreateFIFO_existing os w l c :
  heap w !! l = Some (OClient c) →
  os_fail os (S (clock w)) = None →
  cstr (fifo_path (self w) ++ [NUL]) ∈ fifos w →
  ∃ w', iotclient_CreateFIFO os (Some l) w = Ret EEXIST w' ∧
    heap w' = <[l := OClient (set_fifoName None (set_pid (self w) c))]> (heap w) ∧
    mqs w' = mqs w ∧
    fifos w' = fifos w ∖ {[cstr (fifo_path (self w) ++ [NUL])]} ∧
    fds w' = fds w ∧ queues w' = queues w ∧ self w' = self w.
Proof.
  intros Hl H1 Hpath.
  destruct (CreateFIFO_names os w l c Hl H1) as [Hnml ->].
  set (nm := fresh (dom (heap w))) in *.
  set (c' := set_fifoName (Some nm) (set_pid (self w) c)).
  set (path := cstr (fifo_path (self w) ++ [NUL])) in *.
  set (w' := set_heap _ _).
  assert (mkfifo os path w' = Ret (-1) (set_errno EEXIST (tick w'))) as Hmk.
  { unfold mkfifo, bind, now, get_world. simpl.
    by rewrite bool_decide_eq_true_2. }
  mstep Hmk. change (-1 =? 0) with false. cbv iota.
  set (w1 := set_errno EEXIST (tick w')).
  assert (heap w1 !! l = Some (OClient c')) as Hl1 by apply lookup_insert_eq.
  assert (heap w1 !! nm = Some (OBytes (fifo_path (self w) ++ [NUL]))) as Hnm1.
  { unfold w1, w'. simpl. rewrite lookup_insert_ne by done. apply lookup_insert_eq. }
  unfold iotclient_DestroyFIFO.
  mstep (load_client_ok _ _ _ Hl1). change (fifoName c') with (Some nm). cbv iota.
  mstep (load_bytes_ok _ _ _ Hnm1). fold path.
  assert (unlink path w1
          = Ret 0 (set_fifos (λ s, s ∖ {[path]}) (tick w1))) as Hun.
  { unfold unlink, bind, now, get_world. simpl.
    by rewrite bool_decide_eq_true_2. }
  mstep Hun.
  set (w2 := set_fifos _ (tick w1)).
  assert (heap w2 !! nm = Some (OBytes (fifo_path (self w) ++ [NUL]))) as Hnm2
    by exact Hnm1.
  mstep (free_live _ _ _ Hnm2).
  assert (heap (set_heap (delete nm) w2) !! l = Some (OClient c')) as Hl2.
  { simpl. rewrite lookup_delete_ne by done. apply lookup_insert_eq. }
  mstep (update_client_ok _ _ _ (set_fifoName None) Hl2). mpure.
  eexists. split; [reflexivity|]. simpl. split; [|done].
  apply map_eq. intros i. destruct (decide (i = l)) as [->|Hi].
  - by rewrite !lookup_insert_eq.
  - rewrite !(lookup_insert_ne _ l i) by done.
    destruct (decide (i = nm)) as [->|Hi2].
    + rewrite lookup_delete_eq. symmetry. apply fresh_heap.
    + rewrite lookup_delete_ne by done.
      rewrite !(lookup_insert_ne _ l i) by done.
      by rewrite lookup_insert_ne.
Qed.

(** The world [IOTCLIENT_Create] leaves when every step succeeds: three
    fresh blocks, one more open queue descriptor, one more pipe. *)
Lemma Create_world os w size :
  queues w !! MESSAGE_QUEUE_NAME = Some size →
  cstr (fifo_path (self w) ++ [NUL]) ∉ fifos w →
  (∀ k, (k < 7)%nat → os_fail os (clock w + k) = None) →
  let d := fresh (dom (mqs w)) in
  ∃ l tx nm w',
    let c := mkIotClient 0 false (Z.of_nat d) 0 size (Some tx) None 0 (self w)
               (Some nm) in
    IOTCLIENT_Create os w = Ret (Some l) w' ∧
    heap w' = <[l := OClient c]>
                (<[nm := OBytes (fifo_path (self w) ++ [NUL])]>
                   (<[tx := OBytes (replicate (Z.to_nat size) 0)]> (heap w))) ∧
    heap w !! l = None ∧ heap w !! tx = None ∧ heap w !! nm = None ∧
    l ≠ tx ∧ l ≠ nm ∧ tx ≠ nm ∧
    mqs w' = <[d := size]> (mqs w) ∧
    fifos w' = {[cstr (fifo_path (self w) ++ [NUL])]} ∪ fifos w ∧
    fds w' = fds w.
Proof.
  intros Hq Hpath Hos d.
  assert (∀ k, (k < 7)%nat → os_fail os (k + clock w) = None) as Hos'
    by (intros k Hk; rewrite Nat.add_comm; apply Hos; lia).
  unfold IOTCLIENT_Create.
  mstep (calloc_ok os w (OClient zero_client) (Hos' 0%nat ltac:(lia))).
  set (l := fresh (dom (heap w))).
  set (w1 := set_heap <[l:=OClient zero_client]> (tick w)).
  assert (heap w1 !! l = Some (OClient zero_client)) as Hl1 by apply lookup_insert_eq.
  destruct (CreateTxMessageQueue_ok os w1 l zero_client size Hl1 Hq
              (Hos' 1%nat ltac:(lia)) (Hos' 2%nat ltac:(lia)) (Hos' 3%nat ltac:(lia)))
    as (w2 & Hrun2 & Hh2 & Hm2 & Hf2 & Hd2 & Hq2 & Hs2 & Hc2).
  mstep Hrun2. change (EOK =? EOK) with true. cbv iota.
  set (tx := fresh (dom (heap w1))) in *.
  set (c2 := set_txBuf _ _) in *.
  assert (heap w2 !! l = Some (OClient c2)) as Hl2.
  { rewrite Hh2. apply lookup_insert_eq. }
  assert (os_fail os (S (clock w2)) = None) as H5.
  { rewrite Hc2. apply (Hos' 5%nat). lia. }
  assert (os_fail os (S (S (clock w2))) = None) as H6.
  { rewrite Hc2. apply (Hos' 6%nat). lia. }
  assert (cstr (fifo_path (self w2) ++ [NUL]) ∉ fifos w2) as Hpath2.
  { rewrite Hs2, Hf2. exact Hpath. }
  destruct (CreateFIFO_ok os w2 l c2 Hl2 H5 H6 Hpath2)
    as (w3 & Hrun3 & Hh3 & Hm3 & Hf3 & Hd3 & _).
  mstep Hrun3. change (EOK =? EOK) with true. cbn [negb]. mpure.
  change (EOK =? EOK) with true. cbn [negb].
  set (nm := fresh (dom (heap w2))) in *.
  assert (heap w !! l = None) as Hfl by apply fresh_heap.
  assert (tx ≠ l) as Htxl by (eapply fresh_ne; exact Hl1).
  assert (heap w !! tx = None) as Hftx.
  { pose proof (fresh_heap (heap w1)) as H. fold tx in H.
    unfold w1 in H. simpl in H. by rewrite lookup_insert_ne in H. }
  assert (nm ≠ l) as Hnml by (eapply fresh_ne; exact Hl2).
  assert (nm ≠ tx) as Hnmtx.
  { eapply fresh_ne. rewrite Hh2. rewrite lookup_insert_ne by done.
    apply lookup_insert_eq. }
  assert (heap w !! nm = None) as Hfnm.
  { pose proof (fresh_heap (heap w2)) as H. fold nm in H.
    rewrite Hh2 in H. rewrite !lookup_insert_ne in H by done.
    unfold w1 in H. simpl in H. by rewrite lookup_insert_ne in H. }
  exists l, tx, nm, w3. cbv zeta. split; [reflexivity|].
  split; [|split; [done|]; split; [done|]; split; [done|]; split; [done|];
           split; [done|]; split; [done|]; split; [|split]].
  - rewrite Hh3, Hh2, Hs2. unfold w1. simpl.
    apply map_eq. intros i. destruct (decide (i = l)) as [->|Hi].
    + by rewrite !lookup_insert_eq.
    + rewrite !(lookup_insert_ne _ l i) by done.
      destruct (decide (i = nm)) as [->|Hi2].
      * by rewrite !lookup_insert_eq.
      * rewrite !(lookup_insert_ne _ nm i) by done.
        rewrite !(lookup_insert_ne _ l i) by done.
        destruct (decide (i = tx)) as [->|Hi3].
        -- by rewrite !lookup_insert_eq.
        -- rewrite !(lookup_insert_ne _ tx i) by done.
           by rewrite !(lookup_insert_ne _ l i).
  - rewrite Hm3, Hm2. done.
  - rewrite Hf3, Hs2, Hf2. done.
  - rewrite Hd3, Hd2. done.
Qed.

(** What [IOTCLIENT_Close] releases of a live handle. *)
Lemma Close_live w l c :
  handle_live w l c →
  ∃ w', IOTCLIENT_Close (Some l) w = Ret EOK w' ∧
    heap w' = delete l (released (rxBuf c) (released (txBuf c)
                (released (fifoName c) (heap w)))) ∧
    mqs w' = closed (rxMsgQ c) (closed (txMsgQ c) (mqs w)) ∧
    fifos w' = unlinked (fifo_of w c) (fifos w).
Proof.
  intros (Hl & Hnm & Htx & Hrx & Hat & Har & Htr).
  unfold IOTCLIENT_Close. unfold iotclient_log at 1.
  mstep (load_client_ok _ _ _ Hl). mpure.
  destruct (DestroyFIFO_releases w l c Hl Hnm) as (w1 & Hrun1 & Hh1 & Hm1 & Hf1).
  mstep Hrun1.
  set (c1 := set_fifoName None c) in *.
  assert (heap w1 !! l = Some (OClient c1)) as Hl1.
  { rewrite Hh1. apply lookup_insert_eq. }
  assert (bytes_or_null w1 (txBuf c1)) as Htx1.
  { intros a Ha. change (txBuf c1) with (txBuf c) in Ha.
    destruct (Htx a Ha) as [bs Hbs]. exists bs.
    assert (l ≠ a) by exact (heap_objects_differ w l a c bs Hl Hbs).
    rewrite Hh1, lookup_insert_ne, lookup_released by done.
    rewrite decide_False; [done|]. intros E. by apply (Hat a). }
  destruct (DestroyTxMessageQueue_releases w1 l c1 Hl1 Htx1)
    as (w2 & Hrun2 & Hh2 & Hm2 & Hf2).
  mstep Hrun2.
  set (c2 := set_txMsgQ (-1) (set_txBuf None c1)) in *.
  assert (heap w2 !! l = Some (OClient c2)) as Hl2.
  { rewrite Hh2. apply lookup_insert_eq. }
  assert (bytes_or_null w2 (rxBuf c2)) as Hrx2.
  { intros a Ha. change (rxBuf c2) with (rxBuf c) in Ha.
    destruct (Hrx a Ha) as [bs Hbs]. exists bs.
    assert (l ≠ a) by exact (heap_objects_differ w l a c bs Hl Hbs).
    rewrite Hh2, lookup_insert_ne, lookup_released by done.
    change (txBuf c1) with (txBuf c).
    rewrite decide_False by (intros E; by apply (Htr a)).
    rewrite Hh1, lookup_insert_ne, lookup_released by done.
    rewrite decide_False; [done|]. intros E. by apply (Har a). }
  destruct (DestroyRxMessageQueue_releases w2 l c2 Hl2 Hrx2)
    as (w3 & Hrun3 & Hh3 & Hm3 & Hf3).
  mstep Hrun3.
  assert (heap w3 !! l = Some (OClient (set_rxMsgQ (-1) (set_rxBuf None c2)))) as Hl3.
  { rewrite Hh3. apply lookup_insert_eq. }
  mstep (free_live _ _ _ Hl3). mpure.
  eexists. split; [reflexivity|]. simpl.
  split; [|split].
  - apply map_eq. intros i. destruct (decide (i = l)) as [->|Hi].
    + by rewrite !lookup_delete_eq.
    + rewrite !lookup_delete_ne by done.
      rewrite Hh3, lookup_insert_ne, lookup_released by done.
      change (rxBuf c2) with (rxBuf c). rewrite (lookup_released (rxBuf c)).
      destruct (decide (rxBuf c = Some i)); [done|].
      rewrite Hh2, lookup_insert_ne, lookup_released by done.
      change (txBuf c1) with (txBuf c). rewrite (lookup_released (txBuf c)).
      destruct (decide (txBuf c = Some i)); [done|].
      rewrite Hh1, lookup_insert_ne by done. done.
  - rewrite Hm3, Hm2, Hm1. done.
  - rewrite Hf3, Hf2, Hf1. done.
Qed.

Lemma fresh_pipe_removed (p : list Z) (s : gset (list Z)) :
  p ∉ s → ({[p]} ∪ s) ∖ {[p]} = s.
Proof.
  intros Hp. apply set_eq. intros x.
  rewrite elem_of_difference, elem_of_union, !elem_of_singleton. split.
  - intros [[->|?] ?]; done.
  - intros Hx. split; [by right|]. intros ->. done.
Qed.

(** [mq_open] with O_CREAT: an existing queue keeps its message size. *)
Lemma mq_open_create os w name size :
  os_fail os (clock w) = None →
  let msgsize := default size (queues w !! name) in
  mq_open os name (Some size) w
  = Ret (Z.of_nat (fresh (dom (mqs w))))
        (set_mqs (insert (fresh (dom (mqs w))) msgsize)
           (set_queues (insert name msgsize) (tick w))).
Proof.
  intros Hos msgsize. unfold mq_open, bind, now, get_world. simpl.
  rewrite Hos. unfold msgsize.
  destruct (queues w !! name) as [sz|] eqn:E; simpl; [|done].
  unfold set_mqs, set_queues, tick. simpl. do 2 f_equal.
  destruct w. simpl in *. f_equal. symmetry. by apply insert_id.
Qed.

(** The run of [IOTCLIENT_CreateReceiver] when no call is refused. *)
Lemma CreateReceiver_run os w l c name maxMessages size :
  heap w !! l = Some (OClient c) →
  os_fail os (clock w) = None →
  os_fail os (S (clock w)) = None →
  os_fail os (S (S (clock w))) = None →
  let qname := lit "/" ++ cstr name in
  let msgsize := default size (queues w !! qname) in
  let d := fresh (dom (mqs w)) in
  ∃ rx w',
    let c' := set_rxMsgQ (Z.of_nat d) (set_rxBuf (Some rx)
                (set_rxBufSize size (set_rxMsgQ (-1) c))) in
    IOTCLIENT_CreateReceiver os (Some l) name maxMessages size w = Ret EOK w' ∧
    heap w !! rx = None ∧
    heap w' = <[l := OClient c']>
                (<[rx := OBytes (replicate (Z.to_nat size) 0)]> (heap w)) ∧
    mqs w' = <[d := msgsize]> (mqs w) ∧
    queues w' = <[qname := msgsize]> (queues w) ∧
    fifos w' = fifos w ∧ fds w' = fds w ∧
    self w' = self w ∧ clock w' = S (S (S (clock w))).
Proof.
  intros Hl H0 H1 H2 qname msgsize d. unfold IOTCLIENT_CreateReceiver.
  mstep (update_client_ok _ _ _ (set_rxMsgQ (-1)) Hl).
  set (w1 := set_heap _ w).
  assert (os_fail os (clock w1) = None) as H0' by exact H0.
  mstep (asprintf_ok os w1 qname H0').
  set (r := fresh (dom (heap w1))).
  assert (heap w !! r = None) as Hfr.
  { pose proof (fresh_heap (heap w1)) as H. fold r in H. unfold w1 in H.
    simpl in H. destruct (decide (r = l)) as [E|E].
    - rewrite E, lookup_insert_eq in H. done.
    - by rewrite lookup_insert_ne in H. }
  assert (r ≠ l) as Hrl by (intros E; rewrite E, Hl in Hfr; done).
  assert ((0 <? Z.of_nat (length qname)) = true) as ->.
  { apply Z.ltb_lt. unfold qname. rewrite length_app. simpl. lia. }
  set (w2 := set_heap _ (tick w1)).
  assert (heap w2 !! l = Some (OClient (set_rxMsgQ (-1) c))) as Hl2.
  { unfold w2. simpl. rewrite lookup_insert_ne by done. apply lookup_insert_eq. }
  mstep (update_client_ok _ _ _ (set_rxBufSize size) Hl2).
  set (w3 := set_heap _ w2).
  assert (os_fail os (clock w3) = None) as H1' by exact H1.
  mstep (calloc_ok os w3 (OBytes (replicate (Z.to_nat size) 0)) H1').
  set (rx := fresh (dom (heap w3))).
  assert (heap w3 !! rx = None) as Hf3 by apply fresh_heap.
  assert (rx ≠ l) as Hrxl.
  { intros E. rewrite E in Hf3. unfold w3 in Hf3. simpl in Hf3.
    by rewrite lookup_insert_eq in Hf3. }
  assert (rx ≠ r) as Hrxr.
  { intros E. rewrite E in Hf3. unfold w3, w2 in Hf3. simpl in Hf3.
    rewrite lookup_insert_ne, lookup_insert_eq in Hf3 by done. done. }
  assert (heap w !! rx = None) as Hfrx.
  { unfold w3, w2, w1 in Hf3. simpl in Hf3.
    by rewrite !lookup_insert_ne in Hf3. }
  set (w4 := set_heap _ (tick w3)).
  assert (heap w4 !! l = Some (OClient (set_rxBufSize size (set_rxMsgQ (-1) c)))) as Hl4.
  { unfold w4. simpl. rewrite lookup_insert_ne by done. apply lookup_insert_eq. }
  mstep (update_client_ok _ _ _ (set_rxBuf (Some rx)) Hl4).
  set (w5 := set_heap _ w4).
  assert (os_fail os (clock w5) = None) as H2' by exact H2.
  pose proof (mq_open_create os w5 qname size H2') as Hopen. cbv zeta in Hopen.
  change (queues w5) with (queues w) in Hopen. fold msgsize in Hopen.
  change (mqs w5) with (mqs w) in Hopen. fold d in Hopen.
  mstep Hopen.
  set (w6 := set_mqs _ _).
  assert (heap w6 !! l = Some (OClient (set_rxBuf (Some rx)
            (set_rxBufSize size (set_rxMsgQ (-1) c))))) as Hl6
    by apply lookup_insert_eq.
  mstep (update_client_ok _ _ _ (set_rxMsgQ (Z.of_nat d)) Hl6).
  destruct (Z.eqb_spec (Z.of_nat d) (-1)); [lia|]. cbn [negb]. mpure.
  set (w7 := set_heap _ w6).
  assert (heap w7 !! r = Some (OBytes (qname ++ [NUL]))) as Hr7.
  { unfold w7, w6, w5, w4, w3, w2. simpl.
    rewrite !(lookup_insert_ne _ l r) by done.
    rewrite (lookup_insert_ne _ rx r) by done.
    rewrite !(lookup_insert_ne _ l r) by done.
    apply lookup_insert_eq. }
  mstep (free_live _ _ _ Hr7). mpure.
  exists rx. eexists. cbv zeta. split; [reflexivity|]. split; [exact Hfrx|].
  simpl. split; [|done].
  apply map_eq. intros i.
  destruct (decide (i = r)) as [->|Hir].
  - rewrite lookup_delete_eq, !lookup_insert_ne by done. by rewrite Hfr.
  - rewrite lookup_delete_ne by done.
    destruct (decide (i = l)) as [->|Hi].
    + by rewrite !lookup_insert_eq.
    + rewrite !(lookup_insert_ne _ l i) by done.
      destruct (decide (i = rx)) as [->|Hi2].
      * by rewrite !lookup_insert_eq.
      * rewrite !(lookup_insert_ne _ rx i) by done.
        rewrite !(lookup_insert_ne _ l i) by done.
        rewrite (lookup_insert_ne _ r i) by done.
        by rewrite !(lookup_insert_ne _ l i).
Qed.


(** An [mq_open] without O_CREAT yields a fresh descriptor of an existing
    queue, or -1 and an error number. *)
Lemma mq_open_cases os w name :
  (∃ size, queues w !! name = Some size ∧ os_fail os (clock w) = None) ∨
  (∃ e, e ≠ 0 ∧ mq_open os name None w = Ret (-1) (set_errno e (tick w))).
Proof.
  destruct (os_fail os (clock w)) as [e|] eqn:Hos.
  - right. exists (Z.pos e). split; [done|].
    unfold mq_open, bind, now, get_world. simpl. by rewrite Hos.
  - destruct (queues w !! name) as [size|] eqn:Hq.
    + left. by exists size.
    + right. exists ENOENT. split; [done|].
      unfold mq_open, bind, now, get_world. simpl. by rewrite Hos, Hq.
Qed.

(** [iotclient_CreateTxMessageQueue] on a live handle: it returns, and when
    the result is not EOK the heap holds no block it did not hold before. *)
Lemma CreateTxMessageQueue_cases os w l c :
  heap w !! l = Some (OClient c) →
  ∃ rc w', iotclient_CreateTxMessageQueue os (Some l) w = Ret rc w' ∧
    fifos w' = fifos w ∧ self w' = self w ∧
    ((rc = EOK ∧ ∃ size,
        queues w !! MESSAGE_QUEUE_NAME = Some size ∧
        os_fail os (clock w) = None ∧ os_fail os (S (clock w)) = None ∧
        os_fail os (S (S (clock w))) = None) ∨
     (rc ≠ EOK ∧ ∃ c', heap w' = <[l := OClient c']> (heap w) ∧
        (txBuf c = None → txBuf c' = None) ∧ fifoName c' = fifoName c ∧
        rxBuf c' = rxBuf c)).
Proof.
  intros Hl.
  destruct (mq_open_cases os w MESSAGE_QUEUE_NAME)
    as [(size & Hq & H0)|(e & He & Hopen)].
  - destruct (os_fail os (S (clock w))) as [e1|] eqn:H1.
    + unfold iotclient_CreateTxMessageQueue.
      mstep (update_client_ok _ _ _ (set_txMsgQ (-1)) Hl).
      set (w1 := set_heap _ w).
      assert (queues w1 !! MESSAGE_QUEUE_NAME = Some size) as Hq1 by exact Hq.
      assert (os_fail os (clock w1) = None) as H0' by exact H0.
      mstep (mq_open_existing os w1 _ _ None Hq1 H0').
      set (d := fresh (dom (mqs w1))).
      set (w2 := set_mqs _ (tick w1)).
      assert (heap w2 !! l = Some (OClient (set_txMsgQ (-1) c))) as Hl2
        by apply lookup_insert_eq.
      mstep (update_client_ok _ _ _ (set_txMsgQ (Z.of_nat d)) Hl2).
      destruct (Z.eqb_spec (Z.of_nat d) (-1)); [lia|]. cbn [negb].
      set (w3 := set_heap _ w2).
      assert (os_fail os (clock w3) = Some e1) as H1' by exact H1.
      mstep (mq_getattr_fails os w3 (Z.of_nat d) e1 H1'). mpure.
      eexists _, _. split; [reflexivity|]. split; [done|]. split; [done|].
      right. split; [done|]. eexists. simpl.
      split; [by rewrite !insert_insert_eq|]. done.
    + destruct (os_fail os (S (S (clock w)))) as [e2|] eqn:H2.
      * unfold iotclient_CreateTxMessageQueue.
        mstep (update_client_ok _ _ _ (set_txMsgQ (-1)) Hl).
        set (w1 := set_heap _ w).
        assert (queues w1 !! MESSAGE_QUEUE_NAME = Some size) as Hq1 by exact Hq.
        assert (os_fail os (clock w1) = None) as H0' by exact H0.
        mstep (mq_open_existing os w1 _ _ None Hq1 H0').
        set (d := fresh (dom (mqs w1))).
        set (w2 := set_mqs _ (tick w1)).
        assert (heap w2 !! l = Some (OClient (set_txMsgQ (-1) c))) as Hl2
          by apply lookup_insert_eq.
        mstep (update_client_ok _ _ _ (set_txMsgQ (Z.of_nat d)) Hl2).
        destruct (Z.eqb_spec (Z.of_nat d) (-1)); [lia|]. cbn [negb].
        set (w3 := set_heap _ w2).
        assert (mq_lookup w3 (Z.of_nat d) = Some (d, size)) as Hd3.
        { apply (mq_lookup_fresh w size w3). reflexivity. }
        assert (os_fail os (clock w3) = None) as H1' by exact H1.
        mstep (mq_getattr_ok os w3 (Z.of_nat d) d size Hd3 H1').
        set (c3 := set_txMsgQ (Z.of_nat d) (set_txMsgQ (-1) c)).
        assert (heap (tick w3) !! l = Some (OClient c3)) as Hl3
          by apply lookup_insert_eq.
        mstep (update_client_ok _ _ _ (set_maxMessageSize size) Hl3).
        set (w4 := set_heap _ (tick w3)).
        assert (os_fail os (clock w4) = Some e2) as H2' by exact H2.
        mstep (calloc_fails os w4 (OBytes (replicate (Z.to_nat size) 0)) e2 H2').
        set (w5 := set_errno ENOMEM (tick w4)).
        assert (heap w5 !! l = Some (OClient (set_maxMessageSize size c3))) as Hl5
          by apply lookup_insert_eq.
        mstep (update_client_ok _ _ _ (set_txBuf None) Hl5).
        set (w6 := set_heap _ w5).
        assert (mq_lookup w6 (Z.of_nat d) = Some (d, size)) as Hd6 by exact Hd3.
        mstep (mq_close_open w6 (Z.of_nat d) d size Hd6).
        set (w7 := set_mqs (delete d) (tick w6)).
        assert (heap w7 !! l
                = Some (OClient (set_txBuf None (set_maxMessageSize size c3)))) as Hl7
          by apply lookup_insert_eq.
        mstep (update_client_ok _ _ _ (set_txMsgQ (-1)) Hl7). mpure.
        eexists _, _. split; [reflexivity|]. split; [done|]. split; [done|].
        right. split; [done|]. eexists. simpl.
        split; [by rewrite !insert_insert_eq|]. done.
      * destruct (CreateTxMessageQueue_ok os w l c size Hl Hq H0 H1 H2)
          as (w' & Hrun & _ & _ & Hf & _ & _ & Hs & _).
        exists EOK, w'. split; [exact Hrun|]. split; [exact Hf|].
        split; [exact Hs|]. left. split; [done|]. by exists size.
  - unfold iotclient_CreateTxMessageQueue.
    mstep (update_client_ok _ _ _ (set_txMsgQ (-1)) Hl).
    set (w1 := set_heap _ w).
    assert (mq_open os MESSAGE_QUEUE_NAME None w1
            = Ret (-1) (set_errno e (tick w1))) as Hopen1.
    { revert Hopen. unfold mq_open, bind, now, get_world. simpl.
      destruct (os_fail os (clock w)); [|destruct (queues w !! MESSAGE_QUEUE_NAME)];
        simpl; intros [= ?]; try lia; by subst. }
    mstep Hopen1.
    set (w2 := set_errno e (tick w1)).
    assert (heap w2 !! l = Some (OClient (set_txMsgQ (-1) c))) as Hl2
      by apply lookup_insert_eq.
    mstep (update_client_ok _ _ _ (set_txMsgQ (-1)) Hl2).
    change (-1 =? -1) with true. cbn [negb]. mpure.
    eexists _, _. split; [reflexivity|]. split; [done|]. split; [done|].
    right. split; [done|]. eexists. simpl.
    split; [by rewrite !insert_insert_eq|]. done.
Qed.

(** [iotclient_CreateFIFO] when [mkfifo] is refused although no pipe of that
    name exists: the [unlink] of the clean-up fails and its error number is
    the one returned. *)
Lemma CreateFIFO_refused os w l c e :
  heap w !! l = Some (OClient c) →
  os_fail os (S (clock w)) = None →
  os_fail os (S (S (clock w))) = Some e →
  cstr (fifo_path (self w) ++ [NUL]) ∉ fifos w →
  ∃ w', iotclient_CreateFIFO os (Some l) w = Ret ENOENT w' ∧
    heap w' = <[l := OClient (set_fifoName None (set_pid (self w) c))]> (heap w) ∧
    mqs w' = mqs w ∧ fifos w' = fifos w ∧
    fds w' = fds w ∧ queues w' = queues w ∧ self w' = self w.
Proof.
  intros Hl H1 H2 Hpath.
  destruct (CreateFIFO_names os w l c Hl H1) as [Hnml ->].
  set (nm := fresh (dom (heap w))) in *.
  set (c' := set_fifoName (Some nm) (set_pid (self w) c)).
  set (path := cstr (fifo_path (self w) ++ [NUL])) in *.
  set (w' := set_heap _ _).
  assert (mkfifo os path w' = Ret (-1) (set_errno (Z.pos e) (tick w'))) as Hmk.
  { unfold mkfifo, bind, now, get_world. simpl.
    rewrite bool_decide_eq_false_2 by done. by rewrite H2. }
  mstep Hmk. change (-1 =? 0) with false. cbv iota.
  set (w1 := set_errno (Z.pos e) (tick w')).
  assert (heap w1 !! l = Some (OClient c')) as Hl1 by apply lookup_insert_eq.
  assert (heap w1 !! nm = Some (OBytes (fifo_path (self w) ++ [NUL]))) as Hnm1.
  { unfold w1, w'. simpl. rewrite lookup_insert_ne by done. apply lookup_insert_eq. }
  unfold iotclient_DestroyFIFO.
  mstep (load_client_ok _ _ _ Hl1). change (fifoName c') with (Some nm). cbv iota.
  mstep (load_bytes_ok _ _ _ Hnm1). fold path.
  assert (unlink path w1 = Ret (-1) (set_errno ENOENT (tick w1))) as Hun.
  { unfold unlink, bind, now, get_world. simpl.
    by rewrite bool_decide_eq_false_2. }
  mstep Hun.
  set (w2 := set_errno ENOENT (tick w1)).
  assert (heap w2 !! nm = Some (OBytes (fifo_path (self w) ++ [NUL]))) as Hnm2
    by exact Hnm1.
  mstep (free_live _ _ _ Hnm2).
  assert (heap (set_heap (delete nm) w2) !! l = Some (OClient c')) as Hl2.
  { simpl. rewrite lookup_delete_ne by done. apply lookup_insert_eq. }
  mstep (update_client_ok _ _ _ (set_fifoName None) Hl2). mpure.
  eexists. split; [reflexivity|]. simpl. split; [|done].
  apply map_eq. intros i. destruct (decide (i = l)) as [->|Hi].
  - by rewrite !lookup_insert_eq.
  - rewrite !(lookup_insert_ne _ l i) by done.
    destruct (decide (i = nm)) as [->|Hi2].
    + rewrite lookup_delete_eq. symmetry. apply fresh_heap.
    + rewrite lookup_delete_ne by done.
      rewrite !(lookup_insert_ne _ l i) by done.
      by rewrite lookup_insert_ne.
Qed.

(** [iotclient_CreateFIFO] when the name of the pipe cannot be allocated. *)
Lemma CreateFIFO_no_name os w l c e :
  heap w !! l = Some (OClient c) →
  os_fail os (S (clock w)) = Some e →
  ∃ w', iotclient_CreateFIFO os (Some l) w = Ret EINVAL w' ∧
    heap w' = <[l := OClient (set_pid (self w) c)]> (heap w) ∧
    mqs w' = mqs w ∧ fifos w' = fifos w ∧
    fds w' = fds w ∧ queues w' = queues w ∧ self w' = self w.
Proof.
  intros Hl H1. unfold iotclient_CreateFIFO.
  mstep (getpid_returns w).
  assert (heap (tick w) !! l = Some (OClient c)) as Hl1 by exact Hl.
  mstep (update_client_ok _ _ _ (set_pid (self w)) Hl1).
  set (w2 := set_heap _ (tick w)).
  assert (os_fail os (clock w2) = Some e) as H1' by exact H1.
  assert (asprintf os (fifo_path (self w)) w2
          = Ret (-1, None) (set_errno ENOMEM (tick w2))) as Hpr.
  { unfold asprintf. mstep (calloc_fails os w2 (OBytes (fifo_path (self w) ++ [NUL])) e H1').
    done. }
  mstep Hpr. mpure.
  set (w3 := set_errno ENOMEM (tick w2)).
  assert (heap w3 !! l = Some (OClient (set_pid (self w) c))) as Hl3
    by apply lookup_insert_eq.
  mstep (load_client_ok _ _ _ Hl3).
  change (0 <? -1) with false.
  exists w3. split; [by destruct (fifoName (set_pid (self w) c))|]. done.
Qed.

(** [iotclient_CreateFIFO] on a live handle: it returns, and when the
    result is not EOK the heap holds no block it did not hold before. *)
Lemma CreateFIFO_cases os w l c :
  heap w !! l = Some (OClient c) →
  ∃ rc w', iotclient_CreateFIFO os (Some l) w = Ret rc w' ∧
    ((rc = EOK ∧ os_fail os (S (clock w)) = None ∧
      os_fail os (S (S (clock w))) = None ∧
      cstr (fifo_path (self w) ++ [NUL]) ∉ fifos w) ∨
     (rc ≠ EOK ∧ ∃ c', heap w' = <[l := OClient c']> (heap w) ∧
        txBuf c' = txBuf c ∧ txMsgQ c' = txMsgQ c ∧ mqs w' = mqs w)).
Proof.
  intros Hl.
  destruct (os_fail os (S (clock w))) as [e|] eqn:H1.
  - destruct (CreateFIFO_no_name os w l c e Hl H1) as (w' & Hrun & Hh & Hm & _).
    exists EINVAL, w'. split; [exact Hrun|]. right. split; [done|].
    eexists. split; [exact Hh|]. done.
  - destruct (decide (cstr (fifo_path (self w) ++ [NUL]) ∈ fifos w)) as [Hin|Hout].
    + destruct (CreateFIFO_existing os w l c Hl H1 Hin) as (w' & Hrun & Hh & Hm & _).
      exists EEXIST, w'. split; [exact Hrun|]. right. split; [done|].
      eexists. split; [exact Hh|]. done.
    + destruct (os_fail os (S (S (clock w)))) as [e|] eqn:H2.
      * destruct (CreateFIFO_refused os w l c e Hl H1 H2 Hout)
          as (w' & Hrun & Hh & Hm & _).
        exists ENOENT, w'. split; [exact Hrun|]. right. split; [done|].
        eexists. split; [exact Hh|]. done.
      * destruct (CreateFIFO_ok os w l c Hl H1 H2 Hout) as (w' & Hrun & _).
        exists EOK, w'. split; [exact Hrun|]. left. done.
Qed.

(** The name of the pipe: its characters determine the process id, and
    none of them is NUL. *)
Lemma lit_inj (s t : string) : lit s = lit t → s = t.
Proof.
  unfold lit. revert t. induction s as [|a s IH]; intros [|b t]; simpl; try done.
  intros [= Hab Hst]. f_equal; [|by apply IH].
  apply N2Z.inj in Hab. rewrite <- (ascii_N_embedding a), <- (ascii_N_embedding b).
  by rewrite Hab.
Qed.

Lemma lit_cons (a : ascii) (s : string) :
  lit (String a s) = Z.of_N (N_of_ascii a) :: lit s.
Proof. reflexivity. Qed.

Lemma uint_no_NUL (d : Decimal.uint) : NUL ∉ lit (NilEmpty.string_of_uint d).
Proof.
  induction d as [|d IH|d IH|d IH|d IH|d IH|d IH|d IH|d IH|d IH|d IH];
    [apply not_elem_of_nil|..];
    (cbn [NilEmpty.string_of_uint]; rewrite lit_cons;
     apply not_elem_of_cons; split; [done|exact IH]).
Qed.

Lemma to_int_nonnil (p : Z) :
  Z.to_int p ≠ Decimal.Pos Decimal.Nil ∧ Z.to_int p ≠ Decimal.Neg Decimal.Nil.
Proof.
  destruct p as [|p|p]; simpl; split; try done; intros [= E];
    by apply (Unsigned.to_uint_nonnil p).
Qed.

Lemma fifo_path_no_NUL p : NUL ∉ fifo_path p.
Proof.
  unfold fifo_path. rewrite not_elem_of_app. split.
  - apply (bool_decide_unpack _). vm_compute. exact I.
  - destruct (to_int_nonnil p) as [Hp Hn].
    unfold NilZero.string_of_int.
    destruct (Z.to_int p) as [d|d]; [|rewrite lit_cons, not_elem_of_cons; split; [done|]];
      (destruct d; [done|apply uint_no_NUL..]).
Qed.

(** * Further properties of IOTCLIENT_GetProperty *)

(** X1: a header is read back by its name.  In a block of headers where
    the line [name:val] follows [pre] and the name does not occur earlier,
    the call returns EOK and the buffer holds [val] and its terminator,
    whenever the value fits. *)
Theorem GetProperty_round_trip (pre name val rest b : list Z) (len : nat) :
  NUL ∉ pre → NUL ∉ name →
  (∀ c, c ∈ val → is_end c = false) →
  (∀ j, (j < length pre)%nat → starts name (drop j (pre ++ name)) = false) →
  (length val < len ≤ length b)%nat →
  ∃ b', IOTCLIENT_GetProperty (Some (pre ++ name ++ COLON :: val ++ LF :: rest))
          (Some (name ++ [NUL])) (Some b) len = (EOK, Some b') ∧
        take (S (length val)) b' = val ++ [NUL].
Proof.
  intros Hpre Hname Hval Hfirst Hlen.
  destruct (header_line_found pre name val rest Hpre Hname Hval Hfirst)
    as (Hp & Hn & Hc & Hv).
  destruct (GetProperty_found_value (pre ++ name ++ COLON :: val ++ LF :: rest)
              (name ++ [NUL]) b len (length pre)) as (b' & Hrun & _ & Hb');
    [lia|done|by rewrite Hn|].
  rewrite Hn, Hv in *. exists b'. split; [|apply Hb'; lia].
  rewrite Hrun. destruct (Nat.leb_spec len (length val)); [lia|done].
Qed.


Lemma GetProperty_round_trip_witness :
  ∃ b', IOTCLIENT_GetProperty
          (Some (lit "temp:21" ++ [LF] ++ lit "unit" ++ COLON :: lit "C" ++ LF :: [LF; NUL]))
          (Some (lit "unit" ++ [NUL])) (Some (replicate 4 7)) 4 = (EOK, Some b') ∧
        take 2 b' = lit "C" ++ [NUL].
Proof.
  apply (GetProperty_round_trip (lit "temp:21" ++ [LF]) (lit "unit") (lit "C")
           [LF; NUL] (replicate 4 7) 4).
  - apply (bool_decide_unpack _). vm_compute. exact I.
  - apply (bool_decide_unpack _). vm_compute. exact I.
  - intros c Hc. apply list_elem_of_singleton in Hc. by subst c.
  - intros j Hj. simpl in Hj.
    do 8 (destruct j as [|j]; [reflexivity|]). lia.
  - simpl. lia.
Defined.

(** X2: a value that does not fit is cut, not terminated.  When the value
    has [len] characters or more, the call returns ENOMEM and the first
    [len] bytes of the buffer are the first [len] characters of the value,
    none of them NUL; the bytes behind them are untouched. *)
Theorem GetProperty_truncated (pre name val rest b : list Z) (len : nat) :
  NUL ∉ pre → NUL ∉ name →
  (∀ c, c ∈ val → is_end c = false) →
  (∀ j, (j < length pre)%nat → starts name (drop j (pre ++ name)) = false) →
  (0 < len ≤ length val)%nat → (len ≤ length b)%nat →
  ∃ b', IOTCLIENT_GetProperty (Some (pre ++ name ++ COLON :: val ++ LF :: rest))
          (Some (name ++ [NUL])) (Some b) len = (ENOMEM, Some b') ∧
        take len b' = take len val ∧
        (NUL ∉ take len b') ∧
        drop len b' = drop len b.
Proof.
  intros Hpre Hname Hval Hfirst Hlen Hb.
  destruct (header_line_found pre name val rest Hpre Hname Hval Hfirst)
    as (Hp & Hn & Hc & Hv).
  destruct (GetProperty_found (pre ++ name ++ COLON :: val ++ LF :: rest)
              (name ++ [NUL]) b len (length pre)) as (b' & Hrun & HL & Hin & Hout);
    [lia|done|by rewrite Hn|].
  rewrite Hn, Hv in *. exists b'.
  assert (take len b' = take len val) as Htake.
  { apply list_eq. intros i. destruct (decide (i < len)%nat) as [Hi|Hi].
    - rewrite !lookup_take_lt by lia. rewrite Hin by lia.
      destruct (prop_value_lt (pre ++ name ++ COLON :: val ++ LF :: rest)
                  (length pre + length name + 1) i) as [E1 E2];
        [rewrite Hv; lia|].
      rewrite Hv in E1. rewrite E1. unfold stored. by rewrite E2.
    - by rewrite !lookup_take_ge by lia. }
  split; [|split; [done|split]].
  - rewrite Hrun. destruct (Nat.leb_spec len (length val)); [done|lia].
  - rewrite Htake. intros Hin'. apply elem_of_take in Hin' as (i & Hi & _).
    apply list_elem_of_lookup_2 in Hi. by apply Hval in Hi.
  - apply list_eq. intros i. rewrite !lookup_drop. apply Hout. lia.
Qed.

Lemma GetProperty_truncated_witness :
  ∃ b', IOTCLIENT_GetProperty
          (Some (lit "id" ++ COLON :: lit "sensor" ++ LF :: [LF; NUL]))
          (Some (lit "id" ++ [NUL])) (Some (replicate 5 0)) 3 = (ENOMEM, Some b') ∧
        take 3 b' = lit "sen" ∧ (NUL ∉ take 3 b') ∧ drop 3 b' = [0; 0].
Proof.
  apply (GetProperty_truncated [] (lit "id") (lit "sensor") [LF; NUL]
           (replicate 5 0) 3).
  - apply not_elem_of_nil.
  - apply (bool_decide_unpack _). vm_compute. exact I.
  - intros c Hc. simpl in Hc.
    repeat (apply elem_of_cons in Hc as [->|Hc]; [reflexivity|]).
    by apply elem_of_nil in Hc.
  - intros j Hj. simpl in Hj. lia.
  - simpl. lia.
  - simpl. lia.
Defined.

(** X26: only the first occurrence of the name is looked at.  When the name
    first occurs in the headers followed by a character other than a colon,
    inside a longer name or inside a value, the call returns ENOENT and
    leaves the buffer as it was, whatever follows in the headers, a header
    line of that very name included. *)
Theorem GetProperty_shadowed (pre name rest b : list Z) (x : Z) (len : nat) :
  NUL ∉ pre → NUL ∉ name →
  (∀ j, (j < length pre)%nat → starts name (drop j (pre ++ name)) = false) →
  x ≠ COLON →
  IOTCLIENT_GetProperty (Some (pre ++ name ++ x :: rest)) (Some (name ++ [NUL]))
    (Some b) len
  = (if (0 <? len)%nat then ENOENT else EINVAL, Some b).
Proof.
  intros Hpre Hname Hfirst Hx. unfold IOTCLIENT_GetProperty.
  destruct (0 <? len)%nat; [|done].
  rewrite strstr_first by done.
  assert (strlen (name ++ [NUL]) = length name) as ->.
  { unfold strlen. by rewrite cstr_terminated. }
  assert (rd (pre ++ name ++ x :: rest) (length pre + length name) = x) as ->.
  { rewrite app_assoc, <- length_app.
    rewrite <- (Nat.add_0_r (length (pre ++ name))). by rewrite rd_app_r. }
  by destruct (Z.eqb_spec x COLON).
Qed.

Lemma GetProperty_shadowed_witness :
  IOTCLIENT_GetProperty
    (Some (lit "ab:1" ++ [LF] ++ lit "a:2" ++ [LF; LF; NUL]))
    (Some (lit "a" ++ [NUL])) (Some (replicate 8 7)) 8
  = (ENOENT, Some (replicate 8 7)).
Proof.
  apply (GetProperty_shadowed [] (lit "a")
           (lit ":1" ++ [LF] ++ lit "a:2" ++ [LF; LF; NUL]) (replicate 8 7) 98 8).
  - apply not_elem_of_nil.
  - apply (bool_decide_unpack _). vm_compute. exact I.
  - intros j Hj. simpl in Hj. lia.
  - discriminate.
Defined.

(** * Further properties of IOTCLIENT_Receive *)

(** X3: the received bytes are not terminated before the delimiter is
    searched.  When the message holds no delimiter and the bytes an earlier,
    longer message left behind it in the buffer do, at a distance [g] from
    the end of the message, the call returns EOK with headers that reach
    [g] bytes past the message and a body length of [- g] as a [size_t]:
    [2^64 - g] when [g > 0]. *)
Theorem Receive_stale_delimiter os w l c rx old d msgsize gap rest out :
  heap w !! l = Some (OClient c) →
  rxBuf c = Some rx →
  heap w !! rx = Some (OBytes old) →
  Z.of_nat (length old) = rxBufSize c →
  rxBufSize c < SIZE_MOD →
  mq_lookup w (rxMsgQ c) = Some (d, msgsize) →
  msgsize ≤ rxBufSize c →
  os_fail os (clock w) = None →
  let msg := take (Z.to_nat msgsize) (os_data os (clock w)) in
  let n := Z.of_nat (length msg) in
  let g := Z.of_nat (length gap) in
  msg ≠ [] →
  drop (length msg) old = gap ++ LF :: LF :: rest →
  NUL ∉ msg ++ gap →
  ¬ occurs [LF; LF] (msg ++ gap ++ [LF]) →
  ∃ w', IOTCLIENT_Receive os (Some l) true out w
        = Ret (EOK, mkReceived (Some (rx, 0%nat)) (n + g)
                      (Some (rx, (length msg + length gap + 2)%nat))
                      (to_size_t (- g))) w' ∧
        n ≤ n + g ∧
        (0 < g → to_size_t (- g) = SIZE_MOD - g).
Proof.
  intros Hl Hrx Hb Hsz Hmax Hq Hms Hos msg n g Hne Hold Hnul Hfirst.
  assert (strstr (msg ++ drop (length msg) old) [LF; LF; NUL]
          = Some (length (msg ++ gap))) as Hk.
  { rewrite Hold, app_assoc. apply strstr_delimiter; [done|].
    by rewrite <- app_assoc. }
  destruct (Receive_delimiter_found os w l c rx old d msgsize
              (length (msg ++ gap)) out Hl Hrx Hb Hsz Hq Hms Hos Hne Hk)
    as (w' & Hrun & _).
  fold msg in Hrun. rewrite length_app in Hrun.
  exists w'. split.
  - rewrite Hrun. unfold n, g.
    replace (Z.of_nat (length msg + length gap))
      with (Z.of_nat (length msg) + Z.of_nat (length gap)) by lia.
    replace (Z.of_nat (length msg) - (Z.of_nat (length msg) + Z.of_nat (length gap)))
      with (- Z.of_nat (length gap)) by lia.
    reflexivity.
  - split; [unfold g; lia|]. intros Hg.
    assert (Z.of_nat (length gap) ≤ Z.of_nat (length old)) as Hgl.
    { apply (f_equal length) in Hold. rewrite length_drop, length_app in Hold. lia. }
    unfold to_size_t. rewrite <- (Z.mod_add _ 1 SIZE_MOD) by done.
    replace (- g + 1 * SIZE_MOD) with (SIZE_MOD - g) by lia.
    apply Z.mod_small. unfold g in *. lia.
Qed.


Example Receive_first_of_two :
  ∃ r, IOTCLIENT_Receive os_two (Some 1%positive) true (mkReceived None 0 None 0)
         w_listen = Ret (EOK, r) w_stale.
Proof. eexists. vm_compute. reflexivity. Qed.

Lemma Receive_stale_delimiter_witness :
  ∃ w', IOTCLIENT_Receive os_two (Some 1%positive) true
          (mkReceived None 0 None 0) w_stale
        = Ret (EOK, mkReceived (Some (5%positive, 0%nat)) 6
                      (Some (5%positive, 8%nat)) (2 ^ 64 - 2)) w'.
Proof.
  destruct (Receive_stale_delimiter os_two w_stale 1%positive c_listen 5%positive
              (lit "ab" ++ [NUL; LF] ++ lit "cd" ++ [LF; LF] ++ lit "ef"
                 ++ replicate 6 0)
              1%nat 16 (lit "cd") (lit "ef" ++ replicate 6 0)
              (mkReceived None 0 None 0))
    as (w' & Hrun & _ & _);
    [reflexivity|reflexivity|reflexivity|reflexivity|reflexivity|reflexivity|
     discriminate|reflexivity|discriminate|reflexivity| | |].
  - apply (bool_decide_unpack _). vm_compute. exact I.
  - apply (find_from_None _ _ 0). reflexivity.
  - exists w'. exact Hrun.
Defined.

(** X4: a message of length zero is not told from a failure.  The call
    returns whatever errno holds from before, which is EOK when no call has
    failed yet, and stores nothing through its result pointers. *)
Theorem Receive_empty_message os w l c rx old d msgsize out :
  heap w !! l = Some (OClient c) →
  rxBuf c = Some rx →
  heap w !! rx = Some (OBytes old) →
  0 < rxBufSize c →
  mq_lookup w (rxMsgQ c) = Some (d, msgsize) →
  msgsize ≤ rxBufSize c →
  os_fail os (clock w) = None →
  take (Z.to_nat msgsize) (os_data os (clock w)) = [] →
  ∃ w', IOTCLIENT_Receive os (Some l) true out w = Ret (errno w, out) w' ∧
        heap w' = heap w.
Proof.
  intros Hl Hrx Hb Hsz Hq Hms Hos Hmsg.
  unfold IOTCLIENT_Receive.
  mstep (load_client_ok _ _ _ Hl). rewrite Hrx.
  assert ((rxMsgQ c =? -1) = false) as ->.
  { apply Z.eqb_neq. intros E. rewrite E in Hq. done. }
  assert ((0 <? rxBufSize c) = true) as -> by (by apply Z.ltb_lt).
  cbn [negb andb].
  pose proof (mq_receive_delivers os w (rxMsgQ c) rx old d msgsize (rxBufSize c)
                Hq Hms Hb Hos) as Hrecv.
  cbv zeta in Hrecv. rewrite Hmsg in Hrecv. specialize (Hrecv ltac:(simpl; lia)).
  mstep Hrecv. simpl. eexists. split; [reflexivity|]. simpl.
  by apply insert_id.
Qed.


Lemma Receive_empty_message_witness :
  ∃ w', IOTCLIENT_Receive os_noattr (Some 1%positive) true
          (mkReceived None 7 None 7) w_listen
        = Ret (EOK, mkReceived None 7 None 7) w' ∧
        heap w' = heap w_listen.
Proof.
  apply (Receive_empty_message os_noattr w_listen 1%positive c_listen 5%positive
           (replicate 16 0) 1%nat 16 (mkReceived None 7 None 7));
    reflexivity.
Defined.

(** X5: a call that does not return EOK has stored nothing.  On a handle
    without a receive buffer or a receive queue, with a receive buffer of no
    bytes, or called with a NULL result pointer, the call returns EINVAL
    and changes nothing.  And for a handle whose receive buffer, if it
    has one, is a live block of [rxBufSize] bytes: whenever the call
    returns a result that is not EOK, what the four result pointers refer
    to is as before, and so are the heap and the open queues. *)
Theorem Receive_failure_keeps_outputs os w l c outs out :
  heap w !! l = Some (OClient c) →
  (∀ rx, rxBuf c = Some rx →
     ∃ old, heap w !! rx = Some (OBytes old) ∧ Z.of_nat (length old) = rxBufSize c) →
  ((rxBuf c = None ∨ rxMsgQ c = -1 ∨ rxBufSize c ≤ 0 ∨ outs = false) →
     IOTCLIENT_Receive os (Some l) outs out w = Ret (EINVAL, out) w) ∧
  (∀ rc out' w',
     IOTCLIENT_Receive os (Some l) outs out w = Ret (rc, out') w' →
     rc ≠ EOK →
     out' = out ∧ heap w' = heap w ∧ mqs w' = mqs w).
Proof.
  intros Hl Hbuf. split.
  - intros Hguard. unfold IOTCLIENT_Receive.
    mstep (load_client_ok _ _ _ Hl).
    destruct (rxBuf c) as [rx|]; [|done].
    destruct Hguard as [?|[Hq|[Hsz|Houts]]]; [done|..].
    + rewrite Hq. done.
    + destruct (Z.ltb_spec 0 (rxBufSize c)); [lia|].
      by rewrite andb_false_r.
    + rewrite Houts. by rewrite andb_false_r.
  - intros rc out' w' Hrun Hrc.
    destruct (Receive_run os w l c outs out Hl Hbuf)
      as (rc0 & out0 & w0 & Hrun0 & Hkeep).
    rewrite Hrun0 in Hrun. injection Hrun as <- <- <-.
    by apply Hkeep.
Qed.

Lemma Receive_failure_keeps_outputs_witness :
  IOTCLIENT_Receive os_sample (Some 1%positive) true
    (mkReceived None 0 None 0) w_ready
  = Ret (EINVAL, mkReceived None 0 None 0) w_ready ∧
  ∃ w', IOTCLIENT_Receive os_recv_fails (Some 1%positive) true
          (mkReceived None 0 None 0) w_listen
        = Ret (4, mkReceived None 0 None 0) w' ∧
        heap w' = heap w_listen ∧ mqs w' = mqs w_listen.
Proof.
  split.
  - apply (Receive_failure_keeps_outputs os_sample w_ready 1%positive c_ready
             true (mkReceived None 0 None 0)).
    + reflexivity.
    + intros rx [=].
    + left. reflexivity.
  - assert (∃ w', IOTCLIENT_Receive os_recv_fails (Some 1%positive) true
                    (mkReceived None 0 None 0) w_listen
                  = Ret (4, mkReceived None 0 None 0) w') as [w' Hrun].
    { eexists. vm_compute. reflexivity. }
    exists w'. split; [exact Hrun|].
    destruct (Receive_failure_keeps_outputs os_recv_fails w_listen 1%positive
                c_listen true (mkReceived None 0 None 0)) as [_ Hkeep].
    + reflexivity.
    + intros rx [= <-]. exists (replicate 16 0). split; reflexivity.
    + destruct (Hkeep 4 (mkReceived None 0 None 0) w' Hrun) as (_ & Hh & Hm);
        [discriminate|]. split; [exact Hh|exact Hm].
Defined.

(** X6: a message without NUL and without delimiter, received into a buffer
    whose byte behind the message is NUL, is returned whole as the body,
    with no headers. *)
Theorem Receive_whole_message_is_body os w l c rx old d msgsize rest out :
  heap w !! l = Some (OClient c) →
  rxBuf c = Some rx →
  heap w !! rx = Some (OBytes old) →
  Z.of_nat (length old) = rxBufSize c →
  mq_lookup w (rxMsgQ c) = Some (d, msgsize) →
  msgsize ≤ rxBufSize c →
  os_fail os (clock w) = None →
  let msg := take (Z.to_nat msgsize) (os_data os (clock w)) in
  msg ≠ [] → NUL ∉ msg → ¬ occurs [LF; LF] msg →
  drop (length msg) old = NUL :: rest →
  ∃ w', IOTCLIENT_Receive os (Some l) true out w
        = Ret (EOK, mkReceived None 0 (Some (rx, 0%nat)) (Z.of_nat (length msg))) w' ∧
        heap w' !! rx = Some (OBytes (msg ++ NUL :: rest)).
Proof.
  intros Hl Hrx Hb Hsz Hq Hms Hos msg Hne Hnul Hno Hold.
  destruct (Receive_no_delimiter os w l c rx old d msgsize out
              Hl Hrx Hb Hsz Hq Hms Hos Hne) as (w' & Hrun & Hbuf).
  - fold msg. rewrite Hold. by apply strstr_no_delimiter.
  - fold msg in Hrun, Hbuf. rewrite Hold in Hbuf. by exists w'.
Qed.

Lemma Receive_whole_message_is_body_witness :
  ∃ w', IOTCLIENT_Receive os_plain (Some 1%positive) true
          (mkReceived None 0 None 0) w_listen
        = Ret (EOK, mkReceived None 0 (Some (5%positive, 0%nat)) 5) w' ∧
        heap w' !! 5%positive = Some (OBytes (lit "hello" ++ NUL :: replicate 10 0)).
Proof.
  apply (Receive_whole_message_is_body os_plain w_listen 1%positive c_listen
           5%positive (replicate 16 0) 1%nat 16 (replicate 10 0)
           (mkReceived None 0 None 0));
    try reflexivity.
  - discriminate.
  - apply (bool_decide_unpack _). vm_compute. exact I.
  - apply (find_from_None _ _ 0). reflexivity.
Defined.

(** X24: a header that was sent is read back from what was received.  When
    the message delivered is a block of headers, the delimiter and a body,
    [IOTCLIENT_Receive] returns EOK with the headers at the start of the
    receive buffer, ended by the NUL it wrote over the delimiter; and
    [IOTCLIENT_GetProperty] on these headers, for the name of the last
    header line, returns EOK with the value of that line. *)
Theorem Receive_then_GetProperty os w l c rx old d msgsize hp name val body b len out :
  heap w !! l = Some (OClient c) →
  rxBuf c = Some rx →
  heap w !! rx = Some (OBytes old) →
  Z.of_nat (length old) = rxBufSize c →
  mq_lookup w (rxMsgQ c) = Some (d, msgsize) →
  msgsize ≤ rxBufSize c →
  os_fail os (clock w) = None →
  take (Z.to_nat msgsize) (os_data os (clock w))
  = hp ++ name ++ COLON :: val ++ LF :: LF :: body →
  NUL ∉ hp → NUL ∉ name →
  (∀ c, c ∈ val → is_end c = false) →
  (∀ j, (j < length hp)%nat → starts name (drop j (hp ++ name)) = false) →
  ¬ occurs [LF; LF] ((hp ++ name ++ COLON :: val) ++ [LF]) →
  (length val < len ≤ length b)%nat →
  let k := length (hp ++ name ++ COLON :: val) in
  ∃ n w' hdr b',
    IOTCLIENT_Receive os (Some l) true out w
    = Ret (EOK, mkReceived (Some (rx, 0%nat)) (Z.of_nat k)
                  (Some (rx, (k + 2)%nat)) n) w' ∧
    heap w' !! rx = Some (OBytes hdr) ∧
    IOTCLIENT_GetProperty (Some hdr) (Some (name ++ [NUL])) (Some b) len
    = (EOK, Some b') ∧
    take (S (length val)) b' = val ++ [NUL].
Proof.
  intros Hl Hrx Hb Hsz Hq Hms Hos Hmsg Hhp Hname Hval Hfirst Hdelim Hlen k.
  set (pre := hp ++ name ++ COLON :: val) in *.
  assert (NUL ∉ pre) as Hpre.
  { unfold pre. rewrite !not_elem_of_app, not_elem_of_cons.
    split; [done|]. split; [done|]. split; [done|]. by apply not_end_not_NUL. }
  set (msg := take (Z.to_nat msgsize) (os_data os (clock w))) in *.
  assert (msg = pre ++ LF :: LF :: body) as Hmsg'.
  { rewrite Hmsg. unfold pre. by rewrite <- !app_assoc. }
  set (tail := drop (length msg) old).
  assert (msg ++ tail = pre ++ LF :: LF :: (body ++ tail)) as Hbuf.
  { rewrite Hmsg'. by rewrite <- app_assoc. }
  destruct (Receive_delimiter_found os w l c rx old d msgsize k out
              Hl Hrx Hb Hsz Hq Hms Hos) as (w' & Hrun & Hheap).
  - fold msg. rewrite Hmsg'. by destruct pre.
  - fold msg. fold tail. rewrite Hbuf. by apply strstr_delimiter.
  - fold msg in Hrun, Hheap. fold tail in Hheap. rewrite Hbuf in Hheap.
    assert (<[k:=NUL]> (pre ++ LF :: LF :: body ++ tail)
            = pre ++ NUL :: LF :: body ++ tail) as Hins.
    { unfold k. rewrite insert_app_r_alt by lia.
      by rewrite Nat.sub_diag. }
    rewrite Hins in Hheap.
    destruct (header_line_last hp name val (LF :: body ++ tail)
                Hhp Hname Hval Hfirst) as (Hp & Hn & Hc & Hv).
    set (hdr := pre ++ NUL :: LF :: body ++ tail) in *.
    assert (hdr = hp ++ name ++ COLON :: val ++ NUL :: LF :: body ++ tail) as Hhdr.
    { unfold hdr, pre. by rewrite <- !app_assoc. }
    rewrite <- Hhdr in Hp, Hc, Hv.
    destruct (GetProperty_found_value hdr (name ++ [NUL]) b len (length hp))
      as (b' & Hget & _ & Hb'); [lia|done|by rewrite Hn|].
    rewrite Hn, Hv in *.
    eexists _, w', hdr, b'. split; [exact Hrun|]. split; [exact Hheap|].
    split; [|apply Hb'; lia].
    rewrite Hget. destruct (Nat.leb_spec len (length val)); [lia|done].
Qed.

Lemma Receive_then_GetProperty_witness :
  ∃ n w' hdr b',
    IOTCLIENT_Receive os_sample (Some 1%positive) true
      (mkReceived None 0 None 0) w_listen
    = Ret (EOK, mkReceived (Some (5%positive, 0%nat)) 3
                  (Some (5%positive, 5%nat)) n) w' ∧
    heap w' !! 5%positive = Some (OBytes hdr) ∧
    IOTCLIENT_GetProperty (Some hdr) (Some (lit "a" ++ [NUL]))
      (Some (replicate 4 7)) 4 = (EOK, Some b') ∧
    take 2 b' = lit "1" ++ [NUL].
Proof.
  apply (Receive_then_GetProperty os_sample w_listen 1%positive c_listen
           5%positive (replicate 16 0) 1%nat 16 [] (lit "a") (lit "1")
           (lit "xy") (replicate 4 7) 4 (mkReceived None 0 None 0)).
  - reflexivity.
  - reflexivity.
  - reflexivity.
  - reflexivity.
  - reflexivity.
  - discriminate.
  - reflexivity.
  - reflexivity.
  - apply not_elem_of_nil.
  - apply (bool_decide_unpack _). vm_compute. exact I.
  - intros c Hc. apply list_elem_of_singleton in Hc. by subst c.
  - intros j Hj. simpl in Hj. lia.
  - apply (find_from_None _ _ 0). reflexivity.
  - simpl. lia.
Defined.

(** * Further properties of sending *)

(** X7: a body below the size limit is written once and the pipe is closed
    again, whatever the write returns: the open descriptors are those of
    before the call.  A write the system refuses gives its error code, with
    nothing accepted by the pipe; a write the pipe takes only in part gives
    EIO, the part being in the pipe; a complete write gives EOK. *)
Theorem SendBody_reports_write os w l c nm path len :
  heap w !! l = Some (OClient c) →
  fifoName c = Some nm →
  heap w !! nm = Some (OBytes path) →
  0 ≤ len < MAX_IOT_MSG_SIZE →
  cstr path ∈ fifos w →
  os_fail os (clock w) = None →
  let t := S (clock w) in
  ∃ rc w', iotclient_SendBody os (Some l) true len w = Ret rc w' ∧
    fds w' = fds w ∧
    match os_fail os t with
    | Some e => rc = Z.pos e ∧ piped w' = piped w
    | None =>
        rc = (if len <=? Z.of_N (os_val os t) then EOK else EIO) ∧
        piped w' = (fresh (fds w), Z.min len (Z.of_N (os_val os t))) :: piped w
    end.
Proof.
  intros Hl Hnm Hp Hlen Hin Hos t.
  destruct (SendBody_run os w l c nm path len Hl Hnm Hp) as
    (rc & w' & Hrun & _ & _ & _ & _ & _ & Hsmall);
    [unfold MAX_IOT_MSG_SIZE, SIZE_MOD in *; lia|done|done|].
  exists rc, w'. split; [done|]. apply Hsmall. lia.
Qed.

Lemma SendBody_reports_write_witness :
  ∃ w', iotclient_SendBody os_short (Some 1%positive) true 5 w_ready
        = Ret EIO w' ∧
        fds w' = fds w_ready ∧ piped w' = [(0%nat, 3)].
Proof.
  destruct (SendBody_reports_write os_short w_ready 1%positive c_ready 3%positive
              (fifo_path 1234 ++ [NUL]) 5)
    as (rc & w' & Hrun & Hfds & Hrc & Hpiped);
    [reflexivity|reflexivity|reflexivity|done| |reflexivity|].
  - apply (bool_decide_unpack _). vm_compute. exact I.
  - exists w'. split; [|split; [exact Hfds|exact Hpiped]].
    rewrite Hrc in Hrun. exact Hrun.
Defined.

(** X8: a body of 256 MiB or more leaves the pipe open.  The pipe is opened
    before the length is looked at and the refusal does not close it: after
    the call returns EMSGSIZE one more descriptor is open than before. *)
Theorem SendBody_too_large_leaves_pipe_open os w l c nm path len :
  heap w !! l = Some (OClient c) →
  fifoName c = Some nm →
  heap w !! nm = Some (OBytes path) →
  MAX_IOT_MSG_SIZE ≤ len < SIZE_MOD →
  cstr path ∈ fifos w →
  os_fail os (clock w) = None →
  ∃ w', iotclient_SendBody os (Some l) true len w = Ret EMSGSIZE w' ∧
    (fresh (fds w) ∉ fds w) ∧
    fds w' = {[fresh (fds w)]} ∪ fds w.
Proof.
  intros Hl Hnm Hp Hlen Hin Hos.
  destruct (SendBody_run os w l c nm path len Hl Hnm Hp) as
    (rc & w' & Hrun & _ & _ & _ & _ & Hbig & _);
    [unfold MAX_IOT_MSG_SIZE in *; lia|done|done|].
  destruct (Hbig ltac:(lia)) as (-> & _ & Hfds & Hfresh).
  by exists w'.
Qed.

Lemma SendBody_too_large_leaves_pipe_open_witness :
  ∃ w', iotclient_SendBody os_sample (Some 1%positive) true MAX_IOT_MSG_SIZE
          w_ready = Ret EMSGSIZE w' ∧
        fds w_ready = ∅ ∧ fds w' = {[0%nat]} ∪ ∅.
Proof.
  destruct (SendBody_too_large_leaves_pipe_open os_sample w_ready 1%positive
              c_ready 3%positive (fifo_path 1234 ++ [NUL]) MAX_IOT_MSG_SIZE)
    as (w' & Hrun & _ & Hfds);
    [reflexivity|reflexivity|reflexivity|done| |reflexivity|].
  - apply (bool_decide_unpack _). vm_compute. exact I.
  - exists w'. split; [exact Hrun|]. split; [reflexivity|exact Hfds].
Defined.

(** X9: when the headers are not sent, [IOTCLIENT_Send] does not touch the
    pipe.  If the frame does not fit the control channel, or the channel
    refuses it, the call returns an error: nothing is sent, no pipe is
    opened and nothing is written. *)
Theorem Send_stops_at_headers os w l c tx txbuf hd d len :
  heap w !! l = Some (OClient c) →
  txBuf c = Some tx →
  heap w !! tx = Some (OBytes txbuf) →
  Z.of_nat (length txbuf) = maxMessageSize c →
  mq_lookup w (txMsgQ c) = Some (d, maxMessageSize c) →
  maxMessageSize c ≤ SIZE_MOD →
  Z.of_nat (strlen hd) + 8 < SIZE_MOD →
  (maxMessageSize c ≤ 8 + Z.of_nat (strlen hd)) ∨ (os_fail os (clock w) ≠ None) →
  ∃ rc w', IOTCLIENT_Send os (Some l) (Some hd) true len w = Ret rc w' ∧
    rc ≠ EOK ∧ sent w' = sent w ∧ piped w' = piped w ∧ fds w' = fds w.
Proof.
  intros Hl Htx Hb Hsz Hq Hmax Hwrap Hcase. unfold IOTCLIENT_Send.
  destruct (Z.le_gt_cases (maxMessageSize c) (8 + Z.of_nat (strlen hd))) as [Hbig|Hfit].
  - destruct (SendHeaders_run os w l c tx txbuf hd d Hl Htx Hb Hsz Hq Hwrap)
      as (_ & Hrun & _).
    mstep (Hrun Hbig). change (EMSGSIZE =? EOK) with false. cbv iota.
    exists EMSGSIZE, w. split; [done|]. split; [done|]. done.
  - destruct Hcase as [?|Hos]; [lia|].
    pose proof (SendHeaders_world os w l c tx txbuf hd d Hl Htx Hb Hsz Hq Hfit Hmax)
      as Hrun. cbv zeta in Hrun.
    destruct (os_fail os (clock w)) as [e|]; [|done].
    mstep Hrun. change (Z.pos e =? EOK) with false. cbv iota.
    eexists _, _. split; [reflexivity|]. simpl. done.
Qed.

Lemma Send_stops_at_headers_witness :
  ∃ rc w', IOTCLIENT_Send os_sample (Some 1%positive)
             (Some (replicate 56 65 ++ [NUL])) true 2 w_ready = Ret rc w' ∧
    rc ≠ EOK ∧ sent w' = [] ∧ piped w' = [] ∧ fds w' = ∅.
Proof.
  destruct (Send_stops_at_headers os_sample w_ready 1%positive c_ready 2%positive
              (replicate 64 0) (replicate 56 65 ++ [NUL]) 0%nat 2)
    as (rc & w' & Hrun & Hrc & Hsent & Hpiped & Hfds);
    [reflexivity|reflexivity|reflexivity|reflexivity|reflexivity|discriminate|
     reflexivity|left; discriminate|].
  exists rc, w'. split; [exact Hrun|]. split; [exact Hrc|].
  split; [exact Hsent|]. split; [exact Hpiped|exact Hfds].
Defined.

(** X10: [IOTCLIENT_Send] sends the headers before it looks at the body and
    takes nothing back.  When the frame fits and the channel accepts it, the
    frame is on the control channel whatever becomes of the body: a body of
    256 MiB or more is refused with EMSGSIZE, nothing piped and the pipe
    left open; a shorter body is written once and the call returns what the
    write gives, the error of the system, EIO for a partial write or EOK. *)
Theorem Send_headers_then_body os w l c tx txbuf nm path hd d len :
  heap w !! l = Some (OClient c) →
  txBuf c = Some tx →
  heap w !! tx = Some (OBytes txbuf) →
  Z.of_nat (length txbuf) = maxMessageSize c →
  mq_lookup w (txMsgQ c) = Some (d, maxMessageSize c) →
  maxMessageSize c ≤ SIZE_MOD →
  fifoName c = Some nm →
  heap w !! nm = Some (OBytes path) →
  tx ≠ nm →
  8 + Z.of_nat (strlen hd) < maxMessageSize c →
  0 ≤ len < SIZE_MOD →
  cstr path ∈ fifos w →
  os_fail os (clock w) = None →
  os_fail os (S (clock w)) = None →
  let frame := preamble ++ pid_bytes (pid c) ++ cstr hd in
  let t := S (S (clock w)) in
  ∃ rc w', IOTCLIENT_Send os (Some l) (Some hd) true len w = Ret rc w' ∧
    sent w' = (d, frame) :: sent w ∧
    (MAX_IOT_MSG_SIZE ≤ len →
       rc = EMSGSIZE ∧ piped w' = piped w ∧ fds w' = {[fresh (fds w)]} ∪ fds w) ∧
    (len < MAX_IOT_MSG_SIZE →
       fds w' = fds w ∧
       match os_fail os t with
       | Some e => rc = Z.pos e ∧ piped w' = piped w
       | None =>
           rc = (if len <=? Z.of_N (os_val os t) then EOK else EIO) ∧
           piped w' = (fresh (fds w), Z.min len (Z.of_N (os_val os t))) :: piped w
       end).
Proof.
  intros Hl Htx Hb Hsz Hq Hmax Hnm Hp Hne Hfit Hlen Hin Hos0 Hos1 frame t.
  unfold IOTCLIENT_Send.
  pose proof (SendHeaders_world os w l c tx txbuf hd d Hl Htx Hb Hsz Hq Hfit Hmax)
    as Hrun. cbv zeta in Hrun. rewrite Hos0 in Hrun. fold frame in Hrun.
  mstep Hrun. change (EOK =? EOK) with true. cbv iota.
  set (w1 := log_sent d frame _).
  assert (heap w1 !! l = Some (OClient c)) as Hl1.
  { unfold w1. simpl. rewrite lookup_insert_ne; [done|].
    intros ->. congruence. }
  assert (heap w1 !! nm = Some (OBytes path)) as Hp1.
  { unfold w1. simpl. by rewrite lookup_insert_ne. }
  destruct (SendBody_run os w1 l c nm path len Hl1 Hnm Hp1 Hlen Hin Hos1)
    as (rc & w' & Hbody & _ & _ & Hsent & _ & Hbig & Hsmall).
  exists rc, w'. split; [exact Hbody|]. split; [by rewrite Hsent|]. split.
  - intros H. destruct (Hbig H) as (? & ? & ? & _). done.
  - intros H. exact (Hsmall H).
Qed.

Lemma Send_headers_then_body_witness :
  ∃ w', IOTCLIENT_Send os_short (Some 1%positive)
          (Some (lit "k:v" ++ [LF; LF; NUL])) true 5 w_ready = Ret EIO w' ∧
    sent w' = [(0%nat, lit "IOTC" ++ [210; 4; 0; 0] ++ lit "k:v" ++ [LF; LF])] ∧
    piped w' = [(0%nat, 3)].
Proof.
  destruct (Send_headers_then_body os_short w_ready 1%positive c_ready 2%positive
              (replicate 64 0) 3%positive (fifo_path 1234 ++ [NUL])
              (lit "k:v" ++ [LF; LF; NUL]) 0%nat 5)
    as (rc & w' & Hrun & Hsent & _ & Hsmall);
    [reflexivity|reflexivity|reflexivity|reflexivity|reflexivity|discriminate|
     reflexivity|reflexivity|discriminate|reflexivity|done| |reflexivity|
     reflexivity|].
  - apply (bool_decide_unpack _). vm_compute. exact I.
  - destruct (Hsmall eq_refl) as (_ & Hrc & Hpiped).
    exists w'. split; [|split; [exact Hsent|exact Hpiped]].
    rewrite Hrc in Hrun. exact Hrun.
Defined.

(** * Further properties of streaming *)

(** X11: [iotclient_StreamBody] closes the pipe it opened.  On a handle
    with a pipe that opens, the call returns EOK, and after it the open
    descriptors, the heap, the queues, the pipes of the file system and the
    control channel are as before; the pipes have accepted at most 256 MiB
    more, whatever the reads and the writes returned. *)
Theorem StreamBody_closes_pipe os fuel w l c nm path fd :
  heap w !! l = Some (OClient c) →
  fifoName c = Some nm →
  heap w !! nm = Some (OBytes path) →
  fd ≠ -1 →
  cstr path ∈ fifos w →
  os_fail os (clock w) = None →
  (Z.to_nat MAX_IOT_MSG_SIZE < fuel)%nat →
  ∃ w', iotclient_StreamBody os fuel (Some l) fd w = Ret EOK w' ∧
    fds w' = fds w ∧ heap w' = heap w ∧ mqs w' = mqs w ∧ fifos w' = fifos w ∧
    sent w' = sent w ∧
    piped_sum w ≤ piped_sum w' ≤ piped_sum w + MAX_IOT_MSG_SIZE.
Proof.
  intros Hl Hnm Hp Hfd Hin Hos Hfuel.
  destruct (StreamBody_run os fuel w l c nm path fd Hl Hnm Hp Hfd Hfuel)
    as (w' & Hrun & H).
  rewrite bool_decide_eq_true_2 in Hrun by done.
  exists w'. split; [exact Hrun|exact H].
Qed.

Lemma StreamBody_closes_pipe_witness :
  ∃ w', iotclient_StreamBody os_sample (S (Z.to_nat MAX_IOT_MSG_SIZE))
          (Some 1%positive) 5 w_ready = Ret EOK w' ∧
    fds w' = ∅ ∧ heap w' = heap w_ready ∧ sent w' = [] ∧
    piped_sum w' ≤ MAX_IOT_MSG_SIZE.
Proof.
  destruct (StreamBody_closes_pipe os_sample (S (Z.to_nat MAX_IOT_MSG_SIZE))
              w_ready 1%positive c_ready 3%positive (fifo_path 1234 ++ [NUL]) 5)
    as (w' & Hrun & Hfds & Hheap & _ & _ & Hsent & _ & Hps);
    [reflexivity|reflexivity|reflexivity|discriminate| |reflexivity|
     apply Nat.lt_succ_diag_r|].
  - apply (bool_decide_unpack _). vm_compute. exact I.
  - exists w'. split; [exact Hrun|]. split; [exact Hfds|].
    split; [exact Hheap|]. split; [exact Hsent|exact Hps].
Defined.

(** X12: a read that fails is taken for a block of data.  The -1 that
    [read] returns is held in a [size_t] and exceeds what is left of the
    ceiling, so the count is cut to the whole ceiling: when the first read
    of the source fails, the function asks the pipe for one write of
    256 MiB from its block of [BUFSIZ] bytes, which reaches the ceiling and
    ends the loop, closes the pipe and returns EOK. *)
Theorem StreamBody_read_error os fuel w l c nm path fd e :
  heap w !! l = Some (OClient c) →
  fifoName c = Some nm →
  heap w !! nm = Some (OBytes path) →
  fd ≠ -1 →
  cstr path ∈ fifos w →
  os_fail os (clock w) = None →
  os_fail os (S (clock w)) = Some e →
  os_fail os (S (S (clock w))) = None →
  (2 ≤ fuel)%nat →
  ∃ w', iotclient_StreamBody os fuel (Some l) fd w = Ret EOK w' ∧
    piped w' = (fresh (fds w),
                Z.min MAX_IOT_MSG_SIZE (Z.of_N (os_val os (S (S (clock w))))))
               :: piped w ∧
    fds w' = fds w.
Proof.
  intros Hl Hnm Hp Hfd Hin Hos Hread Hwrite Hfuel.
  destruct fuel as [|[|fuel]]; [lia|lia|].
  unfold iotclient_StreamBody.
  destruct (Z.eqb_spec fd (-1)); [done|]. cbn [negb].
  mstep (load_client_ok _ _ _ Hl). rewrite Hnm.
  mstep (load_bytes_ok _ _ _ Hp).
  mstep (open_wronly_ok os _ _ Hin Hos).
  set (d := fresh (fds w)).
  destruct (Z.eqb_spec (Z.of_nat d) (-1)); [lia|]. cbn [negb].
  set (w1 := set_fds (union {[d]}) (tick w)).
  cbn [StreamBody_loop]. change (0 <? MAX_IOT_MSG_SIZE) with true. cbv iota.
  assert (read os fd w1 = Ret (-1) (set_errno (Z.pos e) (tick w1))) as Hrd.
  { unfold read, bind, now. simpl. rewrite Hread. reflexivity. }
  mstep Hrd.
  change (MAX_IOT_MSG_SIZE <? to_size_t (-1)) with true. cbv iota.
  change (0 <? MAX_IOT_MSG_SIZE) with true. cbv iota.
  set (w2 := set_errno (Z.pos e) (tick w1)).
  assert (d ∈ fds w2) as Hd2.
  { simpl. apply elem_of_union_l, elem_of_singleton. reflexivity. }
  mstep (write_open os w2 d MAX_IOT_MSG_SIZE Hd2 Hwrite).
  change (to_size_t (0 + MAX_IOT_MSG_SIZE)) with MAX_IOT_MSG_SIZE.
  change (to_size_t (MAX_IOT_MSG_SIZE - MAX_IOT_MSG_SIZE)) with 0.
  change (MAX_IOT_MSG_SIZE <? MAX_IOT_MSG_SIZE) with false. cbv iota.
  mpure. mstep_close. mpure.
  eexists. split; [reflexivity|]. simpl. split; [done|].
  apply fresh_fd_closed.
Qed.

Lemma StreamBody_read_error_witness :
  ∃ w', iotclient_StreamBody os_read_fails 2 (Some 1%positive) 5 w_ready
        = Ret EOK w' ∧
    piped w' = [(0%nat, MAX_IOT_MSG_SIZE)] ∧ fds w' = ∅.
Proof.
  destruct (StreamBody_read_error os_read_fails 2 w_ready 1%positive c_ready
              3%positive (fifo_path 1234 ++ [NUL]) 5 5%positive)
    as (w' & Hrun & Hpiped & Hfds);
    [reflexivity|reflexivity|reflexivity|discriminate| |reflexivity|
     reflexivity|reflexivity|lia|].
  - apply (bool_decide_unpack _). vm_compute. exact I.
  - exists w'. split; [exact Hrun|]. split; [exact Hpiped|exact Hfds].
Defined.

(** X13: a source that does not end is cut at 256 MiB without notice.  On a
    system that refuses no call, whose source always has a full block and
    whose pipe always takes one, the pipe has accepted exactly 256 MiB more
    when the call returns, and the result is EOK. *)
Theorem StreamBody_endless_source os fuel w l c nm path fd :
  (∀ t, os_fail os t = None) →
  (∀ t, Z.pos (BUFSIZ os) ≤ Z.of_N (os_val os t)) →
  Z.pos (BUFSIZ os) < SIZE_MOD →
  heap w !! l = Some (OClient c) →
  fifoName c = Some nm →
  heap w !! nm = Some (OBytes path) →
  fd ≠ -1 →
  cstr path ∈ fifos w →
  (Z.to_nat MAX_IOT_MSG_SIZE < fuel)%nat →
  ∃ w', iotclient_StreamBody os fuel (Some l) fd w = Ret EOK w' ∧
    piped_sum w' = piped_sum w + MAX_IOT_MSG_SIZE.
Proof.
  intros Hok Hval Hbuf Hl Hnm Hp Hfd Hin Hfuel. unfold iotclient_StreamBody.
  destruct (Z.eqb_spec fd (-1)); [done|]. cbn [negb].
  mstep (load_client_ok _ _ _ Hl). rewrite Hnm.
  mstep (load_bytes_ok _ _ _ Hp).
  mstep (open_wronly_ok os _ _ Hin (Hok _)).
  set (d := fresh (fds w)).
  destruct (Z.eqb_spec (Z.of_nat d) (-1)); [lia|]. cbn [negb].
  set (w1 := set_fds (union {[d]}) (tick w)).
  destruct (StreamBody_loop_full os fd d Hok Hval Hbuf fuel 0 MAX_IOT_MSG_SIZE w1)
    as (w' & Hrun & Hps & Hfd');
    [simpl; apply elem_of_union_l, elem_of_singleton; reflexivity
    |done|done|done|lia|].
  mstep Hrun.
  assert (d ∈ fds w') as Hd'.
  { rewrite Hfd'. simpl. apply elem_of_union_l, elem_of_singleton. reflexivity. }
  mstep (close_open _ _ Hd'). mpure. eexists. split; [reflexivity|].
  change (piped_sum (set_fds (λ s : gset nat, s ∖ {[d]}) (tick w')))
    with (piped_sum w').
  exact Hps.
Qed.

Lemma StreamBody_endless_source_witness :
  ∃ w', iotclient_StreamBody os_sample (S (Z.to_nat MAX_IOT_MSG_SIZE))
          (Some 1%positive) 5 w_ready = Ret EOK w' ∧
    piped_sum w' = MAX_IOT_MSG_SIZE.
Proof.
  apply (StreamBody_endless_source os_sample (S (Z.to_nat MAX_IOT_MSG_SIZE))
           w_ready 1%positive c_ready 3%positive (fifo_path 1234 ++ [NUL]) 5).
  - reflexivity.
  - intros t. discriminate.
  - reflexivity.
  - reflexivity.
  - reflexivity.
  - reflexivity.
  - discriminate.
  - apply (bool_decide_unpack _). vm_compute. exact I.
  - apply Nat.lt_succ_diag_r.
Defined.

(** X14: [IOTCLIENT_Stream] sends the headers first and reports only the
    opening of the pipe.  When the frame fits and the control channel
    accepts it, the frame is sent; the result is then EOK when the pipe
    opens and EBADF when it does not, the frame being sent in both cases.
    The open descriptors are as before and the pipes have accepted at most
    256 MiB more. *)
Theorem Stream_headers_then_body os fuel w l c tx txbuf nm path hd d fd :
  heap w !! l = Some (OClient c) →
  txBuf c = Some tx →
  heap w !! tx = Some (OBytes txbuf) →
  Z.of_nat (length txbuf) = maxMessageSize c →
  mq_lookup w (txMsgQ c) = Some (d, maxMessageSize c) →
  maxMessageSize c ≤ SIZE_MOD →
  fifoName c = Some nm →
  heap w !! nm = Some (OBytes path) →
  tx ≠ nm →
  fd ≠ -1 →
  8 + Z.of_nat (strlen hd) < maxMessageSize c →
  os_fail os (clock w) = None →
  (Z.to_nat MAX_IOT_MSG_SIZE < fuel)%nat →
  let frame := preamble ++ pid_bytes (pid c) ++ cstr hd in
  ∃ w', IOTCLIENT_Stream os fuel (Some l) (Some hd) fd w
        = Ret (if bool_decide (cstr path ∈ fifos w ∧
                               os_fail os (S (clock w)) = None)
               then EOK else EBADF) w' ∧
    sent w' = (d, frame) :: sent w ∧
    fds w' = fds w ∧
    piped_sum w ≤ piped_sum w' ≤ piped_sum w + MAX_IOT_MSG_SIZE.
Proof.
  intros Hl Htx Hb Hsz Hq Hmax Hnm Hp Hne Hfd Hfit Hos Hfuel frame.
  unfold IOTCLIENT_Stream.
  destruct (Z.eqb_spec fd (-1)); [done|]. cbn [negb].
  pose proof (SendHeaders_world os w l c tx txbuf hd d Hl Htx Hb Hsz Hq Hfit Hmax)
    as Hrun. cbv zeta in Hrun. rewrite Hos in Hrun. fold frame in Hrun.
  mstep Hrun. change (EOK =? EOK) with true. cbv iota.
  set (w1 := log_sent d frame _).
  assert (heap w1 !! l = Some (OClient c)) as Hl1.
  { unfold w1. simpl. rewrite lookup_insert_ne; [done|].
    intros ->. congruence. }
  assert (heap w1 !! nm = Some (OBytes path)) as Hp1.
  { unfold w1. simpl. by rewrite lookup_insert_ne. }
  destruct (StreamBody_run os fuel w1 l c nm path fd Hl1 Hnm Hp1 Hfd Hfuel)
    as (w' & Hbody & Hfds & _ & _ & _ & Hsent & Hps).
  exists w'. split; [exact Hbody|]. split; [by rewrite Hsent|].
  split; [exact Hfds|exact Hps].
Qed.

Lemma Stream_headers_then_body_witness :
  ∃ w', IOTCLIENT_Stream os_sample (S (Z.to_nat MAX_IOT_MSG_SIZE))
          (Some 1%positive) (Some (lit "k:v" ++ [LF; LF; NUL])) 5 w_ready
        = Ret EOK w' ∧
    sent w' = [(0%nat, lit "IOTC" ++ [210; 4; 0; 0] ++ lit "k:v" ++ [LF; LF])] ∧
    fds w' = ∅.
Proof.
  destruct (Stream_headers_then_body os_sample (S (Z.to_nat MAX_IOT_MSG_SIZE))
              w_ready 1%positive c_ready 2%positive (replicate 64 0) 3%positive
              (fifo_path 1234 ++ [NUL]) (lit "k:v" ++ [LF; LF; NUL]) 0%nat 5)
    as (w' & Hrun & Hsent & Hfds & _);
    [reflexivity|reflexivity|reflexivity|reflexivity|reflexivity|discriminate|
     reflexivity|reflexivity|discriminate|discriminate|reflexivity|reflexivity|
     apply Nat.lt_succ_diag_r|].
  rewrite bool_decide_eq_true_2 in Hrun.
  - exists w'. split; [exact Hrun|]. split; [exact Hsent|exact Hfds].
  - split; [|reflexivity]. apply (bool_decide_unpack _). vm_compute. exact I.
Defined.

(** * Further properties of the life cycle of the handle *)

(** X15: creating a handle and closing it gives back what was acquired,
    and closes queue descriptor 0.  When every step of [IOTCLIENT_Create]
    succeeds, [IOTCLIENT_Close] of the handle returns EOK and the heap and
    the pipes of the file system are as before the handle was created.  The
    receive descriptor of the handle, zero since [calloc] and never set to
    -1, is closed with the rest: a queue the process had open as descriptor
    0 before the handle was created is closed after the pair of calls. *)
Theorem Create_then_Close os w size :
  queues w !! MESSAGE_QUEUE_NAME = Some size →
  cstr (fifo_path (self w) ++ [NUL]) ∉ fifos w →
  (∀ k, (k < 7)%nat → os_fail os (clock w + k) = None) →
  ∃ l w1 w2,
    IOTCLIENT_Create os w = Ret (Some l) w1 ∧
    IOTCLIENT_Close (Some l) w1 = Ret EOK w2 ∧
    heap w2 = heap w ∧ fifos w2 = fifos w ∧
    mqs w2 = delete 0%nat (mqs w).
Proof.
  intros Hq Hpath Hos.
  destruct (Create_world os w size Hq Hpath Hos)
    as (l & tx & nm & w1 & Hrun & Hh & Hfl & Hftx & Hfnm & Hltx & Hlnm & Htxnm
        & Hm & Hf & _).
  cbv zeta in Hrun, Hh.
  set (d := fresh (dom (mqs w))) in *.
  set (c := mkIotClient _ _ _ _ _ _ _ _ _ _) in *.
  set (path := fifo_path (self w) ++ [NUL]) in *.
  assert (heap w1 !! l = Some (OClient c)) as Hl.
  { rewrite Hh. apply lookup_insert_eq. }
  assert (heap w1 !! nm = Some (OBytes path)) as Hnm.
  { rewrite Hh. rewrite lookup_insert_ne by done. apply lookup_insert_eq. }
  assert (heap w1 !! tx = Some (OBytes (replicate (Z.to_nat size) 0))) as Htx.
  { rewrite Hh. rewrite !lookup_insert_ne by done. apply lookup_insert_eq. }
  assert (handle_live w1 l c) as Hlive.
  { split; [exact Hl|].
    split; [intros a [= <-]; eexists; exact Hnm|].
    split; [intros a [= <-]; eexists; exact Htx|].
    split; [intros a [=]|].
    split; [intros a [= <-] [= E]; done|].
    split; [intros a [= <-]; discriminate|].
    intros a [= <-]; discriminate. }
  destruct (Close_live w1 l c Hlive) as (w2 & Hclose & Hh2 & Hm2 & Hf2).
  exists l, w1, w2. split; [exact Hrun|]. split; [exact Hclose|].
  split; [|split].
  - rewrite Hh2, Hh. simpl. apply map_eq. intros i.
    destruct (decide (i = l)) as [->|Hi]; [by rewrite lookup_delete_eq|].
    rewrite lookup_delete_ne by done.
    destruct (decide (i = tx)) as [->|Hi2]; [by rewrite lookup_delete_eq|].
    rewrite lookup_delete_ne by done.
    destruct (decide (i = nm)) as [->|Hi3]; [by rewrite lookup_delete_eq|].
    rewrite lookup_delete_ne by done.
    by rewrite !lookup_insert_ne.
  - rewrite Hf2, Hf. unfold fifo_of. change (fifoName c) with (Some nm).
    cbv iota. rewrite Hnm. simpl. by apply fresh_pipe_removed.
  - rewrite Hm2, Hm. change (rxMsgQ c) with 0. change (txMsgQ c) with (Z.of_nat d).
    unfold closed. destruct (Z.ltb_spec (Z.of_nat d) 0); [lia|].
    change (0 <? 0) with false. cbv iota.
    rewrite Nat2Z.id, delete_insert_eq. change (Z.to_nat 0) with 0%nat.
    f_equal. apply delete_id. apply fresh_mqs.
Qed.

Lemma Create_then_Close_witness :
  ∃ l w1 w2,
    IOTCLIENT_Create os_sample w_busy = Ret (Some l) w1 ∧
    IOTCLIENT_Close (Some l) w1 = Ret EOK w2 ∧
    heap w2 = ∅ ∧ mqs w_busy !! 0%nat = Some 64 ∧ mqs w2 = ∅.
Proof.
  destruct (Create_then_Close os_sample w_busy 64)
    as (l & w1 & w2 & Hcreate & Hclose & Hheap & _ & Hmqs).
  - reflexivity.
  - intros H. exact (not_elem_of_empty _ H).
  - intros k _. reflexivity.
  - exists l, w1, w2. split; [exact Hcreate|]. split; [exact Hclose|].
    split; [exact Hheap|]. split; [reflexivity|].
    rewrite Hmqs. vm_compute. reflexivity.
Defined.

(** X16: a second handle cannot be created in a process, and the attempt
    breaks the first.  The name of the pipe is made of the process id alone,
    so when the pipe of that name exists, [mkfifo] fails and the clean-up
    unlinks the pipe: [IOTCLIENT_Create] returns NULL with the heap and the
    queue descriptors as before, but the pipe is gone from the file system,
    and sending a body through a handle that owned it fails with ENOENT. *)
Theorem Create_twice os w size :
  queues w !! MESSAGE_QUEUE_NAME = Some size →
  cstr (fifo_path (self w) ++ [NUL]) ∈ fifos w →
  (∀ k, (k < 6)%nat → os_fail os (clock w + k) = None) →
  ∃ w', IOTCLIENT_Create os w = Ret None w' ∧
    heap w' = heap w ∧ mqs w' = mqs w ∧
    fifos w' = fifos w ∖ {[cstr (fifo_path (self w) ++ [NUL])]} ∧
    ∀ l0 c0 nm0 p0 len,
      heap w !! l0 = Some (OClient c0) → fifoName c0 = Some nm0 →
      heap w !! nm0 = Some (OBytes p0) →
      cstr p0 = cstr (fifo_path (self w) ++ [NUL]) →
      ∃ w'', iotclient_SendBody os (Some l0) true len w' = Ret ENOENT w''.
Proof.
  intros Hq Hpath Hos.
  assert (∀ k, (k < 6)%nat → os_fail os (k + clock w) = None) as Hos'
    by (intros k Hk; rewrite Nat.add_comm; apply Hos; lia).
  unfold IOTCLIENT_Create.
  mstep (calloc_ok os w (OClient zero_client) (Hos' 0%nat ltac:(lia))).
  set (l := fresh (dom (heap w))).
  set (w1 := set_heap <[l:=OClient zero_client]> (tick w)).
  assert (heap w1 !! l = Some (OClient zero_client)) as Hl1 by apply lookup_insert_eq.
  destruct (CreateTxMessageQueue_ok os w1 l zero_client size Hl1 Hq
              (Hos' 1%nat ltac:(lia)) (Hos' 2%nat ltac:(lia)) (Hos' 3%nat ltac:(lia)))
    as (w2 & Hrun2 & Hh2 & Hm2 & Hf2 & Hd2 & Hq2 & Hs2 & Hc2).
  mstep Hrun2. change (EOK =? EOK) with true. cbv iota.
  set (tx := fresh (dom (heap w1))) in *.
  set (d := fresh (dom (mqs w1))) in *.
  set (c2 := set_txBuf _ _) in *.
  assert (heap w2 !! l = Some (OClient c2)) as Hl2.
  { rewrite Hh2. apply lookup_insert_eq. }
  assert (os_fail os (S (clock w2)) = None) as H5.
  { rewrite Hc2. apply (Hos' 5%nat). lia. }
  assert (cstr (fifo_path (self w2) ++ [NUL]) ∈ fifos w2) as Hpath2.
  { rewrite Hs2, Hf2. exact Hpath. }
  destruct (CreateFIFO_existing os w2 l c2 Hl2 H5 Hpath2)
    as (w3 & Hrun3 & Hh3 & Hm3 & Hf3 & Hd3 & _).
  mstep Hrun3. change (EEXIST =? EOK) with false. cbn [negb].
  set (c3 := set_fifoName None _) in *.
  assert (tx ≠ l) as Htxl by (eapply fresh_ne; exact Hl1).
  assert (heap w !! l = None) as Hfl by apply fresh_heap.
  assert (heap w !! tx = None) as Hftx.
  { pose proof (fresh_heap (heap w1)) as H. fold tx in H.
    unfold w1 in H. simpl in H. by rewrite lookup_insert_ne in H. }
  assert (heap w3 !! l = Some (OClient c3)) as Hl3.
  { rewrite Hh3. apply lookup_insert_eq. }
  assert (bytes_or_null w3 (txBuf c3)) as Htx3.
  { intros a [= <-]. eexists. rewrite Hh3, Hh2.
    rewrite !lookup_insert_ne by done. apply lookup_insert_eq. }
  destruct (DestroyTxMessageQueue_releases w3 l c3 Hl3 Htx3)
    as (w4 & Hrun4 & Hh4 & Hm4 & Hf4).
  mstep Hrun4. mpure. change (EEXIST =? EOK) with false. cbn [negb].
  assert (heap w4 !! l = Some (OClient (set_txMsgQ (-1) (set_txBuf None c3)))) as Hl4.
  { rewrite Hh4. apply lookup_insert_eq. }
  mstep (free_live _ _ _ Hl4). mpure.
  assert (heap (set_heap (delete l) w4) = heap w) as Hheap.
  { simpl. rewrite Hh4, Hh3, Hh2. change (txBuf c3) with (Some tx). simpl.
    unfold w1. simpl. apply map_eq. intros i.
    destruct (decide (i = l)) as [->|Hi]; [by rewrite lookup_delete_eq|].
    rewrite lookup_delete_ne, lookup_insert_ne by done.
    destruct (decide (i = tx)) as [->|Hi2]; [by rewrite lookup_delete_eq|].
    rewrite lookup_delete_ne by done. by rewrite !lookup_insert_ne. }
  assert (fifos (set_heap (delete l) w4)
          = fifos w ∖ {[cstr (fifo_path (self w) ++ [NUL])]}) as Hfifos.
  { simpl. rewrite Hf4, Hf3, Hs2, Hf2. done. }
  eexists. split; [reflexivity|]. split; [exact Hheap|]. split; [|split].
  - simpl. rewrite Hm4, Hm3, Hm2. change (txMsgQ c3) with (Z.of_nat d).
    unfold closed. destruct (Z.ltb_spec (Z.of_nat d) 0); [lia|].
    rewrite Nat2Z.id, delete_insert_eq. apply delete_id. apply fresh_mqs.
  - exact Hfifos.
  - intros l0 c0 nm0 p0 len Hl0 Hnm0 Hp0 Hsame.
    set (w' := set_heap (delete l) w4) in *.
    assert (heap w' !! l0 = Some (OClient c0)) as Hl0' by (by rewrite Hheap).
    assert (heap w' !! nm0 = Some (OBytes p0)) as Hp0' by (by rewrite Hheap).
    unfold iotclient_SendBody.
    mstep (load_client_ok _ _ _ Hl0'). rewrite Hnm0.
    mstep (load_bytes_ok _ _ _ Hp0').
    assert (cstr p0 ∉ fifos w') as Hgone.
    { rewrite Hfifos, Hsame. rewrite elem_of_difference, elem_of_singleton.
      by intros [_ ?]. }
    mstep (open_wronly_missing os _ _ Hgone).
    change (-1 =? -1) with true. cbn [negb]. mpure. eexists. reflexivity.
Qed.

Lemma Create_twice_witness :
  ∃ w', IOTCLIENT_Create os_sample w_ready = Ret None w' ∧
    heap w' = heap w_ready ∧ fifos w' = ∅ ∧
    ∃ w'', iotclient_SendBody os_sample (Some 1%positive) true 2 w'
           = Ret ENOENT w''.
Proof.
  destruct (Create_twice os_sample w_ready 64)
    as (w' & Hrun & Hheap & _ & Hfifos & Hsend).
  - reflexivity.
  - apply (bool_decide_unpack _). vm_compute. exact I.
  - intros k _. reflexivity.
  - exists w'. split; [exact Hrun|]. split; [exact Hheap|]. split.
    + rewrite Hfifos. vm_compute. reflexivity.
    + apply (Hsend 1%positive c_ready 3%positive (fifo_path 1234 ++ [NUL]) 2);
        reflexivity.
Defined.

(** X17: a receiver that was created receives.  After
    [IOTCLIENT_CreateReceiver] made a new queue for messages of up to [size]
    bytes, [IOTCLIENT_Receive] on the handle returns EOK for a message
    [pre ++ "\n\n" ++ post]: the headers are the [length pre] bytes at the
    start of the receive buffer, a fresh block, and the body starts two
    bytes behind them, with the length [length post + 2] the code
    computes. *)
Theorem CreateReceiver_then_Receive os w l c name maxMessages size pre post out :
  heap w !! l = Some (OClient c) →
  queues w !! (lit "/" ++ cstr name) = None →
  0 < size < SIZE_MOD →
  (∀ k, (k < 4)%nat → os_fail os (clock w + k) = None) →
  take (Z.to_nat size) (os_data os (clock w + 3)) = pre ++ LF :: LF :: post →
  NUL ∉ pre → ¬ occurs [LF; LF] (pre ++ [LF]) →
  ∃ rx w1 w2,
    IOTCLIENT_CreateReceiver os (Some l) name maxMessages size w = Ret EOK w1 ∧
    heap w !! rx = None ∧
    IOTCLIENT_Receive os (Some l) true out w1
    = Ret (EOK, mkReceived (Some (rx, 0%nat)) (Z.of_nat (length pre))
                  (Some (rx, (length pre + 2)%nat))
                  (Z.of_nat (length post) + 2)) w2.
Proof.
  intros Hl Hq Hsize Hos Hmsg Hnul Hfirst.
  assert (∀ k, (k < 4)%nat → os_fail os (k + clock w) = None) as Hos'
    by (intros k Hk; rewrite Nat.add_comm; apply Hos; lia).
  destruct (CreateReceiver_run os w l c name maxMessages size Hl
              (Hos' 0%nat ltac:(lia)) (Hos' 1%nat ltac:(lia)) (Hos' 2%nat ltac:(lia)))
    as (rx & w1 & Hrun & Hfrx & Hh & Hm & _ & _ & _ & _ & Hc).
  cbv zeta in Hrun, Hh, Hm. rewrite Hq in Hm. simpl in Hm.
  set (d := fresh (dom (mqs w))) in *.
  set (c' := set_rxMsgQ _ _) in *.
  assert (rx ≠ l) as Hrxl by (intros E; rewrite E, Hl in Hfrx; done).
  assert (heap w1 !! l = Some (OClient c')) as Hl1.
  { rewrite Hh. apply lookup_insert_eq. }
  assert (heap w1 !! rx = Some (OBytes (replicate (Z.to_nat size) 0))) as Hrx1.
  { rewrite Hh. rewrite lookup_insert_ne by done. apply lookup_insert_eq. }
  assert (mq_lookup w1 (rxMsgQ c') = Some (d, size)) as Hq1.
  { apply (mq_lookup_fresh w size w1). exact Hm. }
  assert (os_fail os (clock w1) = None) as Hos1.
  { rewrite Hc. apply (Hos' 3%nat). lia. }
  assert (take (Z.to_nat size) (os_data os (clock w1)) = pre ++ LF :: LF :: post)
    as Hmsg1.
  { rewrite Hc. replace (S (S (S (clock w)))) with (clock w + 3)%nat by lia.
    exact Hmsg. }
  destruct (Receive_delimiter_found os w1 l c' rx (replicate (Z.to_nat size) 0)
              d size (length pre) out Hl1 eq_refl Hrx1) as (w2 & Hrecv & _).
  - rewrite length_replicate. change (rxBufSize c') with size. lia.
  - exact Hq1.
  - change (rxBufSize c') with size. lia.
  - exact Hos1.
  - rewrite Hmsg1. by destruct pre.
  - rewrite Hmsg1. rewrite <- app_assoc. simpl.
    apply strstr_delimiter; done.
  - exists rx, w1, w2. split; [exact Hrun|]. split; [exact Hfrx|].
    rewrite Hrecv, Hmsg1.
    assert (length (pre ++ LF :: LF :: post) ≤ Z.to_nat size)%nat as Hn.
    { rewrite <- Hmsg. rewrite length_take. lia. }
    rewrite length_app in *. simpl in *.
    replace (Z.of_nat (length pre + S (S (length post))) - Z.of_nat (length pre))
      with (Z.of_nat (length post) + 2) by lia.
    unfold to_size_t. rewrite Z.mod_small by lia. reflexivity.
Qed.

Lemma CreateReceiver_then_Receive_witness :
  ∃ rx w1 w2,
    IOTCLIENT_CreateReceiver os_sample (Some 1%positive) (lit "rx" ++ [NUL])
      10 16 w_ready = Ret EOK w1 ∧
    IOTCLIENT_Receive os_sample (Some 1%positive) true
      (mkReceived None 0 None 0) w1
    = Ret (EOK, mkReceived (Some (rx, 0%nat)) 3 (Some (rx, 5%nat)) 4) w2.
Proof.
  destruct (CreateReceiver_then_Receive os_sample w_ready 1%positive c_ready
              (lit "rx" ++ [NUL]) 10 16 (lit "a:1") (lit "xy")
              (mkReceived None 0 None 0))
    as (rx & w1 & w2 & Hcreate & _ & Hrecv).
  - reflexivity.
  - reflexivity.
  - done.
  - intros k _. reflexivity.
  - reflexivity.
  - apply (bool_decide_unpack _). vm_compute. exact I.
  - apply (find_from_None _ _ 0). reflexivity.
  - exists rx, w1, w2. split; [exact Hcreate|exact Hrecv].
Defined.

(** X18: a queue that exists already keeps its message size.  When the
    queue named for the receiver exists with messages longer than [size],
    [IOTCLIENT_CreateReceiver] still returns EOK, with a receive buffer of
    [size] bytes; every [IOTCLIENT_Receive] on the handle then fails with
    EMSGSIZE, the results and the heap untouched. *)
Theorem CreateReceiver_existing_queue os w l c name maxMessages size big out :
  heap w !! l = Some (OClient c) →
  queues w !! (lit "/" ++ cstr name) = Some big →
  0 < size < big →
  (∀ k, (k < 3)%nat → os_fail os (clock w + k) = None) →
  ∃ w1 w2,
    IOTCLIENT_CreateReceiver os (Some l) name maxMessages size w = Ret EOK w1 ∧
    IOTCLIENT_Receive os (Some l) true out w1 = Ret (EMSGSIZE, out) w2 ∧
    heap w2 = heap w1.
Proof.
  intros Hl Hq Hsize Hos.
  assert (∀ k, (k < 3)%nat → os_fail os (k + clock w) = None) as Hos'
    by (intros k Hk; rewrite Nat.add_comm; apply Hos; lia).
  destruct (CreateReceiver_run os w l c name maxMessages size Hl
              (Hos' 0%nat ltac:(lia)) (Hos' 1%nat ltac:(lia)) (Hos' 2%nat ltac:(lia)))
    as (rx & w1 & Hrun & Hfrx & Hh & Hm & _).
  cbv zeta in Hrun, Hh, Hm. rewrite Hq in Hm. simpl in Hm.
  set (d := fresh (dom (mqs w))) in *.
  set (c' := set_rxMsgQ _ _) in *.
  assert (heap w1 !! l = Some (OClient c')) as Hl1.
  { rewrite Hh. apply lookup_insert_eq. }
  assert (mq_lookup w1 (Z.of_nat d) = Some (d, big)) as Hq1.
  { apply (mq_lookup_fresh w big w1). exact Hm. }
  exists w1. eexists. split; [exact Hrun|].
  unfold IOTCLIENT_Receive.
  mstep (load_client_ok _ _ _ Hl1).
  change (rxBuf c') with (Some rx). change (rxMsgQ c') with (Z.of_nat d).
  change (rxBufSize c') with size. cbv iota.
  destruct (Z.eqb_spec (Z.of_nat d) (-1)); [lia|].
  destruct (Z.ltb_spec 0 size); [|lia]. cbn [negb andb].
  assert (mq_receive os (Z.of_nat d) rx size w1
          = Ret (-1) (set_errno EMSGSIZE (tick w1))) as Hrecv.
  { unfold mq_receive, bind, now, get_world. cbn [clock tick].
    change (mq_lookup (tick w1) (Z.of_nat d)) with (mq_lookup w1 (Z.of_nat d)).
    rewrite Hq1. destruct (Z.ltb_spec size big); [done|lia]. }
  mstep Hrecv. change (0 <? -1) with false. cbv iota. mpure.
  split; reflexivity.
Qed.

Lemma CreateReceiver_existing_queue_witness :
  ∃ w1 w2,
    IOTCLIENT_CreateReceiver os_sample (Some 1%positive) (lit "rx" ++ [NUL])
      10 16 w_taken = Ret EOK w1 ∧
    IOTCLIENT_Receive os_sample (Some 1%positive) true
      (mkReceived None 0 None 0) w1
    = Ret (EMSGSIZE, mkReceived None 0 None 0) w2.
Proof.
  destruct (CreateReceiver_existing_queue os_sample w_taken 1%positive c_ready
              (lit "rx" ++ [NUL]) 10 16 64 (mkReceived None 0 None 0))
    as (w1 & w2 & Hcreate & Hrecv & _).
  - reflexivity.
  - reflexivity.
  - done.
  - intros k _. reflexivity.
  - exists w1, w2. split; [exact Hcreate|exact Hrecv].
Defined.

(** X19: creating a receiver again leaks the first.  On a live handle that
    has a receive buffer and an open receive queue,
    [IOTCLIENT_CreateReceiver] overwrites both without releasing them: after
    the call, and after [IOTCLIENT_Close] has freed the handle, the first
    buffer is still allocated and the first descriptor still open. *)
Theorem CreateReceiver_again_leaks os w l c old bs dq sz name maxMessages size :
  handle_live w l c →
  rxBuf c = Some old →
  heap w !! old = Some (OBytes bs) →
  mq_lookup w (rxMsgQ c) = Some (dq, sz) →
  txMsgQ c ≠ rxMsgQ c →
  (∀ k, (k < 3)%nat → os_fail os (clock w + k) = None) →
  ∃ w1 w2,
    IOTCLIENT_CreateReceiver os (Some l) name maxMessages size w = Ret EOK w1 ∧
    IOTCLIENT_Close (Some l) w1 = Ret EOK w2 ∧
    heap w2 !! l = None ∧
    heap w2 !! old = Some (OBytes bs) ∧
    mqs w2 !! dq = Some sz.
Proof.
  intros (Hl & Hnm & Htx & Hrx & Hat & Har & Htr) Hold Hbs Hq Hqne Hos.
  assert (∀ k, (k < 3)%nat → os_fail os (k + clock w) = None) as Hos'
    by (intros k Hk; rewrite Nat.add_comm; apply Hos; lia).
  destruct (CreateReceiver_run os w l c name maxMessages size Hl
              (Hos' 0%nat ltac:(lia)) (Hos' 1%nat ltac:(lia)) (Hos' 2%nat ltac:(lia)))
    as (rx & w1 & Hrun & Hfrx & Hh & Hm & _).
  cbv zeta in Hrun, Hh, Hm.
  set (msgsize := default size _) in *.
  set (d := fresh (dom (mqs w))) in *.
  set (c' := set_rxMsgQ _ _) in *.
  assert (rx ≠ l) as Hrxl by (intros E; rewrite E, Hl in Hfrx; done).
  assert (heap w1 !! l = Some (OClient c')) as Hl1.
  { rewrite Hh. apply lookup_insert_eq. }
  assert (∀ a o, a ≠ l → heap w !! a = Some o → heap w1 !! a = Some o) as Hkeep.
  { intros a o Hal Ha. rewrite Hh. rewrite lookup_insert_ne by done.
    rewrite lookup_insert_ne; [done|]. intros E. rewrite <- E, Hfrx in Ha. done. }
  assert (old ≠ l) as Holdl by (intros E; rewrite E, Hl in Hbs; done).
  assert (old ≠ rx) as Holdrx by (intros E; rewrite E, Hfrx in Hbs; done).
  assert (mqs w !! dq = Some sz) as Hdq.
  { unfold mq_lookup in Hq. destruct (rxMsgQ c <? 0); [done|].
    destruct (mqs w !! Z.to_nat (rxMsgQ c)) eqn:E; [|done].
    inversion Hq. by subst. }
  assert (dq ≠ d) as Hdqd.
  { intros E. rewrite E in Hdq. unfold d in Hdq. by rewrite fresh_mqs in Hdq. }
  assert (handle_live w1 l c') as Hlive.
  { split; [exact Hl1|].
    split.
    { intros a Ha. change (fifoName c') with (fifoName c) in Ha.
      destruct (Hnm a Ha) as [b Hb]. exists b. apply Hkeep; [|done].
      intros E. rewrite E, Hl in Hb. done. }
    split.
    { intros a Ha. change (txBuf c') with (txBuf c) in Ha.
      destruct (Htx a Ha) as [b Hb]. exists b. apply Hkeep; [|done].
      intros E. rewrite E, Hl in Hb. done. }
    split.
    { intros a [= <-]. eexists. rewrite Hh.
      rewrite lookup_insert_ne by done. apply lookup_insert_eq. }
    split; [exact Hat|].
    split.
    { intros a Ha [= <-]. change (fifoName c') with (fifoName c) in Ha.
      destruct (Hnm rx Ha) as [b Hb]. rewrite Hfrx in Hb. done. }
    intros a Ha [= <-]. change (txBuf c') with (txBuf c) in Ha.
    destruct (Htx rx Ha) as [b Hb]. rewrite Hfrx in Hb. done. }
  destruct (Close_live w1 l c' Hlive) as (w2 & Hclose & Hh2 & Hm2 & _).
  exists w1, w2. split; [exact Hrun|]. split; [exact Hclose|].
  split; [rewrite Hh2; apply lookup_delete_eq|]. split.
  - rewrite Hh2. rewrite lookup_delete_ne by done.
    change (rxBuf c') with (Some rx). change (txBuf c') with (txBuf c).
    change (fifoName c') with (fifoName c).
    rewrite !lookup_released.
    rewrite decide_False by congruence.
    rewrite decide_False by (intros E; by apply (Htr old)).
    rewrite decide_False by (intros E; by apply (Har old)).
    by apply Hkeep.
  - rewrite Hm2, Hm. change (rxMsgQ c') with (Z.of_nat d).
    change (txMsgQ c') with (txMsgQ c).
    assert (0 ≤ rxMsgQ c ∧ dq = Z.to_nat (rxMsgQ c)) as [Hrq ->].
    { unfold mq_lookup in Hq. destruct (Z.ltb_spec (rxMsgQ c) 0); [done|].
      destruct (mqs w !! Z.to_nat (rxMsgQ c)); [|done].
      inversion Hq. by subst. }
    unfold closed at 1. destruct (Z.ltb_spec (Z.of_nat d) 0); [lia|].
    rewrite Nat2Z.id. rewrite lookup_delete_ne by done.
    unfold closed. destruct (Z.ltb_spec (txMsgQ c) 0).
    + by rewrite lookup_insert_ne.
    + rewrite lookup_delete_ne by lia. by rewrite lookup_insert_ne.
Qed.

Lemma CreateReceiver_again_leaks_witness :
  ∃ w1 w2,
    IOTCLIENT_CreateReceiver os_sample (Some 1%positive) (lit "r2" ++ [NUL])
      10 16 w_listen = Ret EOK w1 ∧
    IOTCLIENT_Close (Some 1%positive) w1 = Ret EOK w2 ∧
    heap w2 !! 1%positive = None ∧
    heap w2 !! 5%positive = Some (OBytes (replicate 16 0)) ∧
    mqs w2 !! 1%nat = Some 16.
Proof.
  apply (CreateReceiver_again_leaks os_sample w_listen 1%positive c_listen
           5%positive (replicate 16 0) 1%nat 16 (lit "r2" ++ [NUL]) 10 16).
  - split; [reflexivity|].
    split; [intros a [= <-]; eexists; reflexivity|].
    split; [intros a [= <-]; eexists; reflexivity|].
    split; [intros a [= <-]; eexists; reflexivity|].
    split; [intros a [= <-]; discriminate|].
    split; [intros a [= <-]; discriminate|].
    intros a [= <-]; discriminate.
  - reflexivity.
  - reflexivity.
  - reflexivity.
  - discriminate.
  - intros k _. reflexivity.
Defined.

(** X20: [IOTCLIENT_Create] returns a whole handle or none, and a failure
    costs no memory.  On every system and in every state the call returns.
    When it returns NULL, the heap is as before the call: the handle, the
    transmit buffer and the name of the pipe are freed on each of the paths
    that fail.  When it returns a handle, the handle is a block that was not
    allocated before and it owns a transmit buffer and a pipe name, both
    fresh blocks, and no receive buffer. *)
Theorem Create_all_or_nothing os w :
  ∃ r w', IOTCLIENT_Create os w = Ret r w' ∧
    match r with
    | None => heap w' = heap w
    | Some l =>
        heap w !! l = None ∧
        ∃ c tx nm, handle_live w' l c ∧ txBuf c = Some tx ∧
                   fifoName c = Some nm ∧ rxBuf c = None ∧
                   heap w !! tx = None ∧ heap w !! nm = None
    end.
Proof.
  unfold IOTCLIENT_Create.
  destruct (os_fail os (clock w)) as [e|] eqn:H0.
  { mstep (calloc_fails os w (OClient zero_client) e H0).
    eexists _, _. split; [reflexivity|]. done. }
  mstep (calloc_ok os w (OClient zero_client) H0).
  set (l := fresh (dom (heap w))).
  set (w1 := set_heap <[l:=OClient zero_client]> (tick w)).
  assert (heap w !! l = None) as Hfl by apply fresh_heap.
  assert (heap w1 !! l = Some (OClient zero_client)) as Hl1 by apply lookup_insert_eq.
  destruct (CreateTxMessageQueue_cases os w1 l zero_client Hl1)
    as (rc & w2 & Hrun2 & Hf2 & Hs2 & [(-> & size & Hq & Ha & Hb & Hc)|(Hrc & c2 & Hh2 & _)]).
  - (* the channel is open: the outcome rests with the pipe *)
    clear Hrun2 Hf2 Hs2 w2.
    destruct (CreateTxMessageQueue_ok os w1 l zero_client size Hl1 Hq Ha Hb Hc)
      as (w2 & Hrun2 & Hh2 & Hm2 & Hf2 & Hd2 & Hq2 & Hs2 & Hc2).
    mstep Hrun2. change (EOK =? EOK) with true. cbv iota.
    set (tx := fresh (dom (heap w1))) in *.
    set (d := fresh (dom (mqs w1))) in *.
    set (c2 := set_txBuf _ _) in *.
    assert (tx ≠ l) as Htxl by (eapply fresh_ne; exact Hl1).
    assert (heap w !! tx = None) as Hftx.
    { pose proof (fresh_heap (heap w1)) as H. fold tx in H.
      unfold w1 in H. simpl in H. by rewrite lookup_insert_ne in H. }
    assert (heap w2 !! l = Some (OClient c2)) as Hl2.
    { rewrite Hh2. apply lookup_insert_eq. }
    destruct (CreateFIFO_cases os w2 l c2 Hl2)
      as (rc & w3 & Hrun3 & [(-> & H5 & H6 & Hpath)|(Hrc & c3 & Hh3 & Htx3 & Hq3 & Hm3)]).
    + clear Hrun3 w3.
      destruct (CreateFIFO_ok os w2 l c2 Hl2 H5 H6 Hpath)
        as (w3 & Hrun3 & Hh3 & _).
      mstep Hrun3. change (EOK =? EOK) with true. cbn [negb]. mpure.
      change (EOK =? EOK) with true. cbn [negb].
      set (nm := fresh (dom (heap w2))) in *.
      assert (nm ≠ l) as Hnml by (eapply fresh_ne; exact Hl2).
      assert (nm ≠ tx) as Hnmtx.
      { eapply fresh_ne. rewrite Hh2. rewrite lookup_insert_ne by done.
        apply lookup_insert_eq. }
      assert (heap w !! nm = None) as Hfnm.
      { pose proof (fresh_heap (heap w2)) as H. fold nm in H.
        rewrite Hh2 in H. rewrite !lookup_insert_ne in H by done.
        unfold w1 in H. simpl in H. by rewrite lookup_insert_ne in H. }
      eexists _, w3. split; [reflexivity|]. split; [exact Hfl|].
      exists (set_fifoName (Some nm) (set_pid (self w2) c2)), tx, nm.
      split; [|done].
      split; [rewrite Hh3; apply lookup_insert_eq|].
      split.
      { intros a [= <-]. eexists. rewrite Hh3.
        rewrite lookup_insert_ne by done. apply lookup_insert_eq. }
      split.
      { intros a [= <-]. eexists. rewrite Hh3, Hh2.
        rewrite !lookup_insert_ne by done. apply lookup_insert_eq. }
      split; [intros a [=]|].
      split; [intros a [= <-] [= E]; done|].
      split; [intros a [= <-]; discriminate|].
      intros a [= <-]; discriminate.
    + mstep Hrun3.
      assert ((rc =? EOK) = false) as -> by (by apply Z.eqb_neq).
      cbn [negb].
      assert (heap w3 !! l = Some (OClient c3)) as Hl3.
      { rewrite Hh3. apply lookup_insert_eq. }
      assert (bytes_or_null w3 (txBuf c3)) as Hb3.
      { intros a Hbuf. rewrite Htx3 in Hbuf. injection Hbuf as <-.
        eexists. rewrite Hh3, Hh2. rewrite !lookup_insert_ne by done.
        apply lookup_insert_eq. }
      destruct (DestroyTxMessageQueue_releases w3 l c3 Hl3 Hb3)
        as (w4 & Hrun4 & Hh4 & _).
      mstep Hrun4. mpure.
      assert ((rc =? EOK) = false) as -> by (by apply Z.eqb_neq).
      cbn [negb].
      assert (heap w4 !! l = Some (OClient (set_txMsgQ (-1) (set_txBuf None c3)))) as Hl4.
      { rewrite Hh4. apply lookup_insert_eq. }
      mstep (free_live _ _ _ Hl4). mpure.
      eexists _, _. split; [reflexivity|]. simpl.
      rewrite Hh4, Hh3, Hh2, Htx3. simpl. unfold w1. simpl.
      apply map_eq. intros i.
      destruct (decide (i = l)) as [->|Hi]; [by rewrite lookup_delete_eq|].
      rewrite lookup_delete_ne, lookup_insert_ne by done.
      destruct (decide (i = tx)) as [->|Hi2]; [by rewrite lookup_delete_eq|].
      rewrite lookup_delete_ne by done. by rewrite !lookup_insert_ne.
  - mstep Hrun2.
    assert ((rc =? EOK) = false) as -> by (by apply Z.eqb_neq).
    mpure.
    assert ((rc =? EOK) = false) as -> by (by apply Z.eqb_neq).
    cbn [negb].
    assert (heap w2 !! l = Some (OClient c2)) as Hl2.
    { rewrite Hh2. apply lookup_insert_eq. }
    mstep (free_live _ _ _ Hl2). mpure.
    eexists _, _. split; [reflexivity|]. simpl. rewrite Hh2. unfold w1. simpl.
    rewrite insert_insert_eq, delete_insert_eq. apply delete_id. exact Hfl.
Qed.

(** X21: the clean-up functions can be run again.  Each of them resets
    what it released, the pointer to NULL and the descriptor to -1, so a
    second run on the same live handle changes nothing. *)
Theorem Destroy_twice w l c :
  handle_live w l c →
  (∃ w', iotclient_DestroyFIFO (Some l) w = Ret tt w' ∧
         iotclient_DestroyFIFO (Some l) w' = Ret tt w') ∧
  (∃ w', iotclient_DestroyTxMessageQueue (Some l) w = Ret tt w' ∧
         iotclient_DestroyTxMessageQueue (Some l) w' = Ret tt w') ∧
  (∃ w', iotclient_DestroyRxMessageQueue (Some l) w = Ret tt w' ∧
         iotclient_DestroyRxMessageQueue (Some l) w' = Ret tt w').
Proof.
  intros (Hl & Hnm & Htx & Hrx & _). split; [|split].
  - destruct (DestroyFIFO_releases w l c Hl Hnm) as (w' & Hrun & Hh & _).
    exists w'. split; [exact Hrun|].
    assert (heap w' !! l = Some (OClient (set_fifoName None c))) as Hl'.
    { rewrite Hh. apply lookup_insert_eq. }
    unfold iotclient_DestroyFIFO. mstep (load_client_ok _ _ _ Hl'). done.
  - destruct (DestroyTxMessageQueue_releases w l c Hl Htx) as (w' & Hrun & Hh & _).
    exists w'. split; [exact Hrun|].
    assert (heap w' !! l = Some (OClient (set_txMsgQ (-1) (set_txBuf None c)))) as Hl'.
    { rewrite Hh. apply lookup_insert_eq. }
    unfold iotclient_DestroyTxMessageQueue.
    mstep (load_client_ok _ _ _ Hl'). cbn [txBuf set_txMsgQ set_txBuf]. mpure.
    mstep (load_client_ok _ _ _ Hl'). done.
  - destruct (DestroyRxMessageQueue_releases w l c Hl Hrx) as (w' & Hrun & Hh & _).
    exists w'. split; [exact Hrun|].
    assert (heap w' !! l = Some (OClient (set_rxMsgQ (-1) (set_rxBuf None c)))) as Hl'.
    { rewrite Hh. apply lookup_insert_eq. }
    unfold iotclient_DestroyRxMessageQueue.
    mstep (load_client_ok _ _ _ Hl'). cbn [rxBuf set_rxMsgQ set_rxBuf]. mpure.
    mstep (load_client_ok _ _ _ Hl'). done.
Qed.

Lemma Destroy_twice_witness :
  (∃ w', iotclient_DestroyFIFO (Some 1%positive) w_listen = Ret tt w' ∧
         iotclient_DestroyFIFO (Some 1%positive) w' = Ret tt w') ∧
  (∃ w', iotclient_DestroyTxMessageQueue (Some 1%positive) w_listen = Ret tt w' ∧
         iotclient_DestroyTxMessageQueue (Some 1%positive) w' = Ret tt w') ∧
  (∃ w', iotclient_DestroyRxMessageQueue (Some 1%positive) w_listen = Ret tt w' ∧
         iotclient_DestroyRxMessageQueue (Some 1%positive) w' = Ret tt w').
Proof.
  apply (Destroy_twice w_listen 1%positive c_listen).
  split; [reflexivity|].
  split; [intros a [= <-]; eexists; reflexivity|].
  split; [intros a [= <-]; eexists; reflexivity|].
  split; [intros a [= <-]; eexists; reflexivity|].
  split; [intros a [= <-]; discriminate|].
  split; [intros a [= <-]; discriminate|].
  intros a [= <-]; discriminate.
Defined.

(** X22: the verbose flag does not reach the wire.  [IOTCLIENT_SetVerbose]
    on a live handle returns EOK and writes the flag into the handle, which
    it leaves as it was otherwise; headers sent after it give the result and
    the frame they give without it. *)
Theorem SetVerbose_keeps_frame os w l c tx txbuf hd d v :
  heap w !! l = Some (OClient c) →
  txBuf c = Some tx →
  heap w !! tx = Some (OBytes txbuf) →
  Z.of_nat (length txbuf) = maxMessageSize c →
  mq_lookup w (txMsgQ c) = Some (d, maxMessageSize c) →
  8 + Z.of_nat (strlen hd) < maxMessageSize c →
  maxMessageSize c ≤ SIZE_MOD →
  ∃ w1 rc w2 w3,
    IOTCLIENT_SetVerbose (Some l) v w = Ret EOK w1 ∧
    heap w1 = <[l := OClient (set_verbose v c)]> (heap w) ∧
    iotclient_SendHeaders os (Some l) (Some hd) w1 = Ret rc w2 ∧
    iotclient_SendHeaders os (Some l) (Some hd) w = Ret rc w3 ∧
    sent w2 = sent w3.
Proof.
  intros Hl Htx Hb Hsz Hq Hfit Hmax.
  assert (l ≠ tx) as Hne by exact (heap_objects_differ w l tx c txbuf Hl Hb).
  set (w1 := set_heap (insert l (OClient (set_verbose v c))) w).
  assert (IOTCLIENT_SetVerbose (Some l) v w = Ret EOK w1) as Hset.
  { unfold IOTCLIENT_SetVerbose, iotclient_log.
    mstep (update_client_ok _ _ _ (set_verbose v) Hl).
    assert (heap w1 !! l = Some (OClient (set_verbose v c))) as Hl1
      by apply lookup_insert_eq.
    mstep (load_client_ok _ _ _ Hl1). done. }
  assert (heap w1 !! l = Some (OClient (set_verbose v c))) as Hl1
    by apply lookup_insert_eq.
  assert (heap w1 !! tx = Some (OBytes txbuf)) as Hb1.
  { unfold w1. simpl. by rewrite lookup_insert_ne. }
  pose proof (SendHeaders_world os w1 l (set_verbose v c) tx txbuf hd d
                Hl1 Htx Hb1 Hsz Hq Hfit Hmax) as Hrun1.
  pose proof (SendHeaders_world os w l c tx txbuf hd d
                Hl Htx Hb Hsz Hq Hfit Hmax) as Hrun.
  cbv zeta in Hrun1, Hrun. change (clock w1) with (clock w) in Hrun1.
  change (pid (set_verbose v c)) with (pid c) in Hrun1.
  exists w1. destruct (os_fail os (clock w)) as [e|].
  - eexists _, _, _. split; [exact Hset|]. split; [done|].
    split; [exact Hrun1|]. split; [exact Hrun|]. done.
  - eexists _, _, _. split; [exact Hset|]. split; [done|].
    split; [exact Hrun1|]. split; [exact Hrun|]. done.
Qed.

Lemma SetVerbose_keeps_frame_witness :
  ∃ w1 rc w2 w3,
    IOTCLIENT_SetVerbose (Some 1%positive) true w_ready = Ret EOK w1 ∧
    heap w1 = <[1%positive := OClient (set_verbose true c_ready)]> (heap w_ready) ∧
    iotclient_SendHeaders os_sample (Some 1%positive)
      (Some (lit "k:v" ++ [LF; LF; NUL])) w1 = Ret rc w2 ∧
    iotclient_SendHeaders os_sample (Some 1%positive)
      (Some (lit "k:v" ++ [LF; LF; NUL])) w_ready = Ret rc w3 ∧
    sent w2 = sent w3.
Proof.
  apply (SetVerbose_keeps_frame os_sample w_ready 1%positive c_ready 2%positive
           (replicate 64 0) (lit "k:v" ++ [LF; LF; NUL]) 0%nat true).
  - reflexivity.
  - reflexivity.
  - reflexivity.
  - reflexivity.
  - reflexivity.
  - reflexivity.
  - discriminate.
Defined.

(** X23: processes with different ids use different pipes.  The name
    ["/tmp/iothub_%d"] formats for a process id holds no NUL, so the path
    the system calls see is the whole name, and the names of two different
    process ids differ. *)
Theorem fifo_path_distinct (p q : Z) :
  p ≠ q →
  cstr (fifo_path p ++ [NUL]) ≠ cstr (fifo_path q ++ [NUL]).
Proof.
  intros Hpq. rewrite !cstr_terminated by apply fifo_path_no_NUL.
  unfold fifo_path. intros E. apply app_inv_head in E. apply lit_inj in E.
  destruct (to_int_nonnil p) as [Hp1 Hp2]. destruct (to_int_nonnil q) as [Hq1 Hq2].
  pose proof (NilZero.isi _ Hp1 Hp2) as Ep. pose proof (NilZero.isi _ Hq1 Hq2) as Eq.
  rewrite E in Ep. rewrite Ep in Eq. injection Eq as Eq.
  by apply to_int_inj in Eq.
Qed.

Lemma fifo_path_distinct_witness :
  cstr (fifo_path 1234 ++ [NUL]) ≠ cstr (fifo_path 1235 ++ [NUL]).
Proof. apply (fifo_path_distinct 1234 1235). discriminate. Defined.

(** X25: a receiver that could not be created does not receive.
    [IOTCLIENT_CreateReceiver] on a live handle returns on every system;
    when the result is not EOK, the handle is still live, its receive
    descriptor is -1, no queue descriptor was left open, and every
    [IOTCLIENT_Receive] on it returns EINVAL and changes nothing. *)
Theorem CreateReceiver_failure os w l c name maxMessages size :
  heap w !! l = Some (OClient c) →
  ∃ rc w', IOTCLIENT_CreateReceiver os (Some l) name maxMessages size w
           = Ret rc w' ∧
    (rc ≠ EOK →
       ∃ c', heap w' !! l = Some (OClient c') ∧ rxMsgQ c' = -1 ∧
             mqs w' = mqs w ∧
             ∀ os' outs out,
               IOTCLIENT_Receive os' (Some l) outs out w' = Ret (EINVAL, out) w').
Proof.
  intros Hl.
  destruct (os_fail os (clock w)) as [e0|] eqn:H0.
  { unfold IOTCLIENT_CreateReceiver.
    mstep (update_client_ok _ _ _ (set_rxMsgQ (-1)) Hl).
    set (w1 := set_heap _ w).
    assert (os_fail os (clock w1) = Some e0) as H0' by exact H0.
    assert (asprintf os (lit "/" ++ cstr name) w1
            = Ret (-1, None) (set_errno ENOMEM (tick w1))) as Hpr.
    { unfold asprintf. mstep (calloc_fails os w1 (OBytes ((lit "/" ++ cstr name) ++ [NUL])) e0 H0').
      done. }
    mstep Hpr. change (0 <? -1) with false. cbv iota. mpure.
    eexists _, _. split; [reflexivity|]. intros _.
    assert (heap (set_errno ENOMEM (tick w1)) !! l
            = Some (OClient (set_rxMsgQ (-1) c))) as Hl' by apply lookup_insert_eq.
    eexists. split; [exact Hl'|]. split; [done|]. split; [done|].
    intros os' outs out. by apply (Receive_closed _ _ _ _ _ _ Hl'). }
  unfold IOTCLIENT_CreateReceiver.
  mstep (update_client_ok _ _ _ (set_rxMsgQ (-1)) Hl).
  set (w1 := set_heap _ w).
  assert (os_fail os (clock w1) = None) as H0' by exact H0.
  mstep (asprintf_ok os w1 (lit "/" ++ cstr name) H0').
  set (r := fresh (dom (heap w1))).
  assert (r ≠ l) as Hrl.
  { eapply fresh_ne. unfold w1. simpl. apply lookup_insert_eq. }
  assert ((0 <? Z.of_nat (length (lit "/" ++ cstr name))) = true) as ->.
  { apply Z.ltb_lt. rewrite length_app. simpl. lia. }
  set (w2 := set_heap _ (tick w1)).
  assert (heap w2 !! l = Some (OClient (set_rxMsgQ (-1) c))) as Hl2.
  { unfold w2. simpl. rewrite lookup_insert_ne by done. apply lookup_insert_eq. }
  mstep (update_client_ok _ _ _ (set_rxBufSize size) Hl2).
  set (w3 := set_heap _ w2).
  destruct (os_fail os (S (clock w))) as [e1|] eqn:H1.
  { assert (os_fail os (clock w3) = Some e1) as H1' by exact H1.
    mstep (calloc_fails os w3 (OBytes (replicate (Z.to_nat size) 0)) e1 H1').
    set (w4 := set_errno ENOMEM (tick w3)).
    assert (heap w4 !! l = Some (OClient (set_rxBufSize size (set_rxMsgQ (-1) c)))) as Hl4
      by apply lookup_insert_eq.
    mstep (update_client_ok _ _ _ (set_rxBuf None) Hl4). mpure.
    set (w5 := set_heap _ w4).
    assert (heap w5 !! r = Some (OBytes ((lit "/" ++ cstr name) ++ [NUL]))) as Hr5.
    { unfold w5, w4, w3, w2. simpl.
      rewrite !(lookup_insert_ne _ l r) by done. apply lookup_insert_eq. }
    mstep (free_live _ _ _ Hr5). mpure.
    eexists _, _. split; [reflexivity|]. intros _.
    assert (heap (set_heap (delete r) w5) !! l
            = Some (OClient (set_rxBuf None (set_rxBufSize size (set_rxMsgQ (-1) c)))))
      as Hl'.
    { simpl. rewrite lookup_delete_ne by done. apply lookup_insert_eq. }
    eexists. split; [exact Hl'|]. split; [done|]. split; [done|].
    intros os' outs out. by apply (Receive_closed _ _ _ _ _ _ Hl'). }
  assert (os_fail os (clock w3) = None) as H1' by exact H1.
  mstep (calloc_ok os w3 (OBytes (replicate (Z.to_nat size) 0)) H1').
  set (rx := fresh (dom (heap w3))).
  assert (rx ≠ l) as Hrxl.
  { eapply fresh_ne. unfold w3. simpl. apply lookup_insert_eq. }
  assert (rx ≠ r) as Hrxr.
  { eapply fresh_ne. unfold w3, w2. simpl.
    rewrite lookup_insert_ne by done. apply lookup_insert_eq. }
  set (w4 := set_heap _ (tick w3)).
  assert (heap w4 !! l = Some (OClient (set_rxBufSize size (set_rxMsgQ (-1) c)))) as Hl4.
  { unfold w4. simpl. rewrite lookup_insert_ne by done. apply lookup_insert_eq. }
  mstep (update_client_ok _ _ _ (set_rxBuf (Some rx)) Hl4).
  set (w5 := set_heap _ w4).
  destruct (os_fail os (S (S (clock w)))) as [e2|] eqn:H2.
  - assert (mq_open os (lit "/" ++ cstr name) (Some size) w5
            = Ret (-1) (set_errno (Z.pos e2) (tick w5))) as Hopen.
    { unfold mq_open, bind, now, get_world. simpl. by rewrite H2. }
    mstep Hopen.
    set (w6 := set_errno (Z.pos e2) (tick w5)).
    assert (heap w6 !! l = Some (OClient (set_rxBuf (Some rx)
              (set_rxBufSize size (set_rxMsgQ (-1) c))))) as Hl6
      by apply lookup_insert_eq.
    mstep (update_client_ok _ _ _ (set_rxMsgQ (-1)) Hl6).
    change (-1 =? -1) with true. cbn [negb]. mpure.
    set (w7 := set_heap _ w6).
    assert (heap w7 !! r = Some (OBytes ((lit "/" ++ cstr name) ++ [NUL]))) as Hr7.
    { unfold w7, w6, w5, w4, w3, w2. simpl.
      rewrite !(lookup_insert_ne _ l r) by done.
      rewrite (lookup_insert_ne _ rx r) by done.
      rewrite !(lookup_insert_ne _ l r) by done.
      apply lookup_insert_eq. }
    mstep (free_live _ _ _ Hr7). mpure.
    eexists _, _. split; [reflexivity|]. intros _.
    assert (heap (set_heap (delete r) w7) !! l
            = Some (OClient (set_rxMsgQ (-1) (set_rxBuf (Some rx)
                      (set_rxBufSize size (set_rxMsgQ (-1) c)))))) as Hl'.
    { simpl. rewrite lookup_delete_ne by done. apply lookup_insert_eq. }
    eexists. split; [exact Hl'|]. split; [done|]. split; [done|].
    intros os' outs out. by apply (Receive_closed _ _ _ _ _ _ Hl').
  - assert (os_fail os (clock w5) = None) as H2' by exact H2.
    pose proof (mq_open_create os w5 (lit "/" ++ cstr name) size H2') as Hopen.
    cbv zeta in Hopen. mstep Hopen.
    set (d := fresh (dom (mqs w5))).
    set (w6 := set_mqs _ _).
    assert (heap w6 !! l = Some (OClient (set_rxBuf (Some rx)
              (set_rxBufSize size (set_rxMsgQ (-1) c))))) as Hl6
      by apply lookup_insert_eq.
    mstep (update_client_ok _ _ _ (set_rxMsgQ (Z.of_nat d)) Hl6).
    destruct (Z.eqb_spec (Z.of_nat d) (-1)); [lia|]. cbn [negb]. mpure.
    set (w7 := set_heap _ w6).
    assert (heap w7 !! r = Some (OBytes ((lit "/" ++ cstr name) ++ [NUL]))) as Hr7.
    { unfold w7, w6, w5, w4, w3, w2. simpl.
      rewrite !(lookup_insert_ne _ l r) by done.
      rewrite (lookup_insert_ne _ rx r) by done.
      rewrite !(lookup_insert_ne _ l r) by done.
      apply lookup_insert_eq. }
    mstep (free_live _ _ _ Hr7). mpure.
    eexists _, _. split; [reflexivity|]. done.
Qed.

Lemma CreateReceiver_failure_witness :
  ∃ w', IOTCLIENT_CreateReceiver os_read_fails (Some 1%positive)
          (lit "rx" ++ [NUL]) 10 16 w_ready = Ret ENOMEM w' ∧
    mqs w' = mqs w_ready ∧
    IOTCLIENT_Receive os_sample (Some 1%positive) true
      (mkReceived None 0 None 0) w'
    = Ret (EINVAL, mkReceived None 0 None 0) w'.
Proof.
  destruct (CreateReceiver_failure os_read_fails w_ready 1%positive c_ready
              (lit "rx" ++ [NUL]) 10 16) as (rc & w' & Hrun & Hfail);
    [reflexivity|].
  assert (rc = ENOMEM) as ->.
  { vm_compute in Hrun. by injection Hrun as <- _. }
  destruct (Hfail ltac:(discriminate)) as (c' & _ & _ & Hmqs & Hrecv).
  exists w'. split; [exact Hrun|]. split; [exact Hmqs|]. apply Hrecv.
Defined.
